(** * The dashboard's real-time data hook and its CSV export, in Rocq

    A shallow embedding of [useRealTimeData] (hooks/useRealTimeData.js) and of
    [exportToCSV] (utils/exportHelpers.js).

    - JavaScript values are the inductive [jsval]; numbers are restricted to
      the integers that JavaScript prints in plain decimal, which is what the
      generators put in numeric fields.
    - A [Date] is its time value in milliseconds ([Z]); an Invalid Date is
      [None].
    - The hook's React state, its two refs, the browser's [localStorage], the
      table of running interval timers and the console make up a [World].
    - Code runs in the monad [JS]: a state transformer over [World] that
      completes normally or throws.  What was written before a throw stays
      written, as in JavaScript.
    - A callback that reads a state field reads the value that its render
      captured: [toggleRealTime] takes the captured flag as an argument, and
      an event runs the callback of the latest render.  State setters apply
      in call order, to a mounted component.

    The second part of the definitions adds the getters of the hook, the
    other helpers of utils/exportHelpers.js with the handlers of the export
    buttons (Dashboard.jsx), and the generators of utils/dataGenerator.js.

    - An export is the list of what it shows: the files handed to the
      browser and the lines on [console.error].
    - [Math.random] and the arithmetic of doubles on its results come from a
      class, [Randomness]; a generator is a function of the stream of draws.
    - What needs the arithmetic of doubles on data ([createSummaryReport],
      [addTrends]) or local calendar dates ([generateTimeSeriesData]) is not
      part of the model. *)

From Stdlib Require Import ZArith String Ascii List Bool Lia.
From stdpp Require Import base option gmap strings list pretty.
Import ListNotations.

Local Open Scope string_scope.
Local Open Scope Z_scope.

(** ** JavaScript values *)

#[warnings="-register-all"]
Inductive jsval : Type :=
| JUndefined
| JNull
| JBool (b : bool)
| JNum (n : Z)
| JStr (s : string)
| JArr (items : list jsval)
| JObj (fields : list (string * jsval)).

(** ToBoolean: what [if (v)] and [v || d] test. *)
Definition truthy (v : jsval) : bool :=
  match v with
  | JUndefined | JNull => false
  | JBool b => b
  | JNum n => negb (n =? 0)
  | JStr s => negb (String.eqb s "")
  | JArr _ | JObj _ => true
  end.

(** [a || b] *)
Definition js_or (a b : jsval) : jsval := if truthy a then a else b.

(** Own property of an object literal, first match ([undefined] if absent). *)
Fixpoint field (k : string) (fs : list (string * jsval)) : jsval :=
  match fs with
  | [] => JUndefined
  | (k', v) :: rest => if String.eqb k k' then v else field k rest
  end.

(** ** Completions and the [JS] monad *)

Definition exn := string.

Inductive completion (A : Type) : Type :=
| Normal (a : A)
| Throw (e : exn).
Arguments Normal {A} a.
Arguments Throw {A} e.

(** ** The platform: built-ins the code calls but does not define *)

Class Platform := {
  (** [JSON.stringify(v)] for a tree of plain values *)
  JSON_stringify : jsval -> string;
  (** [JSON.parse(s)]; [None] is a SyntaxError *)
  JSON_parse : string -> option jsval;
  (** [d.toISOString()] of a valid date *)
  Date_toISOString : Z -> string;
  (** [new Date(v)]; [None] is an Invalid Date *)
  Date_new : jsval -> option Z;
  (** [JSON.parse] of the empty text is a SyntaxError *)
  JSON_parse_empty : JSON_parse "" = None
}.

(** ** localStorage *)

Record Storage := mkStorage {
  items : gmap string string;
  (** access is denied: every call raises a SecurityError *)
  denied : bool;
  (** [setItem k v] raises a QuotaExceededError *)
  over_quota : string -> string -> bool
}.

Definition storage_with (m : gmap string string) (s : Storage) : Storage :=
  match s with
  | mkStorage _ d q => mkStorage m d q
  end.

(** ** The hook's state *)

Record HookState := mkState {
  salesData : jsval;
  trafficData : jsval;
  productData : jsval;
  kpiData : jsval;
  isRealTime : bool;
  lastUpdated : Z;
  updateCount : Z;
  isLoading : bool;
  error : option string
}.

Inductive level := LogWarn | LogError.

Record World := mkWorld {
  state : HookState;
  (** [intervalRef.current]: [null] or a timer handle (a positive integer) *)
  intervalRef : option positive;
  (** [mountedRef.current] *)
  mountedRef : bool;
  localStorage : Storage;
  (** the interval timers of the hook that are running, oldest first: handle
      and delay *)
  timers : list (positive * Z);
  (** the handle the next [setInterval] returns *)
  nextHandle : positive;
  console : list (level * string)
}.

Definition JS (A : Type) : Type := World -> completion A * World.

#[export] Instance JS_ret : MRet JS := fun A a w => (Normal a, w).
#[export] Instance JS_bind : MBind JS := fun A B f m w =>
  match m w with
  | (Normal a, w') => f a w'
  | (Throw e, w') => (Throw e, w')
  end.

Definition throw {A} (e : exn) : JS A := fun w => (Throw e, w).

Definition lift {A} (c : completion A) : JS A := fun w => (c, w).

(** [try { body } catch (err) { handler }] *)
Definition try_catch {A} (body : JS A) (handler : exn -> JS A) : JS A := fun w =>
  match body w with
  | (Normal a, w') => (Normal a, w')
  | (Throw e, w') => handler e w'
  end.

(** [try { body } finally { fin }] *)
Definition try_finally {A} (body : JS A) (fin : JS unit) : JS A := fun w =>
  match body w with
  | (c, w') =>
      match fin w' with
      | (Normal _, w'') => (c, w'')
      | (Throw e, w'') => (Throw e, w'')
      end
  end.

Definition when (b : bool) (c : JS unit) : JS unit := if b then c else mret tt.

Definition run {A} (c : JS A) (w : World) : World := snd (c w).
Definition result {A} (c : JS A) (w : World) : completion A := fst (c w).

(** ** Primitive effects *)

Definition modify (f : World -> World) : JS unit := fun w => (Normal tt, f w).
Definition reads {A} (f : World -> A) : JS A := fun w => (Normal (f w), w).

(** Field updates.  They take the record apart, so that an update of an
    explicit record computes to an explicit record. *)

Definition with_state (f : HookState -> HookState) (w : World) : World :=
  match w with
  | mkWorld st ref live store running next log => mkWorld (f st) ref live store running next log
  end.

Definition with_intervalRef (r : option positive) (w : World) : World :=
  match w with
  | mkWorld st _ live store running next log => mkWorld st r live store running next log
  end.

Definition with_mountedRef (b : bool) (w : World) : World :=
  match w with
  | mkWorld st ref _ store running next log => mkWorld st ref b store running next log
  end.

Definition with_items (m : gmap string string) (w : World) : World :=
  match w with
  | mkWorld st ref live store running next log =>
      mkWorld st ref live (storage_with m store) running next log
  end.

Definition with_timers (ts : list (positive * Z)) (next : positive) (w : World) : World :=
  match w with
  | mkWorld st ref live store _ _ log => mkWorld st ref live store ts next log
  end.

Definition with_console (c : list (level * string)) (w : World) : World :=
  match w with
  | mkWorld st ref live store running next _ => mkWorld st ref live store running next c
  end.

(** The React state setters, as React applies them to a mounted component.
    React drops an update that reaches a component after its unmount, so
    what a setter makes of the state is meaningful for a live hook only
    ([mountedRef] true). *)

Definition setSalesData (v : jsval) : JS unit :=
  modify (with_state (fun s =>
    match s with
    | mkState _ traffic products kpis active updated count loading err =>
        mkState v traffic products kpis active updated count loading err
    end)).

Definition setTrafficData (v : jsval) : JS unit :=
  modify (with_state (fun s =>
    match s with
    | mkState sales _ products kpis active updated count loading err =>
        mkState sales v products kpis active updated count loading err
    end)).

Definition setProductData (v : jsval) : JS unit :=
  modify (with_state (fun s =>
    match s with
    | mkState sales traffic _ kpis active updated count loading err =>
        mkState sales traffic v kpis active updated count loading err
    end)).

Definition setKpiData (v : jsval) : JS unit :=
  modify (with_state (fun s =>
    match s with
    | mkState sales traffic products _ active updated count loading err =>
        mkState sales traffic products v active updated count loading err
    end)).

Definition setIsRealTime (b : bool) : JS unit :=
  modify (with_state (fun s =>
    match s with
    | mkState sales traffic products kpis _ updated count loading err =>
        mkState sales traffic products kpis b updated count loading err
    end)).

Definition setLastUpdated (d : Z) : JS unit :=
  modify (with_state (fun s =>
    match s with
    | mkState sales traffic products kpis active _ count loading err =>
        mkState sales traffic products kpis active d count loading err
    end)).

(** [setUpdateCount] takes the updater form, [prev => ...]; a plain value is
    the constant updater. *)
Definition setUpdateCount (f : Z -> Z) : JS unit :=
  modify (with_state (fun s =>
    match s with
    | mkState sales traffic products kpis active updated count loading err =>
        mkState sales traffic products kpis active updated (f count) loading err
    end)).

Definition setIsLoading (b : bool) : JS unit :=
  modify (with_state (fun s =>
    match s with
    | mkState sales traffic products kpis active updated count _ err =>
        mkState sales traffic products kpis active updated count b err
    end)).

Definition setError (e : option string) : JS unit :=
  modify (with_state (fun s =>
    match s with
    | mkState sales traffic products kpis active updated count loading _ =>
        mkState sales traffic products kpis active updated count loading e
    end)).

(** [console.warn], [console.error] *)
Definition console_warn (msg : string) : JS unit :=
  modify (fun w => with_console (console w ++ [(LogWarn, msg)]) w).
Definition console_error (msg : string) : JS unit :=
  modify (fun w => with_console (console w ++ [(LogError, msg)]) w).

(** [localStorage.getItem], [setItem], [removeItem] *)
Definition localStorage_getItem (k : string) : JS (option string) := fun w =>
  if denied (localStorage w) then (Throw "SecurityError", w)
  else (Normal (items (localStorage w) !! k), w).

Definition localStorage_setItem (k v : string) : JS unit := fun w =>
  if denied (localStorage w) then (Throw "SecurityError", w)
  else if over_quota (localStorage w) k v then (Throw "QuotaExceededError", w)
  else (Normal tt, with_items (<[k:=v]> (items (localStorage w))) w).

Definition localStorage_removeItem (k : string) : JS unit := fun w =>
  if denied (localStorage w) then (Throw "SecurityError", w)
  else (Normal tt, with_items (delete k (items (localStorage w))) w).

(** [setInterval(callback, delay)].  The hook installs one callback only
    (see [intervalCallback]), so the table keeps the handle and the delay. *)
Definition setInterval (delay : Z) : JS positive := fun w =>
  (Normal (nextHandle w),
   with_timers (timers w ++ [(nextHandle w, delay)]) (Pos.succ (nextHandle w)) w).

(** [clearInterval(h)]: a handle that is not running is ignored. *)
Definition clearInterval (h : positive) : JS unit :=
  modify (fun w =>
    with_timers (List.filter (fun t => negb (Pos.eqb (fst t) h)) (timers w)) (nextHandle w) w).

(** [v.k] for a property name that no prototype defines: a TypeError on
    [null] and [undefined], the own property of an object, else [undefined]. *)
Definition get_prop (v : jsval) (k : string) : JS jsval :=
  match v with
  | JUndefined | JNull => throw "TypeError"
  | JObj fs => mret (field k fs)
  | _ => mret JUndefined
  end.

(** ** The hook *)

Record Options := {
  updateInterval : Z;
  autoStart : bool;
  enablePersistence : bool
}.

(** [options = {}] *)
Definition default_options : Options :=
  {| updateInterval := 5000; autoStart := true; enablePersistence := true |}.

(** What the four imported generators do when one refresh calls them: each
    returns an array or raises. *)
Record Generators := {
  generateSalesData : completion jsval;
  generateTrafficData : completion jsval;
  generateProductData : completion jsval;
  generateKPIData : completion jsval
}.

Definition storage_key : string := "dashboardData".
Arguments storage_key : simpl never.

(** The object literal handed to [persistData]. *)
Definition snapshot (sales traffic products kpis : jsval) (iso : string) : jsval :=
  JObj [("sales", sales); ("traffic", traffic); ("products", products);
        ("kpis", kpis); ("lastUpdated", JStr iso)].

Section Hook.
Context `{Platform}.
Variable options : Options.

Definition persistData (data : jsval) : JS unit :=
  try_catch
    (localStorage_setItem storage_key (JSON_stringify data))
    (fun _ => console_warn "Failed to persist data:").

(** [t_state] and [t_saved] are the clock readings of the two [new Date()]
    in the body, in evaluation order. *)
Definition generateAllData (g : Generators) (t_state t_saved : Z) : JS unit :=
  try_finally
    (try_catch
       (setIsLoading true;;
        setError None;;
        newSalesData ← lift (generateSalesData g);
        newTrafficData ← lift (generateTrafficData g);
        newProductData ← lift (generateProductData g);
        newKpiData ← lift (generateKPIData g);
        mounted ← reads mountedRef;
        when mounted
          (setSalesData newSalesData;;
           setTrafficData newTrafficData;;
           setProductData newProductData;;
           setKpiData newKpiData;;
           setLastUpdated t_state;;
           setUpdateCount (fun prev => prev + 1);;
           when (enablePersistence options)
             (persistData
                (snapshot newSalesData newTrafficData newProductData newKpiData
                   (Date_toISOString t_saved)))))
       (fun _ =>
          console_error "Error generating dashboard data:";;
          setError (Some "Failed to generate dashboard data")))
    (mounted ← reads mountedRef;
     when mounted (setIsLoading false)).

(** [JSON.parse(stored)] *)
Definition parse (stored : string) : JS jsval :=
  match JSON_parse stored with
  | Some v => mret v
  | None => throw "SyntaxError"
  end.

(** [now] is the reading of [new Date()].  A comparison with the NaN of an
    Invalid Date is false. *)
Definition loadPersistedData (now : Z) : JS bool :=
  try_catch
    (stored ← localStorage_getItem storage_key;
     match stored with
     | Some text =>
         if negb (String.eqb text "") then
           data ← parse text;
           stamp ← get_prop data "lastUpdated";
           mounted ← reads mountedRef;
           match Date_new stamp with
           | Some lastUpdate =>
               if (now - lastUpdate <? 3600000) && mounted then
                 sales ← get_prop data "sales";
                 setSalesData (js_or sales (JArr []));;
                 traffic ← get_prop data "traffic";
                 setTrafficData (js_or traffic (JArr []));;
                 products ← get_prop data "products";
                 setProductData (js_or products (JArr []));;
                 kpis ← get_prop data "kpis";
                 setKpiData (js_or kpis (JArr []));;
                 setLastUpdated lastUpdate;;
                 mret true
               else mret false
           | None => mret false
           end
         else mret false
     | None => mret false
     end)
    (fun _ => console_warn "Failed to load persisted data:";; mret false).

Definition startRealTime : JS unit :=
  current ← reads intervalRef;
  match current with
  | Some h => clearInterval h
  | None => mret tt
  end;;
  setIsRealTime true;;
  h ← setInterval (updateInterval options);
  modify (with_intervalRef (Some h)).

Definition stopRealTime : JS unit :=
  current ← reads intervalRef;
  match current with
  | Some h => clearInterval h;; modify (with_intervalRef None)
  | None => mret tt
  end;;
  setIsRealTime false.

(** [toggleRealTime] as a render makes it: [captured] is the [isRealTime] of
    that render ([useCallback] makes the callback anew when the flag
    changes). *)
Definition toggleRealTime (captured : bool) : JS unit :=
  if captured then stopRealTime else startRealTime.

Definition refreshData (g : Generators) (t_state t_saved : Z) : JS unit :=
  generateAllData g t_state t_saved.

Definition clearData : JS unit :=
  setSalesData (JArr []);;
  setTrafficData (JArr []);;
  setProductData (JArr []);;
  setKpiData (JArr []);;
  setUpdateCount (fun _ => 0);;
  when (enablePersistence options)
    (try_catch
       (localStorage_removeItem storage_key)
       (fun _ => console_warn "Failed to clear persisted data:")).

Definition updateDataset (datasetName : string) (newData : jsval) (now : Z) : JS unit :=
  (if String.eqb datasetName "sales" then setSalesData newData
   else if String.eqb datasetName "traffic" then setTrafficData newData
   else if String.eqb datasetName "products" then setProductData newData
   else if String.eqb datasetName "kpis" then setKpiData newData
   else console_warn ("Unknown dataset: " +:+ datasetName));;
  setLastUpdated now.

(** The function given to [setInterval] in [startRealTime]. *)
Definition intervalCallback (g : Generators) (t_state t_saved : Z) : JS unit :=
  mounted ← reads mountedRef;
  when mounted (generateAllData g t_state t_saved).

(** The mount effect ([useEffect(..., [])]) and the cleanup it returns. *)
Definition mountEffect (g : Generators) (now t_state t_saved : Z) : JS unit :=
  dataLoaded ← (if enablePersistence options then loadPersistedData now else mret false);
  when (negb dataLoaded) (generateAllData g t_state t_saved);;
  active ← reads (fun w => isRealTime (state w));
  when (autoStart options && active) startRealTime.

Definition cleanup : JS unit :=
  modify (with_mountedRef false);;
  current ← reads intervalRef;
  match current with
  | Some h => clearInterval h
  | None => mret tt
  end.

(** The effect on [isRealTime] ([useEffect(..., [isRealTime, ...])]). *)
Definition realTimeEffect : JS unit :=
  active ← reads (fun w => isRealTime (state w));
  if active : bool then startRealTime else stopRealTime.

(** One click on the toggle: the handler of the latest render runs, which
    captured the committed flag; the flag changes, so React renders again
    and runs the effect on [isRealTime]. *)
Definition click : JS unit :=
  captured ← reads (fun w => isRealTime (state w));
  toggleRealTime captured;;
  realTimeEffect.

(** The hook before its first effect: the [useState] and [useRef]
    initial values, in a given browser. *)
Definition initial (now : Z) (store : Storage) (next : positive)
    (log : list (level * string)) : World :=
  {| state :=
       {| salesData := JArr []; trafficData := JArr []; productData := JArr [];
          kpiData := JArr []; isRealTime := autoStart options; lastUpdated := now;
          updateCount := 0; isLoading := true; error := None |};
     intervalRef := None; mountedRef := true; localStorage := store;
     timers := []; nextHandle := next; console := log |}.

End Hook.

(** ** The CSV export (utils/exportHelpers.js) *)

Definition comma : ascii := ","%char.
Definition dquote : ascii := "034"%char.
Definition newline : ascii := "010"%char.

(** [s.includes(c)] for a one-character needle *)
Fixpoint includes (c : ascii) (s : string) : bool :=
  match s with
  | EmptyString => false
  | String a rest => Ascii.eqb a c || includes c rest
  end.

(** [s.replace(/c/g, cc)] with [cc] the character [c] twice *)
Fixpoint double_each (c : ascii) (s : string) : string :=
  match s with
  | EmptyString => EmptyString
  | String a rest =>
      if Ascii.eqb a c then String c (String c (double_each c rest))
      else String a (double_each c rest)
  end.

(** ToString, and the element rule of [Array.prototype.join]: [undefined]
    and [null] give the empty string. *)
Fixpoint to_string (v : jsval) : string :=
  match v with
  | JUndefined => "undefined"
  | JNull => "null"
  | JBool true => "true"
  | JBool false => "false"
  | JNum n => pretty n
  | JStr s => s
  | JArr items =>
      String.concat ","
        (map (fun x => match x with
                       | JUndefined | JNull => ""
                       | _ => to_string x
                       end) items)
  | JObj _ => "[object Object]"
  end.

Definition join_element (v : jsval) : string :=
  match v with
  | JUndefined | JNull => ""
  | _ => to_string v
  end.

(** [xs.join(sep)] *)
Definition join (sep : string) (xs : list jsval) : string :=
  String.concat sep (map join_element xs).

(** A record is an object; its fields are in the order [Object.keys] lists
    them. *)
Definition record := list (string * jsval).

Definition Object_keys (r : record) : list string := map fst r.

(** The callback of [headers.map]: the cell of [row] under [header]. *)
Definition csv_cell (row : record) (header : string) : jsval :=
  let value := field header row in
  match value with
  | JStr s =>
      if includes comma s || includes dquote s
      then JStr (String dquote (double_each dquote s) +:+ String dquote EmptyString)
      else value
  | _ => value
  end.

Record Download := {
  content : string;
  filename : string;
  mimeType : string
}.

(** The text handed to [downloadFile], for a non-empty [data]. *)
Definition csvContent (data : list record) : string :=
  let headers := Object_keys (nth 0 data []) in
  join (String newline EmptyString)
    (JStr (join "," (map JStr headers))
     :: map (fun row => JStr (join "," (map (csv_cell row) headers))) data).

(** [exportToCSV(data, filename)] for an array of records: the download it
    triggers, if any.  An array is truthy, so [!data] is false. *)
Definition exportToCSV (data : list record) (name : string) : option Download :=
  if (length data =? 0)%nat then None
  else Some {| content := csvContent data;
               filename := name +:+ ".csv";
               mimeType := "text/csv" |}.

(** ** A reference platform

    One implementation of the built-ins, to run the hook on concrete inputs:
    compact JSON text (no white space, as [JSON.stringify] without an indent
    writes it) and ISO-8601 timestamps of the years 0000 to 9999. *)

Module Reference.

Definition backslash : ascii := "092"%char.

Fixpoint escape (s : string) : string :=
  match s with
  | EmptyString => EmptyString
  | String a rest =>
      if Ascii.eqb a dquote then String backslash (String dquote (escape rest))
      else if Ascii.eqb a backslash then String backslash (String backslash (escape rest))
      else if Ascii.eqb a newline then String backslash (String "n"%char (escape rest))
      else String a (escape rest)
  end.

Definition quote (s : string) : string :=
  String dquote (escape s) +:+ String dquote EmptyString.

(** [undefined] is written as [null] in an array and left out of an object. *)
Fixpoint stringify (v : jsval) : string :=
  match v with
  | JUndefined | JNull => "null"
  | JBool true => "true"
  | JBool false => "false"
  | JNum n => pretty n
  | JStr s => quote s
  | JArr items => "[" +:+ String.concat "," (map stringify items) +:+ "]"
  | JObj fields =>
      "{" +:+
      String.concat ","
        ((fix members (l : list (string * jsval)) : list string :=
            match l with
            | [] => []
            | (k, x) :: rest =>
                match x with
                | JUndefined => members rest
                | _ => (quote k +:+ ":" +:+ stringify x) :: members rest
                end
            end) fields)
      +:+ "}"
  end.

Definition is_digit (a : ascii) : bool :=
  let n := nat_of_ascii a in (48 <=? n)%nat && (n <=? 57)%nat.

Definition digit_value (a : ascii) : Z := Z.of_nat (nat_of_ascii a) - 48.

(** Leading digits of [s] as a number (after [acc]), and what follows. *)
Fixpoint read_digits (acc : Z) (s : string) : Z * string :=
  match s with
  | String a rest =>
      if is_digit a then read_digits (10 * acc + digit_value a) rest else (acc, s)
  | EmptyString => (acc, s)
  end.

(** A run of digits, at least one. *)
Definition read_natural (s : string) : option (Z * string) :=
  match s with
  | String a _ => if is_digit a then Some (read_digits 0 s) else None
  | EmptyString => None
  end.

Definition read_number (s : string) : option (jsval * string) :=
  match s with
  | String a rest =>
      if Ascii.eqb a "-"%char then
        match read_natural rest with
        | Some (n, rest') => Some (JNum (- n), rest')
        | None => None
        end
      else
        match read_natural s with
        | Some (n, rest') => Some (JNum n, rest')
        | None => None
        end
  | EmptyString => None
  end.

(** The characters of a string literal after its opening quote. *)
Fixpoint read_string (s : string) : option (string * string) :=
  match s with
  | EmptyString => None
  | String a rest =>
      if Ascii.eqb a dquote then Some (EmptyString, rest)
      else if Ascii.eqb a backslash then
        match rest with
        | String b rest' =>
            let unescaped :=
              if Ascii.eqb b dquote then Some dquote
              else if Ascii.eqb b backslash then Some backslash
              else if Ascii.eqb b "n"%char then Some newline
              else None in
            match unescaped, read_string rest' with
            | Some c, Some (body, after) => Some (String c body, after)
            | _, _ => None
            end
        | EmptyString => None
        end
      else
        match read_string rest with
        | Some (body, after) => Some (String a body, after)
        | None => None
        end
  end.

(** [s] without its prefix [word]. *)
Fixpoint strip (word s : string) : option string :=
  match word, s with
  | EmptyString, _ => Some s
  | String a word', String b s' => if Ascii.eqb a b then strip word' s' else None
  | String _ _, EmptyString => None
  end.

Definition expect (word : string) (v : jsval) (s : string) : option (jsval * string) :=
  match strip word s with
  | Some rest => Some (v, rest)
  | None => None
  end.

(** Elements after the first, up to the closing bracket. *)
Fixpoint read_items (value : string -> option (jsval * string)) (fuel : nat)
    (s : string) : option (list jsval * string) :=
  match fuel, s with
  | S fuel', String a rest =>
      if Ascii.eqb a "]"%char then Some ([], rest)
      else if Ascii.eqb a ","%char then
        match value rest with
        | Some (v, rest') =>
            match read_items value fuel' rest' with
            | Some (vs, after) => Some (v :: vs, after)
            | None => None
            end
        | None => None
        end
      else None
  | _, _ => None
  end.

Definition read_member (value : string -> option (jsval * string)) (s : string)
    : option ((string * jsval) * string) :=
  match s with
  | String a rest =>
      if Ascii.eqb a dquote then
        match read_string rest with
        | Some (k, String b rest') =>
            if Ascii.eqb b ":"%char then
              match value rest' with
              | Some (v, after) => Some ((k, v), after)
              | None => None
              end
            else None
        | _ => None
        end
      else None
  | EmptyString => None
  end.

(** Members after the first, up to the closing brace. *)
Fixpoint read_members (value : string -> option (jsval * string)) (fuel : nat)
    (s : string) : option (list (string * jsval) * string) :=
  match fuel, s with
  | S fuel', String a rest =>
      if Ascii.eqb a "}"%char then Some ([], rest)
      else if Ascii.eqb a ","%char then
        match read_member value rest with
        | Some (kv, rest') =>
            match read_members value fuel' rest' with
            | Some (kvs, after) => Some (kv :: kvs, after)
            | None => None
            end
        | None => None
        end
      else None
  | _, _ => None
  end.

Fixpoint read_value (fuel : nat) (s : string) : option (jsval * string) :=
  match fuel with
  | O => None
  | S fuel' =>
      match s with
      | EmptyString => None
      | String a rest =>
          if Ascii.eqb a "n"%char then expect "null" JNull s
          else if Ascii.eqb a "t"%char then expect "true" (JBool true) s
          else if Ascii.eqb a "f"%char then expect "false" (JBool false) s
          else if Ascii.eqb a dquote then
            match read_string rest with
            | Some (body, after) => Some (JStr body, after)
            | None => None
            end
          else if Ascii.eqb a "["%char then
            match rest with
            | String b after =>
                if Ascii.eqb b "]"%char then Some (JArr [], after)
                else
                  match read_value fuel' rest with
                  | Some (v, rest') =>
                      match read_items (read_value fuel') fuel' rest' with
                      | Some (vs, after') => Some (JArr (v :: vs), after')
                      | None => None
                      end
                  | None => None
                  end
            | EmptyString => None
            end
          else if Ascii.eqb a "{"%char then
            match rest with
            | String b after =>
                if Ascii.eqb b "}"%char then Some (JObj [], after)
                else
                  match read_member (read_value fuel') rest with
                  | Some (kv, rest') =>
                      match read_members (read_value fuel') fuel' rest' with
                      | Some (kvs, after') => Some (JObj (kv :: kvs), after')
                      | None => None
                      end
                  | None => None
                  end
            | EmptyString => None
            end
          else read_number s
      end
  end.

(** The whole text must be one value; its length bounds the recursion. *)
Definition parse_text (s : string) : option jsval :=
  match read_value (S (String.length s)) s with
  | Some (v, EmptyString) => Some v
  | _ => None
  end.

(** *** Timestamps: the proleptic Gregorian calendar on day numbers *)

Definition civil_from_days (days : Z) : Z * Z * Z :=
  let z := days + 719468 in
  let era := z / 146097 in
  let doe := z - era * 146097 in
  let yoe := (doe - doe / 1460 + doe / 36524 - doe / 146096) / 365 in
  let doy := doe - (365 * yoe + yoe / 4 - yoe / 100) in
  let mp := (5 * doy + 2) / 153 in
  let d := doy - (153 * mp + 2) / 5 + 1 in
  let m := if mp <? 10 then mp + 3 else mp - 9 in
  let y := yoe + era * 400 + (if m <=? 2 then 1 else 0) in
  (y, m, d).

Definition days_from_civil (y m d : Z) : Z :=
  let y' := if m <=? 2 then y - 1 else y in
  let era := y' / 400 in
  let yoe := y' - era * 400 in
  let doy := (153 * (if 2 <? m then m - 3 else m + 9) + 2) / 5 + d - 1 in
  let doe := yoe * 365 + yoe / 4 - yoe / 100 + doy in
  era * 146097 + doe - 719468.

Definition digit (n : Z) : ascii := ascii_of_nat (Z.to_nat (48 + n mod 10)).

Definition pad2 (n : Z) : string :=
  String (digit (n / 10)) (String (digit n) EmptyString).
Definition pad3 (n : Z) : string := String (digit (n / 100)) (pad2 n).
Definition pad4 (n : Z) : string := String (digit (n / 1000)) (pad3 n).

Definition toISOString (t : Z) : string :=
  let '(y, m, d) := civil_from_days (t / 86400000) in
  let ms := t mod 86400000 in
  pad4 y +:+ "-" +:+ pad2 m +:+ "-" +:+ pad2 d +:+ "T" +:+
  pad2 (ms / 3600000) +:+ ":" +:+ pad2 (ms / 60000 mod 60) +:+ ":" +:+
  pad2 (ms / 1000 mod 60) +:+ "." +:+ pad3 (ms mod 1000) +:+ "Z".

(** [len] digits at [start], as a number. *)
Definition digits_at (start len : nat) (s : string) : option Z :=
  let part := String.substring start len s in
  match read_digits 0 part with
  | (n, EmptyString) => if (String.length part =? len)%nat then Some n else None
  | _ => None
  end.

Definition char_at (i : nat) (c : ascii) (s : string) : bool :=
  match String.get i s with
  | Some a => Ascii.eqb a c
  | None => false
  end.

(** The format [toISOString] writes: [YYYY-MM-DDTHH:mm:ss.sssZ]. *)
Definition parse_iso (s : string) : option Z :=
  if (String.length s =? 24)%nat
     && char_at 4 "-" s && char_at 7 "-" s && char_at 10 "T" s
     && char_at 13 ":" s && char_at 16 ":" s && char_at 19 "." s
     && char_at 23 "Z" s
  then
    match digits_at 0 4 s, digits_at 5 2 s, digits_at 8 2 s,
          digits_at 11 2 s, digits_at 14 2 s, digits_at 17 2 s,
          digits_at 20 3 s with
    | Some y, Some m, Some d, Some hh, Some mm, Some ss, Some ms =>
        if (1 <=? m) && (m <=? 12) && (1 <=? d) && (d <=? 31)
           && (hh <=? 23) && (mm <=? 59) && (ss <=? 59)
        then Some (days_from_civil y m d * 86400000
                   + hh * 3600000 + mm * 60000 + ss * 1000 + ms)
        else None
    | _, _, _, _, _, _, _ => None
    end
  else None.

(** [new Date(v)]: a number is a time value, [null] is 0, a boolean 0 or 1;
    a string is read in the ISO format only. *)
Definition date_of (v : jsval) : option Z :=
  match v with
  | JNum n => Some n
  | JNull => Some 0
  | JBool b => Some (if b then 1 else 0)
  | JStr s => parse_iso s
  | JUndefined | JArr _ | JObj _ => None
  end.

(** *** What the codec reads back *)

(** The text does not go on with a digit. *)
Definition stops (rest : string) : Prop :=
  match rest with
  | String a _ => is_digit a = false
  | EmptyString => True
  end.

(** What a value can start with. *)
Definition value_start (c : ascii) : bool :=
  is_digit c || Ascii.eqb c "-" || Ascii.eqb c "n" || Ascii.eqb c "t" || Ascii.eqb c "f"
  || Ascii.eqb c dquote || Ascii.eqb c "[" || Ascii.eqb c "{".

(** Values that JSON text can hold: no [undefined] anywhere. *)
Fixpoint plain (v : jsval) : bool :=
  match v with
  | JUndefined => false
  | JArr items => forallb plain items
  | JObj fields => forallb (fun kv => let '(_, x) := kv in plain x) fields
  | _ => true
  end.

(** The recursion depth [read_value] needs for a value. *)
Fixpoint need (v : jsval) : nat :=
  match v with
  | JArr items => S (Nat.max (length items) (list_max (map need items)))
  | JObj fields =>
      S (Nat.max (length fields)
           (list_max (map (fun kv => let '(_, x) := kv in need x) fields)))
  | _ => 1
  end.

(** The text of the elements after the first, each behind its comma. *)
Fixpoint tail_text (texts : list string) : string :=
  match texts with
  | [] => ""
  | t :: ts => "," +:+ t +:+ tail_text ts
  end.

(** The text of one member of an object. *)
Definition member_text (kv : string * jsval) : string :=
  quote (fst kv) +:+ ":" +:+ stringify (snd kv).

(** The timestamp of a date and a time of day, written in the ISO format. *)
Definition iso_text (y m d hh mm ss ms : Z) : string :=
  pad4 y +:+ "-" +:+ pad2 m +:+ "-" +:+ pad2 d +:+ "T" +:+
  pad2 hh +:+ ":" +:+ pad2 mm +:+ ":" +:+ pad2 ss +:+ "." +:+ pad3 ms +:+ "Z".

#[export] Instance platform : Platform :=
  {| JSON_stringify := stringify;
     JSON_parse := parse_text;
     Date_toISOString := toISOString;
     Date_new := date_of;
     JSON_parse_empty := eq_refl |}.

End Reference.

(** ** Vocabulary of the properties *)

Definition failed {A} (c : completion A) : bool :=
  match c with
  | Throw _ => true
  | Normal _ => false
  end.

(** Some generator raises during the refresh. *)
Definition generation_fails (g : Generators) : bool :=
  failed (generateSalesData g) || failed (generateTrafficData g)
  || failed (generateProductData g) || failed (generateKPIData g).

(** All four generators return. *)
Definition generates (g : Generators) (sales traffic products kpis : jsval) : Prop :=
  generateSalesData g = Normal sales /\ generateTrafficData g = Normal traffic /\
  generateProductData g = Normal products /\ generateKPIData g = Normal kpis.

Definition is_array (v : jsval) : bool :=
  match v with
  | JArr _ => true
  | _ => false
  end.

(** A snapshot that can be saved: four arrays, and a timestamp, that the
    platform writes and reads back unchanged. *)
Definition well_formed `{Platform} (sales traffic products kpis : jsval) (t : Z) : Prop :=
  is_array sales = true /\ is_array traffic = true /\
  is_array products = true /\ is_array kpis = true /\
  JSON_parse (JSON_stringify (snapshot sales traffic products kpis (Date_toISOString t)))
  = Some (snapshot sales traffic products kpis (Date_toISOString t)) /\
  Date_new (JStr (Date_toISOString t)) = Some t.

(** The staleness window of [loadPersistedData], in milliseconds. *)
Definition staleness_window : Z := 3600000.

(** The timer with handle [h] is running. *)
Definition running (h : positive) (w : World) : Prop := In h (map fst (timers w)).

(** The table after [clearInterval] of what [intervalRef] holds, if anything. *)
Definition cancelled (ref : option positive) (ts : list (positive * Z)) : list (positive * Z) :=
  match ref with
  | Some h => List.filter (fun t => negb (Pos.eqb (fst t) h)) ts
  | None => ts
  end.

(** Every running timer is the one [intervalRef] holds. *)
Definition owned (w : World) : Prop :=
  forall t, In t (timers w) -> intervalRef w = Some (fst t).

(** Between [before] and [after] a timer was installed and the flag raised:
    the ref holds the new handle, which is running. *)
Definition timer_started (before after : World) : Prop :=
  isRealTime (state after) = true /\
  intervalRef after = Some (nextHandle before) /\
  running (nextHandle before) after.

(** Between [before] and [after] the timer was cancelled and the flag
    lowered: the ref is null, and what it held is not running. *)
Definition timer_stopped (before after : World) : Prop :=
  isRealTime (state after) = false /\
  intervalRef after = None /\
  (forall h, intervalRef before = Some h -> ~ running h after).

(** The dataset names [updateDataset] knows. *)
Definition known_dataset (name : string) : bool :=
  String.eqb name "sales" || String.eqb name "traffic"
  || String.eqb name "products" || String.eqb name "kpis".

(** An active live hook has its timer running, and the ref holds it. *)
Definition synced (w : World) : Prop :=
  mountedRef w = true -> isRealTime (state w) = true ->
  exists h, intervalRef w = Some h /\ running h w.

(** Two worlds with the same timers, refs and active flag. *)
Definition same_timers (w w' : World) : Prop :=
  timers w' = timers w /\ intervalRef w' = intervalRef w /\
  nextHandle w' = nextHandle w /\ mountedRef w' = mountedRef w /\
  isRealTime (state w') = isRealTime (state w).

(** A computation is quiet when it completes normally and leaves the
    timers, the refs and the active flag alone. *)
Definition quiet {A} (c : JS A) : Prop :=
  forall w, (exists a, result c w = Normal a) /\ same_timers w (run c w).

(** What an event does to the timers: nothing, or a start, a stop or a
    cleanup after something that does nothing to them. *)
Inductive timer_step (options : Options) (w w' : World) : Prop :=
| step_quiet : same_timers w w' -> timer_step options w w'
| step_start w1 :
    same_timers w w1 -> w' = run (startRealTime options) w1 -> timer_step options w w'
| step_stop : w' = run stopRealTime w -> timer_step options w w'
| step_cleanup : w' = run cleanup w -> timer_step options w w'.

(** A timer fires: the scheduler calls the callback of a running timer only. *)
Definition fire `{Platform} (options : Options) (h : positive)
    (g : Generators) (t_state t_saved : Z) : JS unit := fun w =>
  if existsb (fun t => Pos.eqb (fst t) h) (timers w)
  then intervalCallback options g t_state t_saved w
  else (Normal tt, w).

(** One delay passes: each timer running at its start fires once. *)
Definition period `{Platform} (options : Options)
    (g : Generators) (t_state t_saved : Z) (w : World) : World :=
  fold_left (fun acc t => run (fire options (fst t) g t_state t_saved) acc) (timers w) w.

(** An observation window: one entry per delay, with what the generators and
    the clock give during it. *)
Definition window `{Platform} (options : Options)
    (ticks : list (Generators * Z * Z)) (w : World) : World :=
  fold_left (fun acc '(g, t_state, t_saved) => period options g t_state t_saved acc) ticks w.

(** What can happen to a mounted hook. *)
Inductive event :=
| Mount (g : Generators) (now t_state t_saved : Z)
| Toggle
| Start
| Stop
| Refresh (g : Generators) (t_state t_saved : Z)
| Clear
| UpdateDataset (datasetName : string) (newData : jsval) (now : Z)
| Tick (g : Generators) (t_state t_saved : Z)
| RealTimeEffect
| Unmount.

Definition handle `{Platform} (options : Options) (e : event) : JS unit :=
  match e with
  | Mount g now t_state t_saved => mountEffect options g now t_state t_saved
  | Toggle =>
      captured ← reads (fun w => isRealTime (state w));
      toggleRealTime options captured
  | Start => startRealTime options
  | Stop => stopRealTime
  | Refresh g t_state t_saved => refreshData options g t_state t_saved
  | Clear => clearData options
  | UpdateDataset datasetName newData now => updateDataset datasetName newData now
  | Tick g t_state t_saved => intervalCallback options g t_state t_saved
  | RealTimeEffect => realTimeEffect options
  | Unmount => cleanup
  end.

(** The hook once React has run its two effects, in the order the source
    declares them. *)
Definition mounted `{Platform} (options : Options) (g : Generators)
    (now t_state t_saved : Z) (store : Storage) (next : positive)
    (log : list (level * string)) : World :=
  run (realTimeEffect options)
    (run (mountEffect options g now t_state t_saved) (initial options now store next log)).

(** The hook after a history of events, oldest first. *)
Definition after `{Platform} (options : Options) (history : list event) (w : World) : World :=
  fold_left (fun acc e => run (handle options e) acc) history w.

(** ** The delimited-text format, as the specification words it *)

Module DelimitedText.

(** A field of a record of the data model: a number or a text. *)
Definition scalar (v : jsval) : bool :=
  match v with
  | JNum _ | JStr _ => true
  | _ => false
  end.

Definition scalar_record (r : record) : Prop := Forall (fun kv => scalar (snd kv) = true) r.

Definition has_comma_or_quote (s : string) : bool :=
  existsb (fun a => Ascii.eqb a comma || Ascii.eqb a dquote) (list_ascii_of_string s).

(** Each quote character written twice. *)
Definition doubled_quotes (s : string) : string :=
  string_of_list_ascii
    (flat_map (fun a => if Ascii.eqb a dquote then [dquote; dquote] else [a])
       (list_ascii_of_string s)).

Definition wrapped (s : string) : string :=
  String dquote (doubled_quotes s +:+ String dquote EmptyString).

(** A value as it stands: a number in decimal, a text unchanged; a record
    that lacks the field leaves it empty. *)
Definition bare (v : jsval) : string :=
  match v with
  | JNum n => pretty n
  | JStr s => s
  | _ => ""
  end.

Definition cell (v : jsval) : string :=
  match v with
  | JStr s => if has_comma_or_quote s then wrapped s else s
  | _ => bare v
  end.

Definition header_line (first : record) : string := String.concat "," (map fst first).

Definition record_line (first r : record) : string :=
  String.concat "," (map (fun name => cell (field name r)) (map fst first)).

Definition lines (records : list record) : list string :=
  match records with
  | [] => []
  | first :: _ => header_line first :: map (record_line first) records
  end.

Definition toDelimitedText (records : list record) : option string :=
  match records with
  | [] => None
  | _ :: _ => Some (String.concat (String newline EmptyString) (lines records))
  end.

End DelimitedText.

(** ** Concrete inputs *)

Module Examples.

Definition store : Storage :=
  {| items := ∅; denied := false; over_quota := fun _ _ => false |}.

(** A browser whose storage refuses every call. *)
Definition locked_store : Storage :=
  {| items := ∅; denied := true; over_quota := fun _ _ => false |}.

Definition sales : jsval :=
  JArr [JObj [("month", JStr "Oct"); ("revenue", JNum 45000); ("orders", JNum 320);
              ("customers", JNum 180); ("conversion", JStr "3.2")];
        JObj [("month", JStr "Nov"); ("revenue", JNum 61250); ("orders", JNum 411);
              ("customers", JNum 205); ("conversion", JStr "4.7")]].

Definition traffic : jsval :=
  JArr [JObj [("time", JStr "00:00"); ("visitors", JNum 1250); ("pageViews", JNum 3200);
              ("bounceRate", JStr "32.1")]].

Definition products : jsval :=
  JArr [JObj [("name", JStr "Home & Garden"); ("color", JStr "#ff7300"); ("value", JNum 27)]].

Definition kpis : jsval :=
  JArr [JObj [("title", JStr "Total Revenue"); ("icon", JStr "DollarSign");
              ("color", JStr "text-green-600"); ("bgColor", JStr "bg-green-100");
              ("value", JStr "$245K"); ("change", JStr "+12.5%"); ("trend", JStr "up")]].

Definition working : Generators :=
  {| generateSalesData := Normal sales; generateTrafficData := Normal traffic;
     generateProductData := Normal products; generateKPIData := Normal kpis |}.

(** The third generator raises. *)
Definition broken : Generators :=
  {| generateSalesData := Normal sales; generateTrafficData := Normal traffic;
     generateProductData := Throw "Error"; generateKPIData := Normal kpis |}.

(** 2026-11-02T05:40:00.000Z *)
Definition morning : Z := 1793598000000.

Definition no_persistence : Options :=
  {| updateInterval := 5000; autoStart := true; enablePersistence := false |}.

(** A hook that has just been created, and one that has refreshed once. *)
Definition created : World := initial default_options morning store 1%positive [].

Definition refreshed : World :=
  run (refreshData (H := Reference.platform) default_options working morning morning) created.

(** The page is loaded again a minute later, over the same storage. *)
Definition reloaded : World :=
  initial default_options (morning + 60000) (localStorage refreshed) 1%positive [].

(** The records of the delimited-text example:
    [{a: 1, b: x,y}, {a: 2, b: z}], the first [b] holding a comma. *)
Definition two_records : list record :=
  [[("a", JNum 1); ("b", JStr "x,y")]; [("a", JNum 2); ("b", JStr "z")]].

(** Header [a,b], then [1,] and the quoted [x,y], then [2,z]. *)
Definition two_records_text : string :=
  "a,b" +:+ String newline ("1," +:+ String dquote ("x,y" +:+ String dquote
    (String newline "2,z"))).

(** A hook in a browser whose storage refuses every call. *)
Definition locked : World := initial default_options morning locked_store 1%positive [].

(** A page whose slot holds a text that is not JSON. *)
Definition garbled : World :=
  initial default_options morning
    {| items := {[storage_key := "{oops"]}; denied := false; over_quota := fun _ _ => false |}
    1%positive [].

(** A refreshed hook whose timer is running. *)
Definition ticking : World := run (startRealTime default_options) refreshed.

(** A hook without persistence, in a browser that holds a snapshot of an
    earlier session. *)
Definition left_over : World :=
  initial no_persistence morning (localStorage refreshed) 1%positive [].

End Examples.

(** ** More of the repository

    The rest of the hook, the other export helpers with the handlers of the
    dashboard's export buttons (Dashboard.jsx), and the data generators
    (utils/dataGenerator.js). *)

(** *** Timers *)

(** At most one timer runs: the one [intervalRef] holds, with the delay of
    the options. *)
Definition single (options : Options) (w : World) : Prop :=
  timers w = []
  \/ exists h, timers w = [(h, updateInterval options)] /\ intervalRef w = Some h.

(** A running timer shows in the active flag. *)
Definition flagged (w : World) : Prop :=
  timers w <> [] -> isRealTime (state w) = true.

(** The events that ask for new data: a manual refresh and a tick. *)
Definition refreshing (e : event) : bool :=
  match e with
  | Refresh _ _ _ | Tick _ _ _ => true
  | _ => false
  end.

(** *** The getters of the hook *)

(** [getDashboardData()]: the object the hook hands out.  [lastUpdated] is a
    [Date], kept as its time value. *)
Record Metadata := {
  meta_lastUpdated : Z;
  meta_updateCount : Z;
  meta_isRealTime : bool;
  meta_isLoading : bool;
  meta_error : option string
}.

Record DashboardData := {
  data_salesData : jsval;
  data_trafficData : jsval;
  data_productData : jsval;
  data_kpis : jsval;
  data_metadata : Metadata
}.

Definition getDashboardData (s : HookState) : DashboardData :=
  {| data_salesData := salesData s;
     data_trafficData := trafficData s;
     data_productData := productData s;
     data_kpis := kpiData s;
     data_metadata :=
       {| meta_lastUpdated := lastUpdated s;
          meta_updateCount := updateCount s;
          meta_isRealTime := isRealTime s;
          meta_isLoading := isLoading s;
          meta_error := error s |} |}.

Record DataStats := {
  salesDataPoints : Z;
  trafficDataPoints : Z;
  productCategories : Z;
  kpiCount : Z;
  totalDataPoints : Z;
  lastUpdateTime : string;
  updateFrequency : Z;
  isActive : bool
}.

(** [v.length] of an array.  [None]: [v] is not an array. *)
Definition array_length (v : jsval) : option Z :=
  match v with
  | JArr items => Some (Z.of_nat (length items))
  | _ => None
  end.

(** [getDataStats()], for sequences that are arrays. *)
Definition getDataStats `{Platform} (options : Options) (s : HookState) : option DataStats :=
  sales ← array_length (salesData s);
  traffic ← array_length (trafficData s);
  products ← array_length (productData s);
  kpis ← array_length (kpiData s);
  Some {| salesDataPoints := sales;
          trafficDataPoints := traffic;
          productCategories := products;
          kpiCount := kpis;
          totalDataPoints := sales + traffic + products + kpis;
          lastUpdateTime := Date_toISOString (lastUpdated s);
          updateFrequency := updateInterval options;
          isActive := isRealTime s |}.

(** *** The other exports (utils/exportHelpers.js) *)

(** What an export shows: a file handed to the browser by [downloadFile],
    or a line on [console.error]. *)
Inductive export_event :=
| Downloaded (file : Download)
| Reported (message : string).

Definition downloads (events : list export_event) : list Download :=
  omap (fun e => match e with Downloaded file => Some file | Reported _ => None end) events.

Definition reports (events : list export_event) : list string :=
  omap (fun e => match e with Reported message => Some message | Downloaded _ => None end) events.

(** [s.split(c)[0]]: the text before the first [c], all of it if there is
    none. *)
Fixpoint split_first (c : ascii) (s : string) : string :=
  match s with
  | EmptyString => EmptyString
  | String a rest => if Ascii.eqb a c then EmptyString else String a (split_first c rest)
  end.

(** The array of records a value is, if it is one. *)
Definition as_records (v : jsval) : option (list record) :=
  match v with
  | JArr items => mapM (fun x => match x with JObj fs => Some fs | _ => None end) items
  | _ => None
  end.

(** [v?.length || 0] *)
Definition length_or_zero (v : jsval) : jsval :=
  match v with
  | JUndefined | JNull | JBool _ | JNum _ => JNum 0
  | JStr s => JNum (Z.of_nat (String.length s))
  | JArr items => JNum (Z.of_nat (length items))
  | JObj fs => js_or (field "length" fs) (JNum 0)
  end.

(** [{...target, k: v}]: an own key keeps its place and takes the new
    value, a new key goes last. *)
Fixpoint assign_field (target : record) (k : string) (v : jsval) : record :=
  match target with
  | [] => [(k, v)]
  | (k', v') :: rest =>
      if String.eqb k k' then (k', v) :: rest else (k', v') :: assign_field rest k v
  end.

(** [{...target, ...source}] *)
Definition spread (target source : record) : record :=
  fold_left (fun acc kv => assign_field acc (fst kv) (snd kv)) source target.

Section Exports.
Context `{Platform}.

(** [JSON.stringify(v, null, 2)] of an object. *)
Variable JSON_stringify_indented : jsval -> string.

(** The object of [getDashboardData] as the exports read it: own keys in
    the order of the literal; [JSON.stringify] writes a [Date] as its
    [toISOString]. *)
Definition dashboard_object (d : DashboardData) : record :=
  [("salesData", data_salesData d);
   ("trafficData", data_trafficData d);
   ("productData", data_productData d);
   ("kpis", data_kpis d);
   ("metadata",
    JObj [("lastUpdated", JStr (Date_toISOString (meta_lastUpdated (data_metadata d))));
          ("updateCount", JNum (meta_updateCount (data_metadata d)));
          ("isRealTime", JBool (meta_isRealTime (data_metadata d)));
          ("isLoading", JBool (meta_isLoading (data_metadata d)));
          ("error", match meta_error (data_metadata d) with
                    | Some message => JStr message
                    | None => JNull
                    end)])].

(** [downloadFile]: the browser is handed the file (the calls to the
    document are taken to succeed). *)
Definition downloadFile (text name mime : string) : list export_event :=
  [Downloaded {| content := text; filename := name; mimeType := mime |}].

(** [exportToCSV] with what it logs, on a value: nothing to export when the
    value is falsy or an empty array.  [None]: the value is neither that nor
    an array of records. *)
Definition exportToCSV_logged (data : jsval) (name : string) : option (list export_event) :=
  if negb (truthy data) then Some [Reported "No data provided for CSV export"]
  else
    rows ← as_records data;
    Some match exportToCSV rows name with
         | Some file => downloadFile (content file) (filename file) (mimeType file)
         | None => [Reported "No data provided for CSV export"]
         end.

Definition exportToJSON (data : jsval) (name : string) : list export_event :=
  downloadFile (JSON_stringify_indented data) (name +:+ ".json") "application/json".

(** [if (dataset) exportToCSV(dataset, name)] *)
Definition export_dataset (dataset : jsval) (name : string) : option (list export_event) :=
  if truthy dataset then exportToCSV_logged dataset name else Some [].

(** [exportDashboardData(dashboardData, format)] for an object;
    [t_name] and [t_date] are the two clock readings, in order. *)
Definition exportDashboardData (dashboardData : record) (format : string)
    (t_name t_date : Z) : option (list export_event) :=
  let timestamp := split_first "T" (Date_toISOString t_name) in
  let name := "dashboard-export-" +:+ timestamp in
  let exportData :=
    spread
      [("exportDate", JStr (Date_toISOString t_date));
       ("summary",
        JObj [("totalKPIs", length_or_zero (field "kpis" dashboardData));
              ("dataPoints",
               JObj [("sales", length_or_zero (field "salesData" dashboardData));
                     ("traffic", length_or_zero (field "trafficData" dashboardData));
                     ("products", length_or_zero (field "productData" dashboardData))])])]
      dashboardData in
  if String.eqb format "csv" then
    sales ← export_dataset (field "salesData" dashboardData) (name +:+ "-sales");
    traffic ← export_dataset (field "trafficData" dashboardData) (name +:+ "-traffic");
    products ← export_dataset (field "productData" dashboardData) (name +:+ "-products");
    kpis ← export_dataset (field "kpis" dashboardData) (name +:+ "-kpis");
    Some (sales ++ traffic ++ products ++ kpis)%list
  else Some (exportToJSON (JObj exportData) name).

(** [formatChartDataForExport(chartData, chartType)] for an array of
    records. *)
Definition formatChartDataForExport (chartData : list record) (chartType : string)
    (now : Z) : jsval :=
  JObj [("chartType", JStr chartType);
        ("exportDate", JStr (Date_toISOString now));
        ("dataPoints", JNum (Z.of_nat (length chartData)));
        ("data", JArr (map JObj chartData))].

(** [exportChartData(chartData, chartName, format)] for an array of
    records. *)
Definition exportChartData (chartData : list record) (chartName format : string)
    (t_name t_date : Z) : list export_event :=
  let timestamp := split_first "T" (Date_toISOString t_name) in
  let name := chartName +:+ "-" +:+ timestamp in
  if String.eqb format "csv" then
    match exportToCSV chartData name with
    | Some file => downloadFile (content file) (filename file) (mimeType file)
    | None => [Reported "No data provided for CSV export"]
    end
  else exportToJSON (formatChartDataForExport chartData chartName t_date) name.

(** The handlers of the dashboard's export buttons (Dashboard.jsx). *)
Definition handleExportJSON (s : HookState) (t_name t_date : Z) : option (list export_event) :=
  exportDashboardData (dashboard_object (getDashboardData s)) "json" t_name t_date.

Definition handleExportCSV (s : HookState) (t_name t_date : Z) : option (list export_event) :=
  exportDashboardData (dashboard_object (getDashboardData s)) "csv" t_name t_date.

End Exports.

(** *** Lines of the delimited text *)

(** How many times [c] stands in [s]. *)
Fixpoint occurrences (c : ascii) (s : string) : nat :=
  match s with
  | EmptyString => 0%nat
  | String a rest => ((if Ascii.eqb a c then 1 else 0) + occurrences c rest)%nat
  end.

(** A record of numbers and texts with no line break in a name or a text. *)
Definition one_line (r : record) : Prop :=
  Forall (fun kv =>
            occurrences newline (fst kv) = 0%nat /\
            match snd kv with
            | JNum _ => True
            | JStr s => occurrences newline s = 0%nat
            | _ => False
            end) r.

(** *** Reading a cell back *)

(** The inside of a quoted cell, as a reader of delimited text takes it: two
    quote characters stand for one, a single one ends the cell. *)
Fixpoint read_quoted (s : string) : string :=
  match s with
  | EmptyString => EmptyString
  | String a rest =>
      if Ascii.eqb a dquote then
        match rest with
        | String b rest' =>
            if Ascii.eqb b dquote then String dquote (read_quoted rest') else EmptyString
        | EmptyString => EmptyString
        end
      else String a (read_quoted rest)
  end.

(** A cell that starts with a quote character is quoted, any other stands
    for itself. *)
Definition read_cell (text : string) : string :=
  match text with
  | String a rest => if Ascii.eqb a dquote then read_quoted rest else text
  | EmptyString => EmptyString
  end.

(** *** The data generators (utils/dataGenerator.js) *)

(** [Math.random] and the arithmetic of doubles the generators do on its
    result are taken from the platform. *)
Class Randomness := {
  (** a result of [Math.random()] *)
  draw : Type;
  (** [Math.floor(r * n)] *)
  floor_scaled : draw -> Z -> Z;
  (** [(r * a + b).toFixed(digits)]; [(r * a).toFixed(digits)] is the case
      [b = 0] *)
  fixed : draw -> Z -> Z -> Z -> string;
  (** [r > 0.5] *)
  above_half : draw -> bool;
  (** a draw is in [0, 1) *)
  floor_scaled_range : forall r n, 0 < n -> 0 <= floor_scaled r n < n
}.

Module DataGenerator.

Section Drawing.
Context `{Randomness}.

(** The results of the calls of [Math.random], in order. *)
Variable random : nat -> draw.

(** A computation that draws: from the number of draws made so far to a
    result and the number made after it. *)
Definition Gen (A : Type) : Type := nat -> A * nat.

#[export] Instance Gen_ret : MRet Gen := fun A a k => (a, k).
#[export] Instance Gen_bind : MBind Gen := fun A B f m k =>
  let '(a, k') := m k in f a k'.

Definition Math_random : Gen draw := fun k => (random k, S k).

(** [xs.map(f)], the callback drawing as it goes. *)
Fixpoint map_drawing {A B} (f : A -> Gen B) (xs : list A) : Gen (list B) :=
  match xs with
  | [] => mret []
  | x :: rest =>
      y ← f x;
      ys ← map_drawing f rest;
      mret (y :: ys)
  end.

(** [Array.from({ length: n }, (_, i) => f(i))] *)
Definition Array_from {B} (n : Z) (f : Z -> Gen B) : Gen (list B) :=
  map_drawing f (map Z.of_nat (seq 0 (Z.to_nat n))).

(** [xs[i]] for an array of strings and an integer [i] *)
Definition element (xs : list string) (i : Z) : jsval :=
  if i <? 0 then JUndefined
  else match nth_error xs (Z.to_nat i) with
       | Some s => JStr s
       | None => JUndefined
       end.

(** [s.padStart(n, c)] *)
Definition padStart (n : nat) (c : ascii) (s : string) : string :=
  string_of_list_ascii (repeat c (n - String.length s)) +:+ s.

(** [s.startsWith(c)] for a one-character [c] *)
Definition startsWith (c : ascii) (s : string) : bool :=
  match s with
  | String a _ => Ascii.eqb a c
  | EmptyString => false
  end.

Definition monthNames : list string :=
  ["Jan"; "Feb"; "Mar"; "Apr"; "May"; "Jun"; "Jul"; "Aug"; "Sep"; "Oct"; "Nov"; "Dec"].

(** [generateSalesData(months)]; [currentMonth] is [new Date().getMonth()].
    [%] is the remainder of the truncated division. *)
Definition generateSalesData (months currentMonth : Z) : Gen jsval :=
  rows ← Array_from months (fun i =>
    let monthIndex := Z.rem (currentMonth - months + i + 1 + 12) 12 in
    r1 ← Math_random;
    r2 ← Math_random;
    r3 ← Math_random;
    r4 ← Math_random;
    mret [("month", element monthNames monthIndex);
          ("revenue", JNum (floor_scaled r1 50000 + 30000));
          ("orders", JNum (floor_scaled r2 500 + 200));
          ("customers", JNum (floor_scaled r3 300 + 150));
          ("conversion", JStr (fixed r4 5 2 1))]);
  mret (JArr (map JObj rows)).

Definition generateTrafficData : Gen jsval :=
  rows ← Array_from 24 (fun i =>
    r1 ← Math_random;
    r2 ← Math_random;
    r3 ← Math_random;
    mret [("time", JStr (padStart 2 "0" (pretty i) +:+ ":00"));
          ("visitors", JNum (floor_scaled r1 1000 + 100));
          ("pageViews", JNum (floor_scaled r2 3000 + 500));
          ("bounceRate", JStr (fixed r3 30 20 1))]);
  mret (JArr (map JObj rows)).

Definition categories : list record :=
  [[("name", JStr "Electronics"); ("color", JStr "#8884d8")];
   [("name", JStr "Clothing"); ("color", JStr "#82ca9d")];
   [("name", JStr "Books"); ("color", JStr "#ffc658")];
   [("name", JStr "Home & Garden"); ("color", JStr "#ff7300")];
   [("name", JStr "Sports"); ("color", JStr "#00ff88")]].

(** [{...category, value: v}]: no category has a value of its own. *)
Definition generateProductData : Gen jsval :=
  rows ← map_drawing (fun category : record =>
    r ← Math_random;
    mret (category ++ [("value", JNum (floor_scaled r 40 + 10))])%list) categories;
  mret (JArr (map JObj rows)).

Definition kpis : list record :=
  [[("title", JStr "Total Revenue"); ("icon", JStr "DollarSign");
    ("color", JStr "text-green-600"); ("bgColor", JStr "bg-green-100")];
   [("title", JStr "Total Orders"); ("icon", JStr "ShoppingCart");
    ("color", JStr "text-blue-600"); ("bgColor", JStr "bg-blue-100")];
   [("title", JStr "Customers"); ("icon", JStr "Users");
    ("color", JStr "text-purple-600"); ("bgColor", JStr "bg-purple-100")];
   [("title", JStr "Conversion Rate"); ("icon", JStr "TrendingUp");
    ("color", JStr "text-orange-600"); ("bgColor", JStr "bg-orange-100")]].

(** The [switch (index)] of [generateKPIData]: the value and the change. *)
Definition kpi_figures (index : nat) : Gen (string * string) :=
  match index with
  | 0%nat =>
      r1 ← Math_random;
      r2 ← Math_random;
      mret ("$" +:+ fixed r1 500 200 0 +:+ "K", "+" +:+ fixed r2 15 5 1 +:+ "%")
  | 1%nat =>
      r1 ← Math_random;
      r2 ← Math_random;
      mret (fixed r1 5000 2000 0, "+" +:+ fixed r2 20 5 1 +:+ "%")
  | 2%nat =>
      r1 ← Math_random;
      r2 ← Math_random;
      mret (fixed r1 2000 1000 0, "+" +:+ fixed r2 25 10 1 +:+ "%")
  | 3%nat =>
      r1 ← Math_random;
      r2 ← Math_random;
      r3 ← Math_random;
      mret (fixed r1 5 2 1 +:+ "%",
            if above_half r2 then "+" +:+ fixed r3 3 0 1 +:+ "%"
            else "-" +:+ fixed r3 2 0 1 +:+ "%")
  | _ => mret ("0", "0%")
  end.

Definition generateKPIData : Gen jsval :=
  rows ← map_drawing (fun '(index, kpi) =>
    figures ← kpi_figures index;
    let '(value, change) := figures in
    mret (kpi ++ [("value", JStr value); ("change", JStr change);
                  ("trend", JStr (if startsWith "+" change then "up" else "down"))])%list)
    (imap (fun index (kpi : record) => (index, kpi)) kpis);
  mret (JArr (map JObj rows)).

(** The four generators as the hook calls them during one refresh, after
    [k] draws: [generateSalesData()] has [months = 6]. *)
Definition refresh_generators (currentMonth : Z) (k : nat) : Generators :=
  let '(sales, k1) := generateSalesData 6 currentMonth k in
  let '(traffic, k2) := generateTrafficData k1 in
  let '(products, k3) := generateProductData k2 in
  let '(kpiData, _) := generateKPIData k3 in
  Build_Generators (Normal sales) (Normal traffic) (Normal products) (Normal kpiData).

End Drawing.

End DataGenerator.

(** Draws with exact arithmetic: [r] stands for [r / 2^53], reduced into
    [0, 1). *)
Module ExactDraws.

Definition scale : Z := 2 ^ 53.

Definition numerator (r : Z) : Z := r mod scale.

(** [x.toFixed(digits)] of the fraction [num / den], [den > 0]: the nearest
    multiple of [10^-digits], the larger of two. *)
Definition toFixed (num den digits : Z) : string :=
  let unit := 10 ^ digits in
  let n := (2 * Z.abs num * unit + den) / (2 * den) in
  let whole := pretty (n / unit) in
  let sign := if num <? 0 then "-" else "" in
  if digits <=? 0 then sign +:+ whole
  else sign +:+ whole +:+ "."
       +:+ DataGenerator.padStart (Z.to_nat digits) "0" (pretty (n mod unit)).

#[export] Instance randomness : Randomness :=
  {| draw := Z;
     floor_scaled := fun r n => numerator r * n / scale;
     fixed := fun r a b digits => toFixed (numerator r * a + b * scale) scale digits;
     above_half := fun r => scale <? 2 * numerator r;
     floor_scaled_range := fun r n Hn =>
       let Hr := Z.mod_pos_bound r (2 ^ 53) eq_refl in
       conj (Z.div_pos (r mod 2 ^ 53 * n) (2 ^ 53)
               (Z.mul_nonneg_nonneg _ _ (proj1 Hr) (Z.lt_le_incl _ _ Hn)) eq_refl)
            (Z.div_lt_upper_bound (r mod 2 ^ 53 * n) (2 ^ 53) n eq_refl
               (Zmult_lt_compat_r _ _ _ Hn (proj2 Hr))) |}.

(** A stream of draws. *)
Definition stream (k : nat) : Z := Z.of_nat k * 2654435761 * 1000003 + 4503599627370497.

End ExactDraws.


(** *** More concrete inputs *)

Module Scenarios.

(** A page whose slot holds a timestamp and nothing else. *)
Definition stamp_only : World :=
  initial default_options (Examples.morning + 60000)
    {| items := {[storage_key :=
                    Reference.stringify (JObj [("lastUpdated", JStr "2026-11-02T05:40:00.000Z")])]};
       denied := false; over_quota := fun _ _ => false |}
    1%positive [].

(** Three months of sales drawn in January, and fourteen. *)
Definition winter : jsval * nat :=
  DataGenerator.generateSalesData (H := ExactDraws.randomness) ExactDraws.stream 3 0 0%nat.

Definition too_long : jsval * nat :=
  DataGenerator.generateSalesData (H := ExactDraws.randomness) ExactDraws.stream 14 0 0%nat.

End Scenarios.


(** * Properties *)

(** Unfolds the hook down to the primitive effects. *)
Ltac js_unfold :=
  unfold run, result, fire, handle,
    mountEffect, cleanup, realTimeEffect, intervalCallback,
    refreshData, generateAllData, persistData, loadPersistedData, parse,
    click, toggleRealTime, startRealTime, stopRealTime, clearData, updateDataset,
    get_prop,
    localStorage_getItem, localStorage_setItem, localStorage_removeItem,
    setInterval, clearInterval,
    setSalesData, setTrafficData, setProductData, setKpiData, setIsRealTime,
    setLastUpdated, setUpdateCount, setIsLoading, setError,
    console_warn, console_error,
    try_finally, try_catch, when, lift, reads, modify, throw,
    mbind, JS_bind, mret, JS_ret in *.

Ltac conjs := repeat match goal with |- _ /\ _ => split end.

Ltac case_if :=
  match goal with
  | |- context [if ?b then _ else _] => destruct b eqn:?
  end.

(** Takes a world apart into its fields. *)
Ltac open_world w :=
  let st := fresh "st" in
  let store := fresh "store" in
  destruct w as [st ? ? store ? ? ?]; destruct st; destruct store; simpl in *.

(** ** The reference platform reads back what it writes *)

Module ReferenceFacts.
Import Reference.

Lemma append_cons (x : ascii) (a b : string) : String x a +:+ b = String x (a +:+ b).
Proof. reflexivity. Qed.

Lemma append_nil (b : string) : "" +:+ b = b.
Proof. reflexivity. Qed.

Lemma append_assoc (a b c : string) : (a +:+ b) +:+ c = a +:+ (b +:+ c).
Proof.
  induction a as [| x a IH]; [reflexivity |].
  rewrite !append_cons, IH. reflexivity.
Qed.

Lemma append_empty (a : string) : a +:+ "" = a.
Proof.
  induction a as [| x a IH]; [reflexivity |]. rewrite append_cons, IH. reflexivity.
Qed.

Ltac str_simpl := repeat (rewrite ?append_cons, ?append_nil, ?append_assoc).


Lemma read_digits_stops (acc : Z) (rest : string) :
  stops rest -> read_digits acc rest = (acc, rest).
Proof. destruct rest as [| a rest]; simpl; [reflexivity | intros ->; reflexivity]. Qed.

Lemma pretty_N_char_cases (d : N) :
  (d < 10)%N ->
  (d = 0 \/ d = 1 \/ d = 2 \/ d = 3 \/ d = 4 \/ d = 5 \/ d = 6 \/ d = 7 \/ d = 8 \/ d = 9)%N.
Proof. lia. Qed.

Lemma pretty_N_char_digit (d : N) : (d < 10)%N -> is_digit (pretty_N_char d) = true.
Proof.
  intros Hd. pose proof (pretty_N_char_cases d Hd) as Hcases.
  repeat destruct Hcases as [-> | Hcases]; try subst d; reflexivity.
Qed.

Lemma pretty_N_char_value (d : N) :
  (d < 10)%N -> digit_value (pretty_N_char d) = Z.of_N d.
Proof.
  intros Hd. pose proof (pretty_N_char_cases d Hd) as Hcases.
  repeat destruct Hcases as [-> | Hcases]; try subst d; reflexivity.
Qed.

Lemma pretty_N_go_append (x : N) (s rest : string) :
  pretty_N_go x s +:+ rest = pretty_N_go x (s +:+ rest).
Proof.
  revert s. induction (N.lt_wf_0 x) as [x _ IH]. intros s.
  destruct (N.eq_dec x 0%N) as [-> | Hpos]; [reflexivity |].
  rewrite (pretty_N_go_step x s), (pretty_N_go_step x (s +:+ rest)) by lia.
  rewrite IH by (apply N.div_lt; lia). reflexivity.
Qed.

Lemma read_digits_pretty (x : N) :
  exists k : Z, 0 <= k /\ forall acc s,
    read_digits acc (pretty_N_go x s) = read_digits (acc * 10 ^ k + Z.of_N x) s.
Proof.
  induction (N.lt_wf_0 x) as [x _ IH].
  destruct (N.eq_dec x 0%N) as [-> | Hpos].
  - exists 0. split; [lia |]. intros acc s. rewrite pretty_N_go_0. f_equal. lia.
  - destruct (IH (x `div` 10)%N) as (k & Hk & Hread); [apply N.div_lt; lia |].
    exists (k + 1). split; [lia |]. intros acc s.
    rewrite pretty_N_go_step by lia. rewrite Hread. cbn [read_digits].
    rewrite pretty_N_char_digit, pretty_N_char_value by (apply N.mod_lt; lia).
    f_equal. rewrite Z.pow_add_r by lia.
    rewrite N2Z.inj_div, N2Z.inj_mod. change (Z.of_N 10) with 10.
    pose proof (Z.div_mod (Z.of_N x) 10). lia.
Qed.

Lemma pretty_N_go_head (x : N) (s : string) :
  (0 < x)%N -> exists c s', pretty_N_go x s = String c s' /\ is_digit c = true.
Proof.
  revert s. induction (N.lt_wf_0 x) as [x _ IH]. intros s Hpos.
  rewrite pretty_N_go_step by lia.
  destruct (N.eq_dec (x `div` 10)%N 0%N) as [-> | Hmore].
  - rewrite pretty_N_go_0. eexists _, _. split; [reflexivity |].
    apply pretty_N_char_digit. apply N.mod_lt. lia.
  - apply IH.
    + apply N.div_lt; lia.
    + destruct (x `div` 10)%N; [congruence | reflexivity].
Qed.


Lemma is_digit_value_start (c : ascii) : is_digit c = true -> value_start c = true.
Proof. unfold value_start. intros ->. reflexivity. Qed.

Lemma value_start_not_closing (c : ascii) :
  value_start c = true -> Ascii.eqb c "]" = false /\ Ascii.eqb c "}" = false.
Proof.
  destruct c as [[|] [|] [|] [|] [|] [|] [|] [|]]; intros Hstart;
    first [discriminate Hstart | split; reflexivity].
Qed.

Lemma is_digit_number_start (c : ascii) :
  is_digit c = true ->
  Ascii.eqb c "-" = false /\ Ascii.eqb c "n" = false /\ Ascii.eqb c "t" = false /\
  Ascii.eqb c "f" = false /\ Ascii.eqb c dquote = false /\ Ascii.eqb c "[" = false /\
  Ascii.eqb c "{" = false.
Proof.
  destruct c as [[|] [|] [|] [|] [|] [|] [|] [|]]; intros Hdigit;
    first [discriminate Hdigit | repeat split; reflexivity].
Qed.

(** A natural number in decimal, then [rest]: read back as the number. *)
Lemma read_natural_pretty (x : N) (rest : string) :
  stops rest ->
  exists c s', pretty x +:+ rest = String c s' /\ is_digit c = true /\
    read_natural (pretty x +:+ rest) = Some (Z.of_N x, rest).
Proof.
  intros Hstops. unfold pretty, pretty_N.
  destruct (decide (x = 0%N)) as [-> | Hpos].
  - exists "0"%char, rest. split; [reflexivity |]. split; [reflexivity |].
    str_simpl. unfold read_natural. cbn [is_digit nat_of_ascii]. simpl.
    rewrite (read_digits_stops _ _ Hstops). reflexivity.
  - rewrite pretty_N_go_append. rewrite append_nil.
    destruct (pretty_N_go_head x rest) as (c & s' & Hhead & Hdigit); [lia |].
    exists c, s'. split; [exact Hhead |]. split; [exact Hdigit |].
    unfold read_natural. rewrite Hhead, Hdigit, <- Hhead.
    destruct (read_digits_pretty x) as (k & _ & Hread).
    rewrite Hread. simpl. rewrite (read_digits_stops _ _ Hstops). reflexivity.
Qed.

Lemma read_number_pretty (n : Z) (rest : string) :
  stops rest ->
  read_number (pretty n +:+ rest) = Some (JNum n, rest) /\
  exists c s', pretty n +:+ rest = String c s' /\ value_start c = true /\
    (Ascii.eqb c "n" = false /\ Ascii.eqb c "t" = false /\ Ascii.eqb c "f" = false /\
     Ascii.eqb c dquote = false /\ Ascii.eqb c "[" = false /\ Ascii.eqb c "{" = false).
Proof.
  intros Hstops. destruct n as [| p | p].
  - destruct (read_natural_pretty 0%N rest Hstops) as (c & s' & Hhead & Hdigit & Hread).
    change (pretty 0) with (pretty 0%N).
    destruct (is_digit_number_start c Hdigit) as (Hdash & Hn & Ht & Hf & Hq & Ha & Ho).
    split.
    + unfold read_number. rewrite Hhead, Hdash, <- Hhead, Hread. reflexivity.
    + exists c, s'. split; [exact Hhead |]. split; [apply is_digit_value_start, Hdigit |].
      repeat split; assumption.
  - destruct (read_natural_pretty (N.pos p) rest Hstops)
      as (c & s' & Hhead & Hdigit & Hread).
    change (pretty (Z.pos p)) with (pretty (N.pos p)).
    destruct (is_digit_number_start c Hdigit) as (Hdash & Hn & Ht & Hf & Hq & Ha & Ho).
    split.
    + unfold read_number. rewrite Hhead, Hdash, <- Hhead, Hread. reflexivity.
    + exists c, s'. split; [exact Hhead |]. split; [apply is_digit_value_start, Hdigit |].
      repeat split; assumption.
  - destruct (read_natural_pretty (N.pos p) rest Hstops)
      as (c & s' & Hhead & Hdigit & Hread).
    change (pretty (Z.neg p)) with ("-" +:+ pretty (N.pos p)).
    rewrite append_assoc. rewrite append_cons, append_nil.
    split.
    + unfold read_number. rewrite Ascii.eqb_refl, Hread. reflexivity.
    + exists "-"%char, (pretty (N.pos p) +:+ rest). split; [reflexivity |].
      split; [reflexivity |]. repeat split; reflexivity.
Qed.

(** An escaped text up to its closing quote is read back as the text. *)
Lemma read_string_escape (s rest : string) :
  read_string (escape s +:+ String dquote rest) = Some (s, rest).
Proof.
  induction s as [| a s IH].
  - reflexivity.
  - cbn [escape].
    destruct (Ascii.eqb_spec a dquote) as [-> | Hquote].
    + str_simpl. cbn [read_string]. change (Ascii.eqb backslash dquote) with false.
      cbv iota. rewrite !Ascii.eqb_refl.
      rewrite IH. reflexivity.
    + destruct (Ascii.eqb_spec a backslash) as [-> | Hslash].
      * str_simpl. cbn [read_string]. change (Ascii.eqb backslash dquote) with false.
        cbv iota. rewrite !Ascii.eqb_refl.
        rewrite IH. reflexivity.
      * destruct (Ascii.eqb_spec a newline) as [-> | Hline].
        -- str_simpl. cbn [read_string]. change (Ascii.eqb backslash dquote) with false.
           cbv iota. rewrite !Ascii.eqb_refl.
           change (Ascii.eqb "n" dquote) with false.
           change (Ascii.eqb "n" backslash) with false.
           cbv iota. rewrite IH. reflexivity.
        -- str_simpl. cbn [read_string].
           destruct (Ascii.eqb_spec a dquote); [contradiction |].
           destruct (Ascii.eqb_spec a backslash); [contradiction |].
           rewrite IH. reflexivity.
Qed.

Lemma read_string_quote (s rest : string) :
  exists s', quote s +:+ rest = String dquote s' /\ read_string s' = Some (s, rest).
Proof.
  exists (escape s +:+ String dquote rest). split.
  - unfold quote. str_simpl. reflexivity.
  - apply read_string_escape.
Qed.


Lemma jsval_nested_ind (P : jsval -> Prop) :
  P JUndefined -> P JNull -> (forall b, P (JBool b)) -> (forall n, P (JNum n)) ->
  (forall s, P (JStr s)) ->
  (forall items, Forall P items -> P (JArr items)) ->
  (forall fields, Forall (fun kv => P (snd kv)) fields -> P (JObj fields)) ->
  forall v, P v.
Proof.
  intros HU HN HB HZ HS HA HO. fix IH 1. intros [| | b | n | s | items | fields].
  - exact HU.
  - exact HN.
  - apply HB.
  - apply HZ.
  - apply HS.
  - apply HA. induction items as [| v vs IHvs]; constructor; [apply IH | exact IHvs].
  - apply HO. induction fields as [| [k v] fs IHfs]; constructor; [apply IH | exact IHfs].
Qed.


Lemma concat_tail_text (t : string) (ts : list string) :
  String.concat "," (t :: ts) = t +:+ tail_text ts.
Proof.
  revert t. induction ts as [| t' ts IH]; intros t.
  - simpl. symmetry. apply append_empty.
  - change (String.concat "," (t :: t' :: ts))
      with (t +:+ "," +:+ String.concat "," (t' :: ts)).
    rewrite IH. reflexivity.
Qed.

Lemma stops_tail_text (texts : list string) (closing : ascii) (rest : string) :
  is_digit closing = false ->
  stops (tail_text texts +:+ String closing rest).
Proof. intros Hclosing. destruct texts; simpl; [exact Hclosing | reflexivity]. Qed.

Lemma read_value_array (fuel : nat) (b : ascii) (rest : string) :
  read_value (S fuel) (String "[" (String b rest))
  = if Ascii.eqb b "]" then Some (JArr [], rest)
    else match read_value fuel (String b rest) with
         | Some (v, rest') =>
             match read_items (read_value fuel) fuel rest' with
             | Some (vs, after) => Some (JArr (v :: vs), after)
             | None => None
             end
         | None => None
         end.
Proof. reflexivity. Qed.

Lemma read_value_object (fuel : nat) (b : ascii) (rest : string) :
  read_value (S fuel) (String "{" (String b rest))
  = if Ascii.eqb b "}" then Some (JObj [], rest)
    else match read_member (read_value fuel) (String b rest) with
         | Some (kv, rest') =>
             match read_members (read_value fuel) fuel rest' with
             | Some (kvs, after) => Some (JObj (kv :: kvs), after)
             | None => None
             end
         | None => None
         end.
Proof. reflexivity. Qed.

Lemma read_value_string (fuel : nat) (s : string) :
  read_value (S fuel) (String dquote s)
  = match read_string s with
    | Some (body, after) => Some (JStr body, after)
    | None => None
    end.
Proof. reflexivity. Qed.

Lemma read_value_number (fuel : nat) (c : ascii) (s : string) :
  Ascii.eqb c "n" = false -> Ascii.eqb c "t" = false -> Ascii.eqb c "f" = false ->
  Ascii.eqb c dquote = false -> Ascii.eqb c "[" = false -> Ascii.eqb c "{" = false ->
  read_value (S fuel) (String c s) = read_number (String c s).
Proof. intros Hn Ht Hf Hq Ha Ho. cbn [read_value]. rewrite Hn, Ht, Hf, Hq, Ha, Ho. reflexivity. Qed.

Lemma read_items_tail (value : string -> option (jsval * string)) (vs : list jsval)
    (fuel : nat) (rest : string) :
  Forall (fun v => forall r, stops r -> value (stringify v +:+ r) = Some (v, r)) vs ->
  (length vs < fuel)%nat ->
  read_items value fuel (tail_text (map stringify vs) +:+ String "]" rest) = Some (vs, rest).
Proof.
  revert fuel. induction vs as [| v vs IH]; intros fuel Hvalue Hfuel;
    (destruct fuel as [| fuel]; [simpl in Hfuel; lia |]).
  - reflexivity.
  - inversion Hvalue as [| ? ? Hv Hvs]; subst.
    cbn [map tail_text]. str_simpl. cbn [read_items].
    change (Ascii.eqb "," "]") with false. change (Ascii.eqb "," ",") with true. cbv iota.
    rewrite Hv by (apply stops_tail_text; reflexivity).
    rewrite IH; [reflexivity | exact Hvs | simpl in Hfuel; lia].
Qed.


Lemma read_member_text (value : string -> option (jsval * string))
    (k : string) (v : jsval) (r : string) :
  value (stringify v +:+ r) = Some (v, r) ->
  read_member value (member_text (k, v) +:+ r) = Some ((k, v), r).
Proof.
  intros Hvalue. unfold member_text. cbn [fst snd]. str_simpl.
  destruct (read_string_quote k (String ":" (stringify v +:+ r))) as (s' & Hquote & Hread).
  rewrite Hquote. cbn [read_member]. rewrite Ascii.eqb_refl, Hread.
  change (Ascii.eqb ":" ":") with true. cbv iota. rewrite Hvalue. reflexivity.
Qed.

Lemma read_members_tail (value : string -> option (jsval * string))
    (kvs : list (string * jsval)) (fuel : nat) (rest : string) :
  Forall (fun kv => forall r, stops r ->
            value (stringify (snd kv) +:+ r) = Some (snd kv, r)) kvs ->
  (length kvs < fuel)%nat ->
  read_members value fuel (tail_text (map member_text kvs) +:+ String "}" rest)
  = Some (kvs, rest).
Proof.
  revert fuel. induction kvs as [| [k v] kvs IH]; intros fuel Hvalue Hfuel;
    (destruct fuel as [| fuel]; [simpl in Hfuel; lia |]).
  - reflexivity.
  - inversion Hvalue as [| ? ? Hv Hkvs]; subst.
    cbn [map tail_text]. str_simpl. cbn [read_members].
    change (Ascii.eqb "," "}") with false. change (Ascii.eqb "," ",") with true. cbv iota.
    rewrite (read_member_text value k v)
      by (apply Hv, stops_tail_text; reflexivity).
    rewrite IH; [reflexivity | exact Hkvs | simpl in Hfuel; lia].
Qed.

Lemma stringify_array (items : list jsval) :
  stringify (JArr items) = "[" +:+ String.concat "," (map stringify items) +:+ "]".
Proof. reflexivity. Qed.

Lemma stringify_object (fields : list (string * jsval)) :
  forallb (fun kv => let '(_, x) := kv in plain x) fields = true ->
  stringify (JObj fields) = "{" +:+ String.concat "," (map member_text fields) +:+ "}".
Proof.
  intros Hplain. cbn [stringify]. do 3 f_equal.
  induction fields as [| [k x] fields IH]; [reflexivity |].
  cbn [forallb] in Hplain. apply andb_true_iff in Hplain as [Hx Hrest].
  cbn [map]. rewrite <- (IH Hrest).
  destruct x; try reflexivity. discriminate Hx.
Qed.

Lemma member_text_head (kv : string * jsval) (r : string) :
  exists s', member_text kv +:+ r = String dquote s'.
Proof. unfold member_text, quote. str_simpl. eexists. reflexivity. Qed.

Lemma list_max_bound (l : list nat) (n k : nat) :
  (list_max l <= n)%nat -> In k l -> (k <= n)%nat.
Proof.
  intros Hmax Hin. apply List.list_max_le in Hmax.
  exact (proj1 (List.Forall_forall _ _) Hmax k Hin).
Qed.

(** Reading the text of a plain value gives the value back, with fuel to
    spare, before any text that does not go on with a digit. *)
Lemma read_value_stringify (v : jsval) :
  plain v = true ->
  forall fuel rest, (need v <= fuel)%nat -> stops rest ->
    read_value fuel (stringify v +:+ rest) = Some (v, rest) /\
    exists c s', stringify v +:+ rest = String c s' /\ value_start c = true.
Proof.
  induction v as [| | b | n | s | items IH | fields IH] using jsval_nested_ind;
    intros Hplain fuel rest Hfuel Hstops;
    (destruct fuel as [| fuel]; [cbn [need] in Hfuel; lia |]).
  - discriminate Hplain.
  - split; [reflexivity | eexists _, _; split; reflexivity].
  - destruct b; (split; [reflexivity | eexists _, _; split; reflexivity]).
  - destruct (read_number_pretty n rest Hstops)
      as (Hread & c & s' & Hhead & Hstart & Hn & Ht & Hf & Hq & Ha & Ho).
    change (stringify (JNum n)) with (pretty n). split.
    + rewrite Hhead, read_value_number by assumption. rewrite <- Hhead. exact Hread.
    + exists c, s'. split; assumption.
  - destruct (read_string_quote s rest) as (s' & Hquote & Hread).
    change (stringify (JStr s)) with (quote s). rewrite Hquote. split.
    + rewrite read_value_string, Hread. reflexivity.
    + eexists _, _. split; reflexivity.
  - rewrite stringify_array. split; [| eexists _, _; split; reflexivity].
    destruct items as [| v vs]; [reflexivity |].
    cbn [plain forallb] in Hplain. apply andb_true_iff in Hplain as [Hv Hvs].
    cbn [need length map] in Hfuel.
    inversion IH as [| ? ? IHv IHvs]; subst.
    assert (Hneed : (need v <= fuel)%nat).
    { apply (list_max_bound (need v :: map need vs)); [lia | left; reflexivity]. }
    cbn [map]. rewrite concat_tail_text. str_simpl.
    destruct (IHv Hv fuel (tail_text (map stringify vs) +:+ String "]" rest) Hneed)
      as (Hread & c & s' & Hhead & Hstart); [apply stops_tail_text; reflexivity |].
    rewrite Hhead, read_value_array.
    rewrite (proj1 (value_start_not_closing c Hstart)), <- Hhead, Hread.
    rewrite read_items_tail; [reflexivity | | lia].
    apply List.Forall_forall. intros x Hin r Hr.
    apply (proj1 (List.Forall_forall _ _) IHvs x Hin).
    + exact (proj1 (forallb_forall _ _) Hvs x Hin).
    + apply (list_max_bound (need v :: map need vs)); [lia |].
      right. apply in_map. exact Hin.
    + exact Hr.
  - rewrite (stringify_object fields Hplain).
    split; [| eexists _, _; split; reflexivity].
    destruct fields as [| [k v] kvs]; [reflexivity |].
    cbn [plain forallb] in Hplain. apply andb_true_iff in Hplain as [Hv Hkvs].
    cbn [need length map] in Hfuel.
    inversion IH as [| ? ? IHv IHkvs]; subst. cbn [snd] in IHv.
    assert (Hneed : (need v <= fuel)%nat).
    { apply (list_max_bound
               (need v :: map (fun kv => let '(_, x) := kv in need x) kvs));
        [lia | left; reflexivity]. }
    cbn [map]. rewrite concat_tail_text. str_simpl.
    destruct (member_text_head (k, v) (tail_text (map member_text kvs) +:+ String "}" rest))
      as (s' & Hhead).
    rewrite Hhead, read_value_object.
    change (Ascii.eqb dquote "}") with false. cbv iota. rewrite <- Hhead.
    rewrite (read_member_text (read_value fuel) k v)
      by (apply IHv; [exact Hv | exact Hneed | apply stops_tail_text; reflexivity]).
    rewrite read_members_tail; [reflexivity | | lia].
    apply List.Forall_forall. intros [k' x] Hin r Hr. cbn [snd].
    apply (proj1 (List.Forall_forall _ _) IHkvs (k', x) Hin).
    + exact (proj1 (forallb_forall _ _) Hkvs (k', x) Hin).
    + apply (list_max_bound
               (need v :: map (fun kv => let '(_, x) := kv in need x) kvs)); [lia |].
      right. apply (in_map (fun kv => let '(_, x) := kv in need x) kvs (k', x)). exact Hin.
    + exact Hr.
Qed.

Lemma length_append (a b : string) :
  String.length (a +:+ b) = (String.length a + String.length b)%nat.
Proof.
  induction a as [| x a IH]; [reflexivity |].
  rewrite append_cons. simpl. rewrite IH. reflexivity.
Qed.

Lemma length_tail_text (texts : list string) (n : nat) :
  Forall (fun t => (n <= String.length t)%nat) texts ->
  (length texts * S n <= String.length (tail_text texts))%nat.
Proof.
  induction 1 as [| t ts Ht _ IH]; [simpl; lia |].
  cbn [tail_text length]. rewrite !length_append. simpl String.length. lia.
Qed.

Lemma length_tail_text_member (texts : list string) (t : string) :
  In t texts -> (String.length t < String.length (tail_text texts))%nat.
Proof.
  induction texts as [| t' ts IH]; [intros [] |].
  cbn [tail_text]. rewrite !length_append. simpl String.length.
  intros [-> | Hin]; [lia | specialize (IH Hin); lia].
Qed.

(** A list of [n] non-empty texts, joined: at least [n] characters, and at
    least as many as any one of them. *)
Lemma length_concat (texts : list string) :
  Forall (fun t => (1 <= String.length t)%nat) texts ->
  (length texts <= String.length (String.concat "," texts))%nat /\
  forall t, In t texts -> (String.length t <= String.length (String.concat "," texts))%nat.
Proof.
  intros Hnonempty. destruct texts as [| t ts]; [split; [simpl; lia | intros t []] |].
  rewrite concat_tail_text, length_append.
  inversion Hnonempty as [| ? ? Ht Hts]; subst.
  pose proof (length_tail_text ts 1 Hts) as Htail. split.
  - simpl length. lia.
  - intros t' [-> | Hin]; [lia |].
    pose proof (length_tail_text_member ts t' Hin). lia.
Qed.

Lemma need_positive (v : jsval) : (1 <= need v)%nat.
Proof. destruct v; simpl; lia. Qed.

Lemma need_length (v : jsval) :
  plain v = true -> (need v <= String.length (stringify v))%nat.
Proof.
  induction v as [| | b | n | s | items IH | fields IH] using jsval_nested_ind;
    intros Hplain.
  - discriminate Hplain.
  - simpl. lia.
  - destruct b; simpl; lia.
  - destruct (read_number_pretty n "" I) as (_ & c & s' & Hhead & _).
    rewrite append_empty in Hhead. change (stringify (JNum n)) with (pretty n).
    rewrite Hhead. simpl. lia.
  - change (stringify (JStr s)) with (quote s). unfold quote. simpl. lia.
  - rewrite stringify_array, !length_append. simpl String.length. cbn [need].
    cbn [plain] in Hplain.
    assert (Hitems : Forall (fun v => (need v <= String.length (stringify v))%nat) items).
    { apply List.Forall_forall. intros v Hin.
      apply (proj1 (List.Forall_forall _ _) IH v Hin).
      exact (proj1 (forallb_forall _ _) Hplain v Hin). }
    destruct (length_concat (map stringify items)) as (Hcount & Heach).
    { apply List.Forall_forall. intros t Hin. apply in_map_iff in Hin as (v & <- & Hv).
      pose proof (proj1 (List.Forall_forall _ _) Hitems v Hv) as Hneed. cbv beta in Hneed.
      pose proof (need_positive v). lia. }
    rewrite length_map in Hcount.
    assert (Hmax : (list_max (map need items)
                    <= String.length (String.concat "," (map stringify items)))%nat).
    { apply List.list_max_le, List.Forall_forall. intros k Hin.
      apply in_map_iff in Hin as (v & <- & Hv).
      pose proof (proj1 (List.Forall_forall _ _) Hitems v Hv) as Hneed. cbv beta in Hneed.
      pose proof (Heach (stringify v) (in_map stringify items v Hv)). lia. }
    lia.
  - rewrite (stringify_object fields Hplain), !length_append. simpl String.length.
    cbn [need]. cbn [plain] in Hplain.
    assert (Hfields : Forall (fun kv => (need (snd kv) <= String.length (member_text kv))%nat)
                        fields).
    { apply List.Forall_forall. intros [k v] Hin. cbn [snd].
      pose proof (proj1 (List.Forall_forall _ _) IH (k, v) Hin
                    (proj1 (forallb_forall _ _) Hplain (k, v) Hin)) as Hv.
      cbn [snd] in Hv. unfold member_text. rewrite !length_append. cbn [snd]. lia. }
    destruct (length_concat (map member_text fields)) as (Hcount & Heach).
    { apply List.Forall_forall. intros t Hin. apply in_map_iff in Hin as (kv & <- & Hkv).
      pose proof (proj1 (List.Forall_forall _ _) Hfields kv Hkv) as Hneed. cbv beta in Hneed.
      pose proof (need_positive (snd kv)). lia. }
    rewrite length_map in Hcount.
    assert (Hmax : (list_max (map (fun kv => let '(_, x) := kv in need x) fields)
                    <= String.length (String.concat "," (map member_text fields)))%nat).
    { apply List.list_max_le, List.Forall_forall. intros n Hin.
      apply in_map_iff in Hin as ([k v] & <- & Hkv).
      pose proof (proj1 (List.Forall_forall _ _) Hfields (k, v) Hkv) as Hv.
      cbv beta in Hv. cbn [snd] in Hv.
      pose proof (Heach (member_text (k, v)) (in_map member_text fields (k, v) Hkv)). lia. }
    lia.
Qed.

(** The reference codec reads back what it writes. *)
Theorem parse_text_stringify (v : jsval) :
  plain v = true -> parse_text (stringify v) = Some v.
Proof.
  intros Hplain. unfold parse_text.
  pose proof (need_length v Hplain) as Hfuel.
  destruct (read_value_stringify v Hplain (S (String.length (stringify v))) "") as (Hread & _);
    [lia | exact I |].
  rewrite append_empty in Hread. rewrite Hread. reflexivity.
Qed.

Lemma civil_round_trip (z : Z) :
  -719468 <= z < 2932897 ->
  match civil_from_days z with
  | (y, m, d) =>
      0 <= y <= 9999 /\ 1 <= m <= 12 /\ 1 <= d <= 31 /\ days_from_civil y m d = z
  end.
Proof.
  intros Hz. unfold civil_from_days, days_from_civil.
  set (zz := z + 719468). set (era := zz / 146097). set (doe := zz - era * 146097).
  assert (Hdoe : 0 <= doe <= 146096) by (subst doe era; Z.div_mod_to_equations; lia).
  assert (Hera : 0 <= era <= 24) by (subst era zz; Z.div_mod_to_equations; lia).
  assert (Hzz : z = era * 146097 + doe - 719468) by (subst doe zz; lia).
  clearbody doe. clearbody era. clear zz.
  set (yoe := (doe - doe / 1460 + doe / 36524 - doe / 146096) / 365).
  assert (Hyoe : 0 <= yoe <= 399) by (subst yoe; Z.div_mod_to_equations; lia).
  set (doy := doe - (365 * yoe + yoe / 4 - yoe / 100)).
  assert (Hdoy : 0 <= doy <= 365) by (subst doy yoe; Z.div_mod_to_equations; lia).
  assert (Hlast : era = 24 -> yoe = 399 -> doy <= 305).
  { intros -> Hyear. subst doy. rewrite Hyear. subst yoe.
    Z.div_mod_to_equations. lia. }
  set (mp := (5 * doy + 2) / 153).
  assert (Hmp : 0 <= mp <= 11) by (subst mp; Z.div_mod_to_equations; lia).
  assert (Hmonth : doy <= 305 -> mp < 10) by (subst mp; Z.div_mod_to_equations; lia).
  set (d := doy - (153 * mp + 2) / 5 + 1).
  assert (Hd : 1 <= d <= 31) by (subst d mp; Z.div_mod_to_equations; lia).
  assert (Hdoe' : doe = yoe * 365 + yoe / 4 - yoe / 100 + doy) by (subst doy; lia).
  assert (Hdoy' : doy = (153 * mp + 2) / 5 + d - 1) by (subst d; lia).
  clearbody d. clearbody mp. clearbody doy. clearbody yoe.
  destruct (Z.ltb_spec mp 10) as [Hearly | Hlate].
  - destruct (Z.leb_spec (mp + 3) 2) as [Himpossible | _]; [lia |].
    destruct (Z.ltb_spec 2 (mp + 3)) as [_ | Himpossible]; [| lia].
    replace (mp + 3 - 3) with mp by lia. rewrite Z.add_0_r.
    assert (Hq : (yoe + era * 400) / 400 = era) by (Z.div_mod_to_equations; lia).
    rewrite Hq. repeat split; try (Z.div_mod_to_equations; lia).
  - destruct (Z.leb_spec (mp - 9) 2) as [_ | Himpossible]; [| lia].
    destruct (Z.ltb_spec 2 (mp - 9)) as [Himpossible | _]; [lia |].
    replace (yoe + era * 400 + 1 - 1) with (yoe + era * 400) by lia.
    replace (mp - 9 + 9) with mp by lia.
    assert (Hq : (yoe + era * 400) / 400 = era) by (Z.div_mod_to_equations; lia).
    rewrite Hq. repeat split; try (Z.div_mod_to_equations; lia).
Qed.

Lemma digit_spec (n : Z) : is_digit (digit n) = true /\ digit_value (digit n) = n mod 10.
Proof.
  unfold digit. pose proof (Z.mod_pos_bound n 10 eq_refl) as Hr.
  set (r := n mod 10) in *.
  assert (Hcases : r = 0 \/ r = 1 \/ r = 2 \/ r = 3 \/ r = 4 \/ r = 5 \/ r = 6
                   \/ r = 7 \/ r = 8 \/ r = 9) by lia.
  clearbody r.
  repeat destruct Hcases as [-> | Hcases]; try subst r; split; reflexivity.
Qed.

Lemma read_digits_digit (acc n : Z) (s : string) :
  read_digits acc (String (digit n) s) = read_digits (10 * acc + n mod 10) s.
Proof.
  cbn [read_digits]. destruct (digit_spec n) as [-> ->]. reflexivity.
Qed.

Lemma two_digits (n : Z) :
  0 <= n <= 99 -> 10 * (10 * 0 + (n / 10) mod 10) + n mod 10 = n.
Proof. intros. Z.div_mod_to_equations. lia. Qed.

Lemma three_digits (n : Z) :
  0 <= n <= 999 ->
  10 * (10 * (10 * 0 + (n / 100) mod 10) + (n / 10) mod 10) + n mod 10 = n.
Proof. intros. Z.div_mod_to_equations. lia. Qed.

Lemma four_digits (n : Z) :
  0 <= n <= 9999 ->
  10 * (10 * (10 * (10 * 0 + (n / 1000) mod 10) + (n / 100) mod 10) + (n / 10) mod 10)
  + n mod 10 = n.
Proof. intros. Z.div_mod_to_equations. lia. Qed.


Local Opaque digit.

Lemma parse_iso_text (y m d hh mm ss ms : Z) :
  0 <= y <= 9999 -> 1 <= m <= 12 -> 1 <= d <= 31 ->
  0 <= hh <= 23 -> 0 <= mm <= 59 -> 0 <= ss <= 59 -> 0 <= ms <= 999 ->
  parse_iso (iso_text y m d hh mm ss ms)
  = Some (days_from_civil y m d * 86400000 + hh * 3600000 + mm * 60000 + ss * 1000 + ms).
Proof.
  intros Hy Hm Hd Hhh Hmm Hss Hms.
  unfold iso_text, pad4, pad3, pad2.
  repeat (rewrite append_cons || change ("" +:+ ?b) with b).
  unfold parse_iso, digits_at, char_at.
  cbn [String.length Nat.eqb String.get String.substring andb Ascii.eqb Bool.eqb].
  repeat rewrite read_digits_digit.
  cbn [read_digits String.length Nat.eqb].
  rewrite (four_digits y), (two_digits m), (two_digits d), (two_digits hh),
    (two_digits mm), (two_digits ss), (three_digits ms) by lia.
  replace (1 <=? m) with true by (symmetry; apply Z.leb_le; lia).
  replace (m <=? 12) with true by (symmetry; apply Z.leb_le; lia).
  replace (1 <=? d) with true by (symmetry; apply Z.leb_le; lia).
  replace (d <=? 31) with true by (symmetry; apply Z.leb_le; lia).
  replace (hh <=? 23) with true by (symmetry; apply Z.leb_le; lia).
  replace (mm <=? 59) with true by (symmetry; apply Z.leb_le; lia).
  replace (ss <=? 59) with true by (symmetry; apply Z.leb_le; lia).
  reflexivity.
Qed.

(** [new Date] reads back what [toISOString] writes, from 1970 to the end of
    the year 9999. *)
Theorem parse_iso_toISOString (t : Z) :
  0 <= t < 253402300800000 -> parse_iso (toISOString t) = Some t.
Proof.
  intros Ht. unfold toISOString.
  pose proof (civil_round_trip (t / 86400000)) as Hcivil.
  destruct (civil_from_days (t / 86400000)) as [[y m] d].
  destruct Hcivil as (Hy & Hm & Hd & Hdays); [Z.div_mod_to_equations; lia |].
  set (ms := t mod 86400000).
  assert (Hms : 0 <= ms < 86400000) by (subst ms; apply Z.mod_pos_bound; lia).
  assert (Hsplit : t = t / 86400000 * 86400000 + ms)
    by (subst ms; Z.div_mod_to_equations; lia).
  change (parse_iso (iso_text y m d (ms / 3600000) (ms / 60000 mod 60)
                       (ms / 1000 mod 60) (ms mod 1000)) = Some t).
  rewrite parse_iso_text; try (Z.div_mod_to_equations; lia).
  rewrite Hdays. f_equal.
  assert (Hparts : ms / 3600000 * 3600000 + ms / 60000 mod 60 * 60000
                   + ms / 1000 mod 60 * 1000 + ms mod 1000 = ms).
  { clearbody ms. clear - Hms. Z.div_mod_to_equations. lia. }
  lia.
Qed.

End ReferenceFacts.

(** On the reference platform every snapshot of four plain arrays with a
    timestamp from 1970 to the end of the year 9999 is well formed. *)
Lemma reference_well_formed (sales traffic products kpis : jsval) (t : Z) :
  is_array sales = true -> is_array traffic = true ->
  is_array products = true -> is_array kpis = true ->
  Reference.plain sales = true -> Reference.plain traffic = true ->
  Reference.plain products = true -> Reference.plain kpis = true ->
  0 <= t < 253402300800000 ->
  well_formed (H := Reference.platform) sales traffic products kpis t.
Proof.
  intros Hs Ht Hp Hk Hps Hpt Hpp Hpk Hrange. unfold well_formed. conjs; try assumption.
  - apply ReferenceFacts.parse_text_stringify. unfold snapshot.
    cbn [Reference.plain forallb]. rewrite Hps, Hpt, Hpp, Hpk. reflexivity.
  - apply ReferenceFacts.parse_iso_toISOString. exact Hrange.
Qed.

(** ** Refresh *)



(** C2. In a live hook, a refresh whose generators all return replaces the
    four sequences by what they returned, sets the timestamp to the clock
    reading, adds exactly one to the update counter, leaves no error and
    ends with the loading flag cleared.  With persistence enabled the new
    snapshot (the object of the keys sales, traffic, products, kpis and
    lastUpdated, in this order, the last one the ISO text of the clock
    reading) goes through [persistData], so the slot holds its JSON text
    whenever the storage takes the write; with persistence disabled the
    storage is not touched. *)
Theorem refresh_success_replaces_snapshot `{Platform} (options : Options)
    (g : Generators) (sales traffic products kpis : jsval)
    (t_state t_saved : Z) (w : World) :
  mountedRef w = true ->
  generates g sales traffic products kpis ->
  let w' := run (refreshData options g t_state t_saved) w in
  let saved :=
    JObj [("sales", sales); ("traffic", traffic); ("products", products);
          ("kpis", kpis); ("lastUpdated", JStr (Date_toISOString t_saved))] in
  result (refreshData options g t_state t_saved) w = Normal tt /\
  salesData (state w') = sales /\
  trafficData (state w') = traffic /\
  productData (state w') = products /\
  kpiData (state w') = kpis /\
  lastUpdated (state w') = t_state /\
  updateCount (state w') = updateCount (state w) + 1 /\
  isLoading (state w') = false /\
  error (state w') = None /\
  (enablePersistence options = true ->
   localStorage w' = localStorage (run (persistData saved) w)) /\
  (enablePersistence options = true ->
   denied (localStorage w) = false ->
   over_quota (localStorage w) storage_key (JSON_stringify saved) = false ->
   items (localStorage w') = <[storage_key := JSON_stringify saved]> (items (localStorage w))) /\
  (enablePersistence options = false -> localStorage w' = localStorage w).
Proof.
  intros Hmounted (Hs & Ht & Hp & Hk) w' saved. subst w' saved.
  destruct g as [gs gt gp gk]. simpl in Hs, Ht, Hp, Hk. subst gs gt gp gk.
  open_world w. subst. js_unfold. unfold snapshot. simpl.
  destruct (enablePersistence options); simpl.
  - case_if; simpl.
    + conjs; intros; discriminate || reflexivity.
    + case_if; simpl; conjs; intros; discriminate || reflexivity.
  - conjs; intros; discriminate || reflexivity.
Qed.

Lemma refresh_success_witness :
  mountedRef Examples.created = true /\
  generates Examples.working Examples.sales Examples.traffic Examples.products Examples.kpis /\
  updateCount (state Examples.refreshed) = 1 /\
  isLoading (state Examples.refreshed) = false /\
  salesData (state Examples.refreshed) = Examples.sales /\
  items (localStorage Examples.refreshed) !! storage_key
  = Some (Reference.stringify
            (JObj [("sales", Examples.sales); ("traffic", Examples.traffic);
                   ("products", Examples.products); ("kpis", Examples.kpis);
                   ("lastUpdated", JStr "2026-11-02T05:40:00.000Z")])).
Proof.
  assert (Hgen : generates Examples.working Examples.sales Examples.traffic
                   Examples.products Examples.kpis) by (unfold generates; conjs; reflexivity).
  destruct (refresh_success_replaces_snapshot (H := Reference.platform) default_options
              Examples.working _ _ _ _ Examples.morning Examples.morning Examples.created
              eq_refl Hgen)
    as (_ & Hsales & _ & _ & _ & _ & Hcount & Hloading & _ & _ & Hstored & _).
  split; [reflexivity |]. split; [exact Hgen |]. split; [exact Hcount |].
  split; [exact Hloading |]. split; [exact Hsales |].
  unfold Examples.refreshed.
  rewrite (Hstored eq_refl eq_refl eq_refl).
  vm_compute. reflexivity.
Defined.

(** ** The persistence adapter *)

(** [persistData] never throws and writes to the storage and the console
    only. *)
Lemma persistData_completes `{Platform} (data : jsval) (w : World) :
  result (persistData data) w = Normal tt /\
  state (run (persistData data) w) = state w /\
  mountedRef (run (persistData data) w) = mountedRef w /\
  intervalRef (run (persistData data) w) = intervalRef w /\
  timers (run (persistData data) w) = timers w /\
  denied (localStorage (run (persistData data) w)) = denied (localStorage w).
Proof.
  open_world w. js_unfold. simpl.
  case_if; simpl; [conjs; reflexivity |].
  case_if; simpl; conjs; reflexivity.
Qed.

Lemma persistData_stored `{Platform} (data : jsval) (w : World) :
  denied (localStorage w) = false ->
  over_quota (localStorage w) storage_key (JSON_stringify data) = false ->
  items (localStorage (run (persistData data) w))
  = <[storage_key := JSON_stringify data]> (items (localStorage w)).
Proof.
  intros Hdenied Hquota. open_world w. js_unfold. simpl.
  rewrite Hdenied. simpl. rewrite Hquota. reflexivity.
Qed.

(** A write the storage refuses is swallowed: the slot keeps what it held. *)
Lemma persistData_refused `{Platform} (data : jsval) (w : World) :
  denied (localStorage w) = true
  \/ over_quota (localStorage w) storage_key (JSON_stringify data) = true ->
  localStorage (run (persistData data) w) = localStorage w /\
  console (run (persistData data) w)
  = (console w ++ [(LogWarn, "Failed to persist data:")])%list.
Proof.
  intros Hrefused. open_world w. js_unfold. simpl.
  case_if; simpl; [split; reflexivity |].
  destruct Hrefused as [Hdenied | Hquota]; [discriminate |].
  rewrite Hquota. split; reflexivity.
Qed.

(** [loadPersistedData] never throws, and when it answers [false] it has
    not touched the state. *)
Lemma loadPersistedData_completes `{Platform} (now : Z) (w : World) :
  exists found,
    result (loadPersistedData now) w = Normal found /\
    (found = false -> state (run (loadPersistedData now) w) = state w).
Proof.
  open_world w. js_unfold. simpl.
  case_if; simpl; [exists false; split; reflexivity |].
  match goal with
  | |- context [?m !! storage_key] => destruct (m !! storage_key) as [text |]
  end; simpl; [| exists false; split; reflexivity].
  case_if; simpl; [| exists false; split; reflexivity].
  destruct (JSON_parse text) as [data |]; simpl; [| exists false; split; reflexivity].
  destruct data; simpl; try (exists false; split; reflexivity);
    match goal with
    | |- context [Date_new ?v] => destruct (Date_new v) as [lastUpdate |]
    end; simpl; try (exists false; split; reflexivity);
    case_if; simpl; try (exists false; split; reflexivity);
    (exists true; split; [reflexivity | discriminate]).
Qed.

(** What [loadPersistedData] does with a slot that parses to an object with
    a recent timestamp: it adopts the four fields, an absent or falsy one
    as the empty array. *)
Lemma loadPersistedData_adopts `{Platform} (now t : Z) (w : World)
    (text : string) (fields : list (string * jsval)) :
  denied (localStorage w) = false ->
  items (localStorage w) !! storage_key = Some text ->
  text <> "" ->
  JSON_parse text = Some (JObj fields) ->
  Date_new (field "lastUpdated" fields) = Some t ->
  now - t < staleness_window ->
  mountedRef w = true ->
  let w' := run (loadPersistedData now) w in
  result (loadPersistedData now) w = Normal true /\
  salesData (state w') = js_or (field "sales" fields) (JArr []) /\
  trafficData (state w') = js_or (field "traffic" fields) (JArr []) /\
  productData (state w') = js_or (field "products" fields) (JArr []) /\
  kpiData (state w') = js_or (field "kpis" fields) (JArr []) /\
  lastUpdated (state w') = t.
Proof.
  intros Hdenied Hslot Htext Hparse Hdate Hfresh Hlive.
  open_world w. subst. js_unfold. simpl.
  rewrite Hslot. simpl.
  destruct (String.eqb_spec text ""); [contradiction |]. simpl.
  rewrite Hparse. simpl. rewrite Hdate. simpl.
  unfold staleness_window in Hfresh.
  destruct (Z.ltb_spec (now - t) 3600000); [| lia]. simpl.
  conjs; reflexivity.
Qed.

(** C3. A well-formed snapshot that the storage accepted is read back
    unchanged by a live hook within the staleness window: the four
    sequences and the timestamp are the ones saved.  The load answers
    not-found, and leaves the state alone, when the slot is absent, when its
    text is not JSON or carries no valid timestamp, and when the timestamp is
    an hour old or older. *)
Theorem persisted_snapshot_round_trip `{Platform}
    (sales traffic products kpis : jsval) (t now : Z) (w_save w : World)
    (text : string) (fields : list (string * jsval)) (stamp : Z) :
  (** round trip *)
  (well_formed sales traffic products kpis t ->
   let saved := snapshot sales traffic products kpis (Date_toISOString t) in
   denied (localStorage w_save) = false ->
   over_quota (localStorage w_save) storage_key (JSON_stringify saved) = false ->
   localStorage w = localStorage (run (persistData saved) w_save) ->
   mountedRef w = true ->
   now - t < staleness_window ->
   let w' := run (loadPersistedData now) w in
   result (loadPersistedData now) w = Normal true /\
   salesData (state w') = sales /\
   trafficData (state w') = traffic /\
   productData (state w') = products /\
   kpiData (state w') = kpis /\
   lastUpdated (state w') = t) /\
  (** absent slot *)
  (items (localStorage w) !! storage_key = None ->
   result (loadPersistedData now) w = Normal false /\
   state (run (loadPersistedData now) w) = state w) /\
  (** malformed content: not JSON, or no valid timestamp *)
  (items (localStorage w) !! storage_key = Some text ->
   JSON_parse text = None
   \/ (JSON_parse text = Some (JObj fields) /\ Date_new (field "lastUpdated" fields) = None) ->
   result (loadPersistedData now) w = Normal false /\
   state (run (loadPersistedData now) w) = state w) /\
  (** stale snapshot *)
  (items (localStorage w) !! storage_key = Some text ->
   JSON_parse text = Some (JObj fields) ->
   Date_new (field "lastUpdated" fields) = Some stamp ->
   staleness_window <= now - stamp ->
   result (loadPersistedData now) w = Normal false /\
   state (run (loadPersistedData now) w) = state w).
Proof.
  conjs.
  - intros (Hsales & Htraffic & Hproducts & Hkpis & Hjson & Hdate) saved
      Hdenied Hquota Hstorage Hlive Hfresh w'. subst w'.
    assert (Hslot : items (localStorage w) !! storage_key = Some (JSON_stringify saved)).
    { rewrite Hstorage, persistData_stored by assumption. apply lookup_insert_eq. }
    assert (Hopen : denied (localStorage w) = false).
    { rewrite Hstorage.
      destruct (persistData_completes saved w_save) as (_ & _ & _ & _ & _ & ->).
      assumption. }
    assert (Htext : JSON_stringify saved <> "").
    { intros Hempty. fold saved in Hjson. rewrite Hempty, JSON_parse_empty in Hjson.
      discriminate. }
    destruct (loadPersistedData_adopts now t w (JSON_stringify saved) _
                Hopen Hslot Htext Hjson Hdate Hfresh Hlive)
      as (Hfound & Hs & Ht & Hp & Hk & Hstamp).
    simpl in Hs, Ht, Hp, Hk.
    destruct sales; try discriminate. destruct traffic; try discriminate.
    destruct products; try discriminate. destruct kpis; try discriminate.
    conjs; assumption.
  - intros Hslot. open_world w. js_unfold. simpl.
    case_if; simpl; [split; reflexivity |].
    rewrite Hslot. split; reflexivity.
  - intros Hslot Hbad. open_world w. js_unfold. simpl.
    case_if; simpl; [split; reflexivity |].
    rewrite Hslot. simpl.
    case_if; simpl; [| split; reflexivity].
    destruct Hbad as [-> | [-> Hdate]]; simpl; [split; reflexivity |].
    rewrite Hdate. split; reflexivity.
  - intros Hslot Hparse Hdate Hstale. open_world w. js_unfold. simpl.
    case_if; simpl; [split; reflexivity |].
    rewrite Hslot. simpl.
    case_if; simpl; [| split; reflexivity].
    rewrite Hparse. simpl. rewrite Hdate. simpl.
    unfold staleness_window in Hstale.
    destruct (Z.ltb_spec (now - stamp) 3600000); [lia |]. simpl.
    split; reflexivity.
Qed.

Lemma persisted_snapshot_witness :
  well_formed (H := Reference.platform) Examples.sales Examples.traffic Examples.products
    Examples.kpis Examples.morning /\
  (result (loadPersistedData (H := Reference.platform) (Examples.morning + 60000))
     Examples.reloaded = Normal true /\
   salesData (state (run (loadPersistedData (H := Reference.platform)
                            (Examples.morning + 60000)) Examples.reloaded))
   = Examples.sales /\
   lastUpdated (state (run (loadPersistedData (H := Reference.platform)
                              (Examples.morning + 60000)) Examples.reloaded))
   = Examples.morning) /\
  result (loadPersistedData (H := Reference.platform) Examples.morning) Examples.created
  = Normal false /\
  result (loadPersistedData (H := Reference.platform) Examples.morning) Examples.garbled
  = Normal false /\
  result (loadPersistedData (H := Reference.platform) (Examples.morning + 3600000))
    Examples.reloaded = Normal false.
Proof.
  assert (Hwf : well_formed (H := Reference.platform) Examples.sales Examples.traffic
                  Examples.products Examples.kpis Examples.morning).
  { apply reference_well_formed; try reflexivity. unfold Examples.morning. lia. }
  split; [exact Hwf |].
  split.
  - destruct (persisted_snapshot_round_trip (H := Reference.platform)
                Examples.sales Examples.traffic Examples.products Examples.kpis
                Examples.morning (Examples.morning + 60000)
                Examples.created Examples.reloaded "" [] 0)
      as (Hround & _).
    destruct Hround as (Hfound & Hsales & _ & _ & _ & Hstamp);
      [exact Hwf | reflexivity | reflexivity | vm_compute; reflexivity | reflexivity
      | reflexivity |].
    conjs; assumption.
  - split; [| split].
    + destruct (persisted_snapshot_round_trip (H := Reference.platform)
                  Examples.sales Examples.traffic Examples.products Examples.kpis
                  Examples.morning Examples.morning
                  Examples.created Examples.created "" [] 0)
        as (_ & Habsent & _).
      apply Habsent. vm_compute. reflexivity.
    + destruct (persisted_snapshot_round_trip (H := Reference.platform)
                  Examples.sales Examples.traffic Examples.products Examples.kpis
                  Examples.morning Examples.morning
                  Examples.created Examples.garbled "{oops" [] 0)
        as (_ & _ & Hmalformed & _).
      apply Hmalformed; [vm_compute; reflexivity | left; vm_compute; reflexivity].
    + destruct (persisted_snapshot_round_trip (H := Reference.platform)
                  Examples.sales Examples.traffic Examples.products Examples.kpis
                  Examples.morning (Examples.morning + 3600000)
                  Examples.created Examples.reloaded
                  (Reference.stringify
                     (snapshot Examples.sales Examples.traffic Examples.products
                        Examples.kpis (Reference.toISOString Examples.morning)))
                  [("sales", Examples.sales); ("traffic", Examples.traffic);
                   ("products", Examples.products); ("kpis", Examples.kpis);
                   ("lastUpdated", JStr (Reference.toISOString Examples.morning))]
                  Examples.morning)
        as (_ & _ & _ & Hstale).
      apply Hstale; vm_compute; try reflexivity. discriminate.
Defined.

(** ** Delimited-text export *)

Lemma includes_existsb (c : ascii) (s : string) :
  includes c s = existsb (fun a => Ascii.eqb a c) (list_ascii_of_string s).
Proof. induction s as [| a rest IH]; simpl; [reflexivity | rewrite IH; reflexivity]. Qed.

Lemma has_comma_or_quote_includes (s : string) :
  includes comma s || includes dquote s = DelimitedText.has_comma_or_quote s.
Proof.
  unfold DelimitedText.has_comma_or_quote.
  induction s as [| a rest IH]; simpl; [reflexivity |].
  rewrite <- IH.
  destruct (Ascii.eqb a comma), (Ascii.eqb a dquote), (includes comma rest),
    (includes dquote rest); reflexivity.
Qed.

Lemma double_each_doubled (s : string) :
  double_each dquote s = DelimitedText.doubled_quotes s.
Proof.
  unfold DelimitedText.doubled_quotes.
  induction s as [| a rest IH]; simpl; [reflexivity |].
  destruct (Ascii.eqb a dquote); simpl; rewrite IH; reflexivity.
Qed.

Lemma field_of_scalar_record (name : string) (r : record) :
  DelimitedText.scalar_record r ->
  field name r = JUndefined \/ DelimitedText.scalar (field name r) = true.
Proof.
  unfold DelimitedText.scalar_record.
  induction r as [| [k v] rest IH]; simpl; intros Hscalar; [left; reflexivity |].
  inversion Hscalar as [| ? ? Hv Hrest]; subst.
  destruct (String.eqb name k); [right; exact Hv | apply IH; exact Hrest].
Qed.

(** The text [join] writes for a cell is the cell of the format. *)
Lemma csv_cell_text (row : record) (header : string) :
  DelimitedText.scalar_record row ->
  join_element (csv_cell row header) = DelimitedText.cell (field header row).
Proof.
  intros Hscalar. unfold csv_cell.
  destruct (field_of_scalar_record header row Hscalar) as [-> | Hv]; [reflexivity |].
  destruct (field header row) as [| | b | n | s | items | fields]; try discriminate.
  - reflexivity.
  - simpl. rewrite has_comma_or_quote_includes.
    destruct (DelimitedText.has_comma_or_quote s); [| reflexivity].
    simpl. unfold DelimitedText.wrapped. rewrite double_each_doubled. reflexivity.
Qed.

Lemma join_texts (sep : string) (xs : list string) :
  join sep (map JStr xs) = String.concat sep xs.
Proof.
  unfold join. rewrite map_map. simpl. rewrite map_id. reflexivity.
Qed.

Lemma csv_line_text (first row : record) :
  DelimitedText.scalar_record row ->
  join "," (map (csv_cell row) (Object_keys first)) = DelimitedText.record_line first row.
Proof.
  intros Hscalar. unfold join, DelimitedText.record_line, Object_keys.
  rewrite map_map. f_equal.
  apply map_ext. intros header. apply csv_cell_text. exact Hscalar.
Qed.

(** C4. For records whose fields are numbers and texts: an empty list
    produces no download; otherwise the text is the field names of the first
    record, in its field order and joined by commas, then one line per
    record, where a text holding a comma or a quote is wrapped in quotes with
    its quotes doubled and every other value is written as it stands.  The
    two records of the example give [a,b], then [1,] with the quoted [x,y],
    then [2,z]. *)
Theorem exportToCSV_delimited_text (data : list record) (name : string) :
  Forall DelimitedText.scalar_record data ->
  (data = [] -> exportToCSV data name = None) /\
  content <$> exportToCSV data name = DelimitedText.toDelimitedText data /\
  (forall first rest, data = first :: rest ->
   exists file,
     exportToCSV data name = Some file /\
     content file
     = String.concat (String newline EmptyString)
         (DelimitedText.header_line first :: map (DelimitedText.record_line first) data)) /\
  content <$> exportToCSV Examples.two_records name = Some Examples.two_records_text.
Proof.
  intros Hscalar.
  assert (Hcontent : forall first rest, data = first :: rest ->
            csvContent data
            = String.concat (String newline EmptyString)
                (DelimitedText.header_line first
                 :: map (DelimitedText.record_line first) data)).
  { intros first rest ->. unfold csvContent. cbn [nth].
    unfold join at 1. cbn [map join_element to_string]. rewrite map_map.
    cbn [join_element to_string]. f_equal. f_equal.
    - apply join_texts.
    - inversion Hscalar as [| ? ? Hfirst Hrest]; subst. f_equal.
      + apply csv_line_text. exact Hfirst.
      + apply List.map_ext_in. intros row Hin. apply csv_line_text.
        exact (proj1 (List.Forall_forall _ _) Hrest row Hin). }
  conjs.
  - intros ->. reflexivity.
  - destruct data as [| first rest]; [reflexivity |].
    unfold exportToCSV. cbn [length Nat.eqb fmap option_fmap option_map content].
    rewrite (Hcontent first rest eq_refl). reflexivity.
  - intros first rest Hdata. subst data. eexists. split; [reflexivity |].
    cbn [content]. apply (Hcontent first rest eq_refl).
  - vm_compute. reflexivity.
Qed.

Lemma exportToCSV_witness :
  Forall DelimitedText.scalar_record Examples.two_records /\
  content <$> exportToCSV Examples.two_records "dashboard-data"
  = DelimitedText.toDelimitedText Examples.two_records /\
  DelimitedText.toDelimitedText Examples.two_records = Some Examples.two_records_text.
Proof.
  assert (Hscalar : Forall DelimitedText.scalar_record Examples.two_records).
  { repeat constructor. }
  destruct (exportToCSV_delimited_text Examples.two_records "dashboard-data" Hscalar)
    as (_ & Hsame & _ & Hexample).
  split; [exact Hscalar |]. split; [exact Hsame |].
  rewrite <- Hsame. exact Hexample.
Defined.


(** ** Timers *)

Lemma run_bind {A B} (m : JS A) (f : A -> JS B) (w : World) (a : A) :
  result m w = Normal a ->
  run (m ≫= f) w = run (f a) (run m w) /\
  result (m ≫= f) w = result (f a) (run m w).
Proof.
  unfold run, result, mbind, JS_bind. destruct (m w) as [c w1]. simpl.
  intros ->. split; reflexivity.
Qed.

Lemma owned_cancelled (w : World) : owned w -> cancelled (intervalRef w) (timers w) = [].
Proof.
  unfold owned, cancelled. intros Howned.
  destruct (intervalRef w) as [h |].
  - induction (timers w) as [| t ts IH]; [reflexivity |].
    simpl. assert (Hh : Some h = Some (fst t)) by (apply Howned; left; reflexivity).
    injection Hh as ->. rewrite Pos.eqb_refl. simpl.
    apply IH. intros t' Hin. apply Howned. right. exact Hin.
  - destruct (timers w) as [| t ts]; [reflexivity |].
    discriminate (Howned t (or_introl eq_refl)).
Qed.

(** [startRealTime]: cancel what the ref holds, raise the flag, install a
    timer and keep its handle. *)
Lemma startRealTime_spec (options : Options) (w : World) :
  let w' := run (startRealTime options) w in
  result (startRealTime options) w = Normal tt /\
  isRealTime (state w') = true /\
  intervalRef w' = Some (nextHandle w) /\
  timers w' = (cancelled (intervalRef w) (timers w)
               ++ [(nextHandle w, updateInterval options)])%list /\
  nextHandle w' = Pos.succ (nextHandle w) /\
  mountedRef w' = mountedRef w /\
  localStorage w' = localStorage w /\
  console w' = console w /\
  salesData (state w') = salesData (state w) /\
  trafficData (state w') = trafficData (state w) /\
  productData (state w') = productData (state w) /\
  kpiData (state w') = kpiData (state w) /\
  lastUpdated (state w') = lastUpdated (state w) /\
  updateCount (state w') = updateCount (state w) /\
  isLoading (state w') = isLoading (state w) /\
  error (state w') = error (state w).
Proof.
  open_world w. js_unfold. simpl.
  match goal with
  | |- context [match ?ref with Some _ => _ | None => _ end] => destruct ref
  end; simpl; conjs; reflexivity.
Qed.

(** [stopRealTime]: cancel what the ref holds, clear it, lower the flag. *)
Lemma stopRealTime_spec (w : World) :
  let w' := run stopRealTime w in
  result stopRealTime w = Normal tt /\
  isRealTime (state w') = false /\
  intervalRef w' = None /\
  timers w' = cancelled (intervalRef w) (timers w) /\
  nextHandle w' = nextHandle w /\
  mountedRef w' = mountedRef w /\
  localStorage w' = localStorage w /\
  console w' = console w /\
  salesData (state w') = salesData (state w) /\
  trafficData (state w') = trafficData (state w) /\
  productData (state w') = productData (state w) /\
  kpiData (state w') = kpiData (state w) /\
  lastUpdated (state w') = lastUpdated (state w) /\
  updateCount (state w') = updateCount (state w) /\
  isLoading (state w') = isLoading (state w) /\
  error (state w') = error (state w).
Proof.
  open_world w. js_unfold. simpl.
  match goal with
  | |- context [match ?ref with Some _ => _ | None => _ end] => destruct ref
  end; simpl; conjs; reflexivity.
Qed.

(** The cleanup of the mount effect: mark the hook dead, cancel what the ref
    holds (the ref keeps the stale handle). *)
Lemma cleanup_spec (w : World) :
  let w' := run cleanup w in
  result cleanup w = Normal tt /\
  mountedRef w' = false /\
  intervalRef w' = intervalRef w /\
  timers w' = cancelled (intervalRef w) (timers w) /\
  state w' = state w /\
  localStorage w' = localStorage w /\
  console w' = console w.
Proof.
  open_world w. js_unfold. simpl.
  match goal with
  | |- context [match ?ref with Some _ => _ | None => _ end] => destruct ref
  end; simpl; conjs; reflexivity.
Qed.

Lemma cancelled_not_running (h : positive) (ts : list (positive * Z)) :
  ~ In h (map fst (cancelled (Some h) ts)).
Proof.
  unfold cancelled. induction ts as [| t rest IH]; simpl; [tauto |].
  destruct (Pos.eqb_spec (fst t) h) as [Heq | Hne]; simpl; [exact IH |].
  intros [Hhead | Htail]; [contradiction | exact (IH Htail)].
Qed.

Lemma startRealTime_started (options : Options) (w : World) :
  timer_started w (run (startRealTime options) w).
Proof.
  destruct (startRealTime_spec options w) as (_ & Hflag & Href & Htimers & _).
  unfold timer_started, running. conjs; [assumption | assumption |].
  rewrite Htimers, map_app, in_app_iff. right. left. reflexivity.
Qed.

Lemma stopRealTime_stopped (w : World) : timer_stopped w (run stopRealTime w).
Proof.
  destruct (stopRealTime_spec w) as (_ & Hflag & Href & Htimers & _).
  unfold timer_stopped, running. conjs; [assumption | assumption |].
  intros h Hheld. rewrite Htimers, Hheld. apply cancelled_not_running.
Qed.


Lemma same_timers_refl (w : World) : same_timers w w.
Proof. unfold same_timers. conjs; reflexivity. Qed.

Lemma same_timers_trans (w1 w2 w3 : World) :
  same_timers w1 w2 -> same_timers w2 w3 -> same_timers w1 w3.
Proof.
  unfold same_timers. intros (-> & -> & -> & -> & ->) (-> & -> & -> & -> & ->).
  conjs; reflexivity.
Qed.

Lemma quiet_bind {A B} (m : JS A) (f : A -> JS B) :
  quiet m -> (forall a, quiet (f a)) -> quiet (m ≫= f).
Proof.
  intros Hm Hf w.
  destruct (Hm w) as ([a Ha] & Hsame).
  destruct (run_bind m f w a Ha) as [-> ->].
  destruct (Hf a (run m w)) as (Hdone & Hsame').
  split; [exact Hdone | exact (same_timers_trans _ _ _ Hsame Hsame')].
Qed.

Lemma quiet_ret {A} (a : A) : quiet (mret a : JS A).
Proof. intros w. split; [exists a; reflexivity | apply same_timers_refl]. Qed.

Lemma quiet_when (b : bool) (c : JS unit) : quiet c -> quiet (when b c).
Proof. destruct b; [trivial | intros _; apply quiet_ret]. Qed.

Ltac js_cases :=
  repeat (simpl;
          match goal with
          | |- context [match ?c with Normal _ => _ | Throw _ => _ end] => destruct c
          | |- context [match ?o with Some _ => _ | None => _ end] => destruct o
          | |- context [if ?b then _ else _] => destruct b
          end).

Ltac quiet_by_cases :=
  split; [eexists; reflexivity | unfold same_timers; conjs; reflexivity].

Lemma generateAllData_quiet `{Platform} (options : Options) (g : Generators)
    (t_state t_saved : Z) : quiet (generateAllData options g t_state t_saved).
Proof.
  intros w. destruct g as [gs gt gp gk]. open_world w. js_unfold.
  js_cases; simpl; quiet_by_cases.
Qed.

Lemma generateAllData_completes `{Platform} (options : Options) (g : Generators)
    (t_state t_saved : Z) (w : World) :
  result (generateAllData options g t_state t_saved) w = Normal tt.
Proof.
  destruct (generateAllData_quiet options g t_state t_saved w) as ([[] Hdone] & _).
  exact Hdone.
Qed.

Lemma loadPersistedData_quiet `{Platform} (now : Z) : quiet (loadPersistedData now).
Proof.
  intros w. open_world w. js_unfold.
  js_cases; simpl; try quiet_by_cases.
  all: match goal with
       | |- context [match ?d with JUndefined => _ | _ => _ end] => destruct d
       end; js_cases; simpl; quiet_by_cases.
Qed.

Lemma clearData_quiet (options : Options) : quiet (clearData options).
Proof.
  intros w. open_world w. js_unfold. js_cases; simpl; quiet_by_cases.
Qed.

Lemma updateDataset_quiet (datasetName : string) (newData : jsval) (now : Z) :
  quiet (updateDataset datasetName newData now).
Proof.
  intros w. open_world w. js_unfold. js_cases; simpl; quiet_by_cases.
Qed.

Lemma intervalCallback_quiet `{Platform} (options : Options) (g : Generators)
    (t_state t_saved : Z) : quiet (intervalCallback options g t_state t_saved).
Proof.
  unfold intervalCallback. apply quiet_bind.
  - intros w. split; [eexists; reflexivity | apply same_timers_refl].
  - intros live. apply quiet_when, generateAllData_quiet.
Qed.

Lemma toggleRealTime_unfold `{Platform} (options : Options) (w : World) :
  handle options Toggle w
  = if isRealTime (state w) then stopRealTime w else startRealTime options w.
Proof.
  unfold handle, toggleRealTime, reads, mbind, JS_bind.
  destruct (isRealTime (state w)); reflexivity.
Qed.

Lemma realTimeEffect_unfold (options : Options) (w : World) :
  realTimeEffect options w
  = if isRealTime (state w) then startRealTime options w else stopRealTime w.
Proof.
  unfold realTimeEffect, reads, mbind, JS_bind. destruct (isRealTime (state w)); reflexivity.
Qed.


Lemma mountEffect_step `{Platform} (options : Options) (g : Generators)
    (now t_state t_saved : Z) (w : World) :
  timer_step options w (run (mountEffect options g now t_state t_saved) w).
Proof.
  unfold mountEffect.
  set (load := if enablePersistence options then loadPersistedData now else mret false).
  assert (Hload : quiet load).
  { subst load. destruct (enablePersistence options);
      [apply loadPersistedData_quiet | apply quiet_ret]. }
  destruct (Hload w) as ([dataLoaded Hloaded] & Hsame1).
  match goal with
  | |- timer_step _ _ (run (mbind ?f load) w) =>
      destruct (run_bind load f w dataLoaded Hloaded) as [-> _]
  end.
  set (w1 := run load w) in *.
  assert (Hgenerate : quiet (when (negb dataLoaded)
                               (generateAllData options g t_state t_saved))).
  { apply quiet_when, generateAllData_quiet. }
  destruct (Hgenerate w1) as ([[] Hgenerated] & Hsame2).
  match goal with
  | |- timer_step _ _ (run (mbind ?f ?m) w1) =>
      destruct (run_bind m f w1 tt Hgenerated) as [-> _]
  end.
  pose proof (same_timers_trans _ _ _ Hsame1 Hsame2) as Hsame.
  set (w2 := run (when (negb dataLoaded) (generateAllData options g t_state t_saved)) w1) in *.
  unfold run at 1, reads, mbind, JS_bind, when.
  destruct (autoStart options && isRealTime (state w2)); simpl.
  - apply (step_start options w _ w2 Hsame). reflexivity.
  - apply step_quiet. exact Hsame.
Qed.

Lemma handle_step `{Platform} (options : Options) (e : event) (w : World) :
  timer_step options w (run (handle options e) w).
Proof.
  destruct e; simpl.
  - apply mountEffect_step.
  - change (timer_step options w (run (handle options Toggle) w)).
    unfold run. rewrite toggleRealTime_unfold. destruct (isRealTime (state w)).
    + apply step_stop. reflexivity.
    + apply (step_start options w _ w (same_timers_refl w)). reflexivity.
  - apply (step_start options w _ w (same_timers_refl w)). reflexivity.
  - apply step_stop. reflexivity.
  - apply step_quiet, generateAllData_quiet.
  - apply step_quiet, clearData_quiet.
  - apply step_quiet, updateDataset_quiet.
  - apply step_quiet, intervalCallback_quiet.
  - unfold run. rewrite realTimeEffect_unfold. destruct (isRealTime (state w)).
    + apply (step_start options w _ w (same_timers_refl w)). reflexivity.
    + apply step_stop. reflexivity.
  - apply step_cleanup. reflexivity.
Qed.

(** *** First invariant: the ref holds every running timer *)

Lemma same_timers_owned (w w' : World) : same_timers w w' -> owned w -> owned w'.
Proof.
  intros (Htimers & Href & _) Howned. unfold owned. rewrite Htimers, Href. exact Howned.
Qed.

Lemma startRealTime_owned (options : Options) (w : World) :
  owned w -> owned (run (startRealTime options) w).
Proof.
  intros Howned.
  destruct (startRealTime_spec options w) as (_ & _ & Href & Htimers & _).
  unfold owned. rewrite Htimers, Href, (owned_cancelled w Howned). simpl.
  intros t [<- | []]. reflexivity.
Qed.

Lemma stopRealTime_owned (w : World) : owned w -> owned (run stopRealTime w).
Proof.
  intros Howned.
  destruct (stopRealTime_spec w) as (_ & _ & _ & Htimers & _).
  unfold owned. rewrite Htimers, (owned_cancelled w Howned). intros t [].
Qed.

Lemma cleanup_owned (w : World) : owned w -> owned (run cleanup w).
Proof.
  intros Howned.
  destruct (cleanup_spec w) as (_ & _ & _ & Htimers & _).
  unfold owned. rewrite Htimers, (owned_cancelled w Howned). intros t [].
Qed.

Lemma timer_step_owned (options : Options) (w w' : World) :
  timer_step options w w' -> owned w -> owned w'.
Proof.
  intros [Hsame | w1 Hsame -> | -> | ->] Howned.
  - exact (same_timers_owned _ _ Hsame Howned).
  - apply startRealTime_owned. exact (same_timers_owned _ _ Hsame Howned).
  - apply stopRealTime_owned. exact Howned.
  - apply cleanup_owned. exact Howned.
Qed.

Lemma after_owned `{Platform} (options : Options) (history : list event) (w : World) :
  owned w -> owned (after options history w).
Proof.
  unfold after. revert w.
  induction history as [| e rest IH]; intros w Howned; simpl; [exact Howned |].
  apply IH. exact (timer_step_owned options _ _ (handle_step options e w) Howned).
Qed.

Lemma initial_owned (options : Options) (now : Z) (store : Storage) (next : positive)
    (log : list (level * string)) : owned (initial options now store next log).
Proof. intros t []. Qed.

(** *** Second invariant: an active live hook has its timer running *)

Lemma same_timers_synced (w w' : World) : same_timers w w' -> synced w -> synced w'.
Proof.
  intros (Htimers & Href & _ & Hlive & Hflag) Hsynced. unfold synced, running.
  rewrite Htimers, Href, Hlive, Hflag. exact Hsynced.
Qed.

Lemma startRealTime_synced (options : Options) (w : World) :
  synced (run (startRealTime options) w).
Proof.
  intros _ _. destruct (startRealTime_started options w) as (_ & Href & Hrunning).
  exists (nextHandle w). split; assumption.
Qed.

Lemma stopRealTime_synced (w : World) : synced (run stopRealTime w).
Proof.
  intros _ Hactive. destruct (stopRealTime_spec w) as (_ & Hflag & _).
  rewrite Hflag in Hactive. discriminate.
Qed.

Lemma cleanup_synced (w : World) : synced (run cleanup w).
Proof.
  intros Hlive _. destruct (cleanup_spec w) as (_ & Hdead & _).
  rewrite Hdead in Hlive. discriminate.
Qed.

Lemma timer_step_synced (options : Options) (w w' : World) :
  timer_step options w w' -> synced w -> synced w'.
Proof.
  intros [Hsame | w1 Hsame -> | -> | ->] Hsynced.
  - exact (same_timers_synced _ _ Hsame Hsynced).
  - apply startRealTime_synced.
  - apply stopRealTime_synced.
  - apply cleanup_synced.
Qed.

Lemma after_synced `{Platform} (options : Options) (history : list event) (w : World) :
  synced w -> synced (after options history w).
Proof.
  unfold after. revert w.
  induction history as [| e rest IH]; intros w Hsynced; simpl; [exact Hsynced |].
  apply IH. exact (timer_step_synced options _ _ (handle_step options e w) Hsynced).
Qed.

(** The hook is synced once its two effects have run, whatever the options,
    the storage and the generators. *)
Lemma mounted_synced `{Platform} (options : Options) (g : Generators)
    (now t_state t_saved : Z) (store : Storage) (next : positive)
    (log : list (level * string)) :
  synced (mounted options g now t_state t_saved store next log).
Proof.
  unfold mounted, run. rewrite realTimeEffect_unfold.
  match goal with
  | |- context [if ?active then _ else _] => destruct active
  end; [apply startRealTime_synced | apply stopRealTime_synced].
Qed.

(** With one timer running, a delay is one call of the callback. *)
Lemma period_single `{Platform} (options : Options) (g : Generators)
    (t_state t_saved : Z) (w : World) (h : positive) (delay : Z) :
  timers w = [(h, delay)] ->
  period options g t_state t_saved w = run (intervalCallback options g t_state t_saved) w.
Proof.
  intros Htimers. unfold period. rewrite Htimers. simpl.
  unfold run at 1, fire. rewrite Htimers. simpl. rewrite Pos.eqb_refl. reflexivity.
Qed.

Lemma window_single `{Platform} (options : Options) (ticks : list (Generators * Z * Z))
    (w : World) (h : positive) (delay : Z) :
  timers w = [(h, delay)] ->
  window options ticks w
  = fold_left (fun acc '(g, t_state, t_saved) =>
                 run (intervalCallback options g t_state t_saved) acc) ticks w.
Proof.
  unfold window. revert w.
  induction ticks as [| [[g t_state] t_saved] rest IH]; intros w Htimers; [reflexivity |].
  simpl. rewrite (period_single options g t_state t_saved w h delay Htimers).
  apply IH.
  destruct (intervalCallback_quiet options g t_state t_saved w) as (_ & -> & _).
  exact Htimers.
Qed.

(** Two starts in a row, from a state where the ref holds every running
    timer. *)
Lemma start_twice_owned (options : Options) (w : World) :
  owned w ->
  let w1 := run (startRealTime options) w in
  let w2 := run (startRealTime options) w1 in
  timers w1 = [(nextHandle w, updateInterval options)] /\
  intervalRef w1 = Some (nextHandle w) /\
  timers w2 = [(Pos.succ (nextHandle w), updateInterval options)] /\
  intervalRef w2 = Some (Pos.succ (nextHandle w)) /\
  isRealTime (state w2) = true.
Proof.
  intros Howned w1 w2. subst w2.
  destruct (startRealTime_spec options w) as (_ & _ & Href1 & Htimers1 & Hnext1 & _).
  destruct (startRealTime_spec options w1) as (_ & Hflag & Href2 & Htimers2 & _).
  fold w1 in Href1, Htimers1, Hnext1.
  rewrite (owned_cancelled w Howned) in Htimers1. simpl in Htimers1.
  rewrite Href1, Htimers1, Hnext1 in Htimers2. simpl in Htimers2.
  rewrite Pos.eqb_refl in Htimers2. simpl in Htimers2.
  rewrite Hnext1 in Href2.
  conjs; assumption.
Qed.

(** C5. In every state the hook can reach, two starts in a row leave
    exactly one running timer: the first start installs one, the second
    cancels it and installs its own.  So each delay is one call of the
    callback, over a window of any length. *)
Theorem start_twice_single_timer `{Platform} (options : Options) (history : list event)
    (now : Z) (store : Storage) (next : positive) (log : list (level * string)) :
  let w := after options history (initial options now store next log) in
  let w1 := run (startRealTime options) w in
  let w2 := run (startRealTime options) w1 in
  timers w1 = [(nextHandle w, updateInterval options)] /\
  intervalRef w1 = Some (nextHandle w) /\
  timers w2 = [(nextHandle w1, updateInterval options)] /\
  intervalRef w2 = Some (nextHandle w1) /\
  nextHandle w1 <> nextHandle w /\
  ~ running (nextHandle w) w2 /\
  length (timers w2) = 1%nat /\
  isRealTime (state w2) = true /\
  (forall g t_state t_saved,
     period options g t_state t_saved w2
     = run (intervalCallback options g t_state t_saved) w2) /\
  (forall ticks,
     window options ticks w2
     = fold_left (fun acc '(g, t_state, t_saved) =>
                    run (intervalCallback options g t_state t_saved) acc) ticks w2).
Proof.
  intros w w1 w2. subst w1 w2.
  assert (Howned : owned w) by apply after_owned, initial_owned.
  destruct (start_twice_owned options w Howned)
    as (Htimers1 & Href1 & Htimers2 & Href2 & Hflag).
  destruct (startRealTime_spec options w) as (_ & _ & _ & _ & Hnext1 & _).
  assert (Hfresh : Pos.succ (nextHandle w) <> nextHandle w) by lia.
  rewrite Hnext1. conjs; try assumption.
  - unfold running. rewrite Htimers2. simpl. intros [Hsame | []]. lia.
  - rewrite Htimers2. reflexivity.
  - intros g t_state t_saved. eapply period_single. exact Htimers2.
  - intros ticks. eapply window_single. exact Htimers2.
Qed.

(** ** Teardown *)

(** C6. After the cleanup of the mount effect the hook is marked dead and
    the timer its ref held is cancelled; a callback that still fires then
    completes without changing anything: the state, the refs, the storage,
    the timers and the console are what they were. *)
Theorem late_tick_after_teardown `{Platform} (options : Options) (g : Generators)
    (t_state t_saved : Z) (w : World) :
  let w' := run cleanup w in
  mountedRef w' = false /\
  (forall h, intervalRef w = Some h -> ~ running h w') /\
  intervalCallback options g t_state t_saved w' = (Normal tt, w') /\
  state (run (intervalCallback options g t_state t_saved) w') = state w'.
Proof.
  intros w'. subst w'.
  destruct (cleanup_spec w) as (_ & Hdead & _ & Htimers & _).
  assert (Hnoop : intervalCallback options g t_state t_saved (run cleanup w)
                  = (Normal tt, run cleanup w)).
  { unfold intervalCallback, reads, mbind, JS_bind. rewrite Hdead. reflexivity. }
  conjs.
  - exact Hdead.
  - intros h Href. unfold running. rewrite Htimers, Href. apply cancelled_not_running.
  - exact Hnoop.
  - unfold run at 1. rewrite Hnoop. reflexivity.
Qed.

(** ** Toggle *)

Lemma state_ext (s1 s2 : HookState) :
  salesData s1 = salesData s2 -> trafficData s1 = trafficData s2 ->
  productData s1 = productData s2 -> kpiData s1 = kpiData s2 ->
  isRealTime s1 = isRealTime s2 -> lastUpdated s1 = lastUpdated s2 ->
  updateCount s1 = updateCount s2 -> isLoading s1 = isLoading s2 ->
  error s1 = error s2 -> s1 = s2.
Proof. destruct s1, s2. simpl. intros. subst. reflexivity. Qed.

(** The effect on [isRealTime] repeats what the flag says: it leaves the
    state as it is. *)
Lemma realTimeEffect_state (options : Options) (w : World) :
  state (run (realTimeEffect options) w) = state w.
Proof.
  destruct w as [[sales traffic products kpis [|] updated count loading err] [h |] ? ? ? ? ?];
    reflexivity.
Qed.



(** Two starts in a row: the flag is on, and of the two timers installed
    the second is running and held by the ref, the first is cancelled. *)
Lemma start_twice_started (options : Options) (w : World) :
  let w' := run (startRealTime options) (run (startRealTime options) w) in
  isRealTime (state w') = true /\
  intervalRef w' = Some (Pos.succ (nextHandle w)) /\
  running (Pos.succ (nextHandle w)) w' /\
  ~ running (nextHandle w) w'.
Proof.
  intros w'. subst w'.
  destruct (startRealTime_spec options w) as (_ & _ & Href1 & _ & Hnext1 & _).
  destruct (startRealTime_spec options (run (startRealTime options) w))
    as (_ & Hflag & Href & Htimers & _).
  rewrite Hnext1 in Href, Htimers. rewrite Href1 in Htimers.
  conjs; [exact Hflag | exact Href | |].
  - unfold running. rewrite Htimers, map_app, in_app_iff. right. simpl. left. reflexivity.
  - unfold running. rewrite Htimers, map_app, in_app_iff. intros [Hold | Hnew].
    + exact (cancelled_not_running _ _ Hold).
    + simpl in Hnew. destruct Hnew as [Hsame | []]. lia.
Qed.

(** The handler of one render called twice takes the same branch twice:
    the one made while the hook was inactive starts a timer both times and
    leaves the flag on. *)
Lemma toggleRealTime_same_render (options : Options) (w : World) :
  let w' := run (toggleRealTime options false) (run (toggleRealTime options false) w) in
  isRealTime (state w') = true /\
  intervalRef w' = Some (Pos.succ (nextHandle w)).
Proof.
  intros w'. subst w'.
  destruct (start_twice_started options w) as (Hflag & Href & _).
  split; [exact Hflag | exact Href].
Qed.



(** ** Updating one dataset *)

(** C8, as stated, fails: a name that is not a dataset still moves the
    timestamp. *)
Lemma updateDataset_unknown_moves_timestamp :
  known_dataset "bogus" = false /\
  lastUpdated (state (run (updateDataset "bogus" (JArr []) (Examples.morning + 1))
                        Examples.created))
  = Examples.morning + 1 /\
  state (run (updateDataset "bogus" (JArr []) (Examples.morning + 1)) Examples.created)
  <> state Examples.created.
Proof.
  split; [reflexivity |]. split; [reflexivity |].
  intros Hsame. apply (f_equal lastUpdated) in Hsame. vm_compute in Hsame. discriminate.
Qed.

(** C8, amended. [updateDataset] with a name outside sales, traffic,
    products and kpis does not throw and logs one warning that names it; the
    four sequences, the update counter, the active, loading and error fields,
    the refs, the timers and the storage are unchanged.  In a live hook the
    timestamp is set to the clock reading, as for a known name. *)
Theorem updateDataset_unknown_name (datasetName : string) (newData : jsval) (now : Z)
    (w : World) :
  known_dataset datasetName = false ->
  let w' := run (updateDataset datasetName newData now) w in
  result (updateDataset datasetName newData now) w = Normal tt /\
  salesData (state w') = salesData (state w) /\
  trafficData (state w') = trafficData (state w) /\
  productData (state w') = productData (state w) /\
  kpiData (state w') = kpiData (state w) /\
  updateCount (state w') = updateCount (state w) /\
  isRealTime (state w') = isRealTime (state w) /\
  isLoading (state w') = isLoading (state w) /\
  error (state w') = error (state w) /\
  intervalRef w' = intervalRef w /\
  mountedRef w' = mountedRef w /\
  timers w' = timers w /\
  localStorage w' = localStorage w /\
  console w' = (console w ++ [(LogWarn, "Unknown dataset: " +:+ datasetName)])%list /\
  (mountedRef w = true -> lastUpdated (state w') = now).
Proof.
  intros Hunknown w'. subst w'. unfold known_dataset in Hunknown.
  destruct (String.eqb datasetName "sales") eqn:Hsales; [discriminate |].
  destruct (String.eqb datasetName "traffic") eqn:Htraffic; [discriminate |].
  destruct (String.eqb datasetName "products") eqn:Hproducts; [discriminate |].
  destruct (String.eqb datasetName "kpis") eqn:Hkpis; [discriminate |].
  open_world w. js_unfold. rewrite Hsales, Htraffic, Hproducts, Hkpis. simpl.
  conjs; intros; reflexivity.
Qed.

Lemma updateDataset_unknown_witness :
  known_dataset "bogus" = false /\
  mountedRef Examples.refreshed = true /\
  salesData (state (run (updateDataset "bogus" (JArr []) 9) Examples.refreshed))
  = Examples.sales /\
  updateCount (state (run (updateDataset "bogus" (JArr []) 9) Examples.refreshed)) = 1 /\
  lastUpdated (state (run (updateDataset "bogus" (JArr []) 9) Examples.refreshed)) = 9.
Proof.
  destruct (updateDataset_unknown_name "bogus" (JArr []) 9 Examples.refreshed eq_refl)
    as (_ & Hsales & _ & _ & _ & Hcount & _ & _ & _ & _ & _ & _ & _ & _ & Hstamp).
  split; [reflexivity |]. split; [reflexivity |].
  split; [rewrite Hsales; vm_compute; reflexivity |].
  split; [rewrite Hcount; vm_compute; reflexivity | exact (Hstamp eq_refl)].
Defined.

(** ** Clearing *)

(** C9, as stated, fails: with persistence disabled, [clearData] leaves a
    snapshot that the slot holds where it is, in a storage that works. *)
Lemma clearData_keeps_slot_without_persistence :
  enablePersistence Examples.no_persistence = false /\
  denied (localStorage Examples.left_over) = false /\
  items (localStorage Examples.left_over) !! storage_key <> None /\
  items (localStorage (run (clearData Examples.no_persistence) Examples.left_over))
    !! storage_key
  = items (localStorage Examples.left_over) !! storage_key.
Proof.
  split; [reflexivity |]. split; [reflexivity |].
  split; [vm_compute; discriminate | vm_compute; reflexivity].
Qed.

(** C9, amended. [clearData] completes and surfaces no error; in a live
    hook the four sequences are empty and the update counter is 0 after it.
    With persistence enabled the slot is removed from a storage that works,
    and a storage that refuses the call is left as it was, with a warning in
    the console; with persistence disabled the storage is not touched. *)
Theorem clearData_empties (options : Options) (w : World) :
  let w' := run (clearData options) w in
  result (clearData options) w = Normal tt /\
  (mountedRef w = true ->
   salesData (state w') = JArr [] /\
   trafficData (state w') = JArr [] /\
   productData (state w') = JArr [] /\
   kpiData (state w') = JArr [] /\
   updateCount (state w') = 0) /\
  error (state w') = error (state w) /\
  (enablePersistence options = true -> denied (localStorage w) = false ->
   items (localStorage w') = delete storage_key (items (localStorage w)) /\
   items (localStorage w') !! storage_key = None /\
   console w' = console w) /\
  (enablePersistence options = true -> denied (localStorage w) = true ->
   localStorage w' = localStorage w /\
   console w' = (console w ++ [(LogWarn, "Failed to clear persisted data:")])%list) /\
  (enablePersistence options = false ->
   localStorage w' = localStorage w /\ console w' = console w).
Proof.
  intros w'. subst w'. open_world w. js_unfold. simpl.
  destruct (enablePersistence options); simpl.
  - case_if; simpl; conjs; intros; try discriminate; conjs;
      first [apply lookup_delete_eq | reflexivity].
  - conjs; intros; try discriminate; conjs; reflexivity.
Qed.

Lemma clearData_witness :
  mountedRef Examples.refreshed = true /\
  items (localStorage Examples.refreshed) !! storage_key <> None /\
  items (localStorage (run (clearData default_options) Examples.refreshed)) !! storage_key
  = None /\
  salesData (state (run (clearData default_options) Examples.refreshed)) = JArr [] /\
  updateCount (state (run (clearData default_options) Examples.refreshed)) = 0 /\
  console (run (clearData default_options) Examples.locked)
  = [(LogWarn, "Failed to clear persisted data:")] /\
  error (state (run (clearData default_options) Examples.locked)) = None.
Proof.
  destruct (clearData_empties default_options Examples.refreshed)
    as (_ & Hemptied & _ & Hremoved & _).
  destruct (Hemptied eq_refl) as (Hsales & _ & _ & _ & Hcount).
  destruct (Hremoved eq_refl eq_refl) as (_ & Hgone & _).
  destruct (clearData_empties default_options Examples.locked)
    as (_ & _ & Herror & _ & Hrefused & _).
  destruct (Hrefused eq_refl eq_refl) as (_ & Hwarned).
  split; [reflexivity |]. split; [vm_compute; discriminate |].
  split; [exact Hgone |]. split; [exact Hsales |]. split; [exact Hcount |].
  split; [exact Hwarned | exact Herror].
Defined.

Lemma running_existsb (h : positive) (ts : list (positive * Z)) :
  In h (map fst ts) -> existsb (fun t => Pos.eqb (fst t) h) ts = true.
Proof.
  induction ts as [| t rest IH]; simpl; [tauto |].
  intros [<- | Hrest]; [rewrite Pos.eqb_refl; reflexivity |].
  rewrite (IH Hrest). apply orb_true_r.
Qed.

(** In a live hook the callback of the timer replaces the four sequences
    by what the generators return. *)
Lemma intervalCallback_repopulates `{Platform} (options : Options) (g : Generators)
    (sales traffic products kpis : jsval) (t_state t_saved : Z) (w : World) :
  mountedRef w = true ->
  generates g sales traffic products kpis ->
  let w' := run (intervalCallback options g t_state t_saved) w in
  salesData (state w') = sales /\
  trafficData (state w') = traffic /\
  productData (state w') = products /\
  kpiData (state w') = kpis /\
  updateCount (state w') = updateCount (state w) + 1.
Proof.
  intros Hlive (Hs & Ht & Hp & Hk) w'. subst w'.
  destruct g as [gs gt gp gk]. simpl in Hs, Ht, Hp, Hk. subst gs gt gp gk.
  open_world w. subst. js_unfold. simpl.
  js_cases; simpl; conjs; reflexivity.
Qed.

(** C10. [clearData] changes the four sequences, the update counter and
    the slot of the snapshot, and nothing else: the active flag, the
    timestamp, the loading and error fields, the refs, the timers and every
    other key of the storage are what they were.  So a timer that was
    running still is; in a live hook that is active its timer is running,
    and when it next fires, with generators that return, the sequences are
    filled again. *)
Theorem clearData_frame `{Platform} (options : Options) (w : World)
    (g : Generators) (sales traffic products kpis : jsval) (t_state t_saved : Z) :
  let w' := run (clearData options) w in
  isRealTime (state w') = isRealTime (state w) /\
  lastUpdated (state w') = lastUpdated (state w) /\
  isLoading (state w') = isLoading (state w) /\
  error (state w') = error (state w) /\
  intervalRef w' = intervalRef w /\
  timers w' = timers w /\
  nextHandle w' = nextHandle w /\
  mountedRef w' = mountedRef w /\
  denied (localStorage w') = denied (localStorage w) /\
  over_quota (localStorage w') = over_quota (localStorage w) /\
  (forall key, key <> storage_key ->
     items (localStorage w') !! key = items (localStorage w) !! key) /\
  (forall h, running h w -> running h w') /\
  (synced w -> mountedRef w = true -> isRealTime (state w) = true ->
   generates g sales traffic products kpis ->
   exists h,
     running h w' /\
     let w'' := run (fire options h g t_state t_saved) w' in
     salesData (state w'') = sales /\
     trafficData (state w'') = traffic /\
     productData (state w'') = products /\
     kpiData (state w'') = kpis /\
     updateCount (state w'') = 1).
Proof.
  intros w'.
  assert (Hframe :
            isRealTime (state w') = isRealTime (state w) /\
            lastUpdated (state w') = lastUpdated (state w) /\
            isLoading (state w') = isLoading (state w) /\
            error (state w') = error (state w) /\
            intervalRef w' = intervalRef w /\
            timers w' = timers w /\
            nextHandle w' = nextHandle w /\
            mountedRef w' = mountedRef w /\
            denied (localStorage w') = denied (localStorage w) /\
            over_quota (localStorage w') = over_quota (localStorage w) /\
            updateCount (state w') = 0 /\
            (forall key, key <> storage_key ->
               items (localStorage w') !! key = items (localStorage w) !! key)).
  { subst w'. open_world w. js_unfold. simpl.
    destruct (enablePersistence options); simpl; [case_if; simpl |];
      conjs; try reflexivity; intros key Hother;
      first [apply lookup_delete_ne; congruence | reflexivity]. }
  destruct Hframe as (Hactive & Hstamp & Hloading & Herror & Href & Htimers & Hnext
                      & Hlive & Hdenied & Hquota & Hcount & Hkeys).
  conjs; try assumption.
  - intros h. unfold running. rewrite Htimers. trivial.
  - intros Hsynced Hmounted Hflag Hgenerates.
    destruct (Hsynced Hmounted Hflag) as (h & _ & Hrunning).
    exists h. split; [unfold running in *; rewrite Htimers; exact Hrunning |].
    intros w''. subst w''.
    assert (Hfire : run (fire options h g t_state t_saved) w'
                    = run (intervalCallback options g t_state t_saved) w').
    { unfold run, fire. rewrite Htimers, (running_existsb h _ Hrunning). reflexivity. }
    rewrite Hfire. rewrite <- Hlive in Hmounted.
    destruct (intervalCallback_repopulates options g sales traffic products kpis
                t_state t_saved w' Hmounted Hgenerates)
      as (Hs & Ht & Hp & Hk & Hc).
    rewrite Hcount in Hc. conjs; [assumption .. | exact Hc].
Qed.

Lemma clearData_frame_witness :
  synced Examples.ticking /\
  mountedRef Examples.ticking = true /\
  isRealTime (state Examples.ticking) = true /\
  timers (run (clearData default_options) Examples.ticking) = timers Examples.ticking /\
  exists h,
    running h (run (clearData default_options) Examples.ticking) /\
    salesData (state (run (fire (H := Reference.platform) default_options h
                             Examples.working 7 8)
                        (run (clearData default_options) Examples.ticking)))
    = Examples.sales.
Proof.
  assert (Hsynced : synced Examples.ticking) by apply startRealTime_synced.
  assert (Hgen : generates Examples.working Examples.sales Examples.traffic
                   Examples.products Examples.kpis) by (unfold generates; conjs; reflexivity).
  destruct (clearData_frame (H := Reference.platform) default_options Examples.ticking
              Examples.working Examples.sales Examples.traffic
              Examples.products Examples.kpis 7 8)
    as (_ & _ & _ & _ & _ & Htimers & _ & _ & _ & _ & _ & _ & Hrefill).
  destruct (Hrefill Hsynced eq_refl eq_refl Hgen) as (h & Hrunning & Hsales & _).
  split; [exact Hsynced |]. split; [reflexivity |]. split; [reflexivity |].
  split; [exact Htimers |].
  exists h. split; [exact Hrunning | exact Hsales].
Defined.


(** * More properties of the repository *)

(** ** Refreshing when the storage refuses, and after teardown *)

(** X1. A refresh of a live hook with persistence on, whose generators return
    but whose storage refuses the write (access denied, or the quota
    exceeded), updates the state as any successful refresh does: the four
    sequences, the timestamp, the counter, loading cleared, no error.  The
    storage is left as it was and one warning is logged. *)
Theorem refresh_storage_refused `{Platform} (options : Options)
    (g : Generators) (sales traffic products kpis : jsval)
    (t_state t_saved : Z) (w : World) :
  mountedRef w = true ->
  enablePersistence options = true ->
  generates g sales traffic products kpis ->
  denied (localStorage w) = true
  \/ over_quota (localStorage w) storage_key
       (JSON_stringify (snapshot sales traffic products kpis (Date_toISOString t_saved)))
     = true ->
  let w' := run (refreshData options g t_state t_saved) w in
  result (refreshData options g t_state t_saved) w = Normal tt /\
  salesData (state w') = sales /\
  trafficData (state w') = traffic /\
  productData (state w') = products /\
  kpiData (state w') = kpis /\
  lastUpdated (state w') = t_state /\
  updateCount (state w') = updateCount (state w) + 1 /\
  isLoading (state w') = false /\
  error (state w') = None /\
  localStorage w' = localStorage w /\
  console w' = (console w ++ [(LogWarn, "Failed to persist data:")])%list.
Proof.
  intros Hmounted Hpersist (Hs & Ht & Hp & Hk) Hrefused w'. subst w'.
  destruct g as [gs gt gp gk]. simpl in Hs, Ht, Hp, Hk. subst gs gt gp gk.
  open_world w. subst. js_unfold. rewrite Hpersist. simpl.
  case_if; simpl.
  - conjs; reflexivity.
  - destruct Hrefused as [Hdenied | Hquota]; [discriminate |].
    rewrite Hquota. simpl. conjs; reflexivity.
Qed.

Lemma refresh_storage_refused_witness :
  salesData (state (run (refreshData (H := Reference.platform) default_options
                           Examples.working 7 8) Examples.locked))
  = Examples.sales /\
  error (state (run (refreshData (H := Reference.platform) default_options
                       Examples.working 7 8) Examples.locked))
  = None /\
  console (run (refreshData (H := Reference.platform) default_options
                  Examples.working 7 8) Examples.locked)
  = [(LogWarn, "Failed to persist data:")].
Proof.
  assert (Hgen : generates Examples.working Examples.sales Examples.traffic
                   Examples.products Examples.kpis) by (unfold generates; conjs; reflexivity).
  destruct (refresh_storage_refused (H := Reference.platform) default_options
              Examples.working _ _ _ _ 7 8 Examples.locked
              eq_refl eq_refl Hgen (or_introl eq_refl))
    as (_ & Hsales & _ & _ & _ & _ & _ & _ & Herror & _ & Hlog).
  split; [exact Hsales |]. split; [exact Herror | exact Hlog].
Defined.

(** One refresh of a hook that is no longer live. *)
Lemma generateAllData_dead `{Platform} (options : Options) (g : Generators)
    (t_state t_saved : Z) (w : World) :
  mountedRef w = false ->
  let w' := run (generateAllData options g t_state t_saved) w in
  salesData (state w') = salesData (state w) /\
  trafficData (state w') = trafficData (state w) /\
  productData (state w') = productData (state w) /\
  kpiData (state w') = kpiData (state w) /\
  lastUpdated (state w') = lastUpdated (state w) /\
  updateCount (state w') = updateCount (state w) /\
  isRealTime (state w') = isRealTime (state w) /\
  localStorage w' = localStorage w /\
  timers w' = timers w /\
  intervalRef w' = intervalRef w /\
  mountedRef w' = false.
Proof.
  intros Hdead w'. subst w'. destruct g as [gs gt gp gk].
  open_world w. subst. js_unfold.
  js_cases; simpl; conjs; reflexivity.
Qed.

(** X2. After teardown no manual refresh and no tick, however many and
    whatever the generators do, changes the four sequences, the timestamp,
    the counter, the active flag, the storage or the timers. *)
Theorem refresh_after_teardown `{Platform} (options : Options) (history : list event)
    (w : World) :
  mountedRef w = false ->
  Forall (fun e => refreshing e = true) history ->
  let w' := after options history w in
  salesData (state w') = salesData (state w) /\
  trafficData (state w') = trafficData (state w) /\
  productData (state w') = productData (state w) /\
  kpiData (state w') = kpiData (state w) /\
  lastUpdated (state w') = lastUpdated (state w) /\
  updateCount (state w') = updateCount (state w) /\
  isRealTime (state w') = isRealTime (state w) /\
  localStorage w' = localStorage w /\
  timers w' = timers w.
Proof.
  intros Hdead Hall. revert w Hdead.
  induction Hall as [| e history He _ IH]; intros w Hdead w'; subst w'.
  - simpl. conjs; reflexivity.
  - unfold after. simpl. fold (after options history (run (handle options e) w)).
    assert (Hstep :
      let w1 := run (handle options e) w in
      salesData (state w1) = salesData (state w) /\
      trafficData (state w1) = trafficData (state w) /\
      productData (state w1) = productData (state w) /\
      kpiData (state w1) = kpiData (state w) /\
      lastUpdated (state w1) = lastUpdated (state w) /\
      updateCount (state w1) = updateCount (state w) /\
      isRealTime (state w1) = isRealTime (state w) /\
      localStorage w1 = localStorage w /\
      timers w1 = timers w /\
      intervalRef w1 = intervalRef w /\
      mountedRef w1 = false).
    { destruct e; try discriminate He; simpl.
      - apply generateAllData_dead. exact Hdead.
      - unfold run, intervalCallback, reads, mbind, JS_bind, when. rewrite Hdead. simpl.
        conjs; try reflexivity. exact Hdead. }
    simpl in Hstep.
    destruct Hstep as (H1 & H2 & H3 & H4 & H5 & H6 & H7 & H8 & H9 & _ & Hdead1).
    destruct (IH _ Hdead1) as (I1 & I2 & I3 & I4 & I5 & I6 & I7 & I8 & I9).
    conjs; congruence.
Qed.

Lemma refresh_after_teardown_witness :
  mountedRef (run cleanup Examples.ticking) = false /\
  salesData (state (after (H := Reference.platform) default_options
                      [Refresh Examples.broken 7 8; Tick Examples.working 9 10]
                      (run cleanup Examples.ticking)))
  = Examples.sales /\
  updateCount (state (after (H := Reference.platform) default_options
                        [Refresh Examples.broken 7 8; Tick Examples.working 9 10]
                        (run cleanup Examples.ticking)))
  = 1.
Proof.
  destruct (refresh_after_teardown (H := Reference.platform) default_options
              [Refresh Examples.broken 7 8; Tick Examples.working 9 10]
              (run cleanup Examples.ticking) eq_refl
              ltac:(repeat constructor))
    as (Hsales & _ & _ & _ & _ & Hcount & _).
  split; [reflexivity |]. split; [exact Hsales | exact Hcount].
Defined.

(** ** One timer at most *)

Lemma same_timers_single (options : Options) (w w' : World) :
  same_timers w w' -> single options w -> single options w'.
Proof.
  intros (Htimers & Href & _) [Hnone | (h & Hone & Hheld)]; unfold single.
  - left. congruence.
  - right. exists h. split; congruence.
Qed.

Lemma single_cancelled (options : Options) (w : World) :
  single options w -> cancelled (intervalRef w) (timers w) = [].
Proof.
  intros [Hnone | (h & Hone & Hheld)].
  - rewrite Hnone. destruct (intervalRef w); reflexivity.
  - rewrite Hone, Hheld. simpl. rewrite Pos.eqb_refl. reflexivity.
Qed.

Lemma startRealTime_single (options : Options) (w : World) :
  single options w -> single options (run (startRealTime options) w).
Proof.
  intros Hsingle.
  destruct (startRealTime_spec options w) as (_ & _ & Href & Htimers & _).
  rewrite (single_cancelled options w Hsingle) in Htimers.
  right. exists (nextHandle w). split; assumption.
Qed.

Lemma stopRealTime_single (options : Options) (w : World) :
  single options w -> timers (run stopRealTime w) = [].
Proof.
  intros Hsingle.
  destruct (stopRealTime_spec w) as (_ & _ & _ & Htimers & _).
  rewrite Htimers. apply (single_cancelled options). exact Hsingle.
Qed.

Lemma cleanup_single (options : Options) (w : World) :
  single options w -> timers (run cleanup w) = [].
Proof.
  intros Hsingle.
  destruct (cleanup_spec w) as (_ & _ & _ & Htimers & _).
  rewrite Htimers. apply (single_cancelled options). exact Hsingle.
Qed.

Lemma timer_step_single (options : Options) (w w' : World) :
  timer_step options w w' -> single options w -> single options w'.
Proof.
  intros [Hsame | w1 Hsame -> | -> | ->] Hsingle.
  - exact (same_timers_single options w w' Hsame Hsingle).
  - apply startRealTime_single. exact (same_timers_single options w w1 Hsame Hsingle).
  - left. apply (stopRealTime_single options). exact Hsingle.
  - left. apply (cleanup_single options). exact Hsingle.
Qed.

Lemma after_single `{Platform} (options : Options) (history : list event) (w : World) :
  single options w -> single options (after options history w).
Proof.
  revert w. induction history as [| e history IH]; intros w Hsingle; [exact Hsingle |].
  apply IH. exact (timer_step_single options _ _ (handle_step options e w) Hsingle).
Qed.

Lemma reachable_single `{Platform} (options : Options) (history : list event)
    (now : Z) (store : Storage) (next : positive) (log : list (level * string)) :
  single options (after options history (initial options now store next log)).
Proof. apply after_single. left. reflexivity. Qed.

(** No timer, no tick: a window of delays leaves the hook as it is. *)
Lemma window_idle `{Platform} (options : Options) (ticks : list (Generators * Z * Z))
    (w : World) :
  timers w = [] -> window options ticks w = w.
Proof.
  intros Hnone. unfold window.
  induction ticks as [| [[g t_state] t_saved] ticks IH]; [reflexivity |].
  simpl. unfold period at 2. rewrite Hnone. simpl. exact IH.
Qed.

(** X3. In every state the hook can reach from its creation, by any history
    of events, at most one interval timer is running; it is the one
    [intervalRef] holds and its delay is [updateInterval].  So while one
    delay passes the callback runs once at most. *)
Theorem single_timer_invariant `{Platform} (options : Options) (history : list event)
    (now : Z) (store : Storage) (next : positive) (log : list (level * string)) :
  let w := after options history (initial options now store next log) in
  (length (timers w) <= 1)%nat /\
  (forall h delay, In (h, delay) (timers w) ->
     intervalRef w = Some h /\ delay = updateInterval options) /\
  (forall g t_state t_saved,
     period options g t_state t_saved w = w
     \/ period options g t_state t_saved w
        = run (intervalCallback options g t_state t_saved) w).
Proof.
  intros w.
  destruct (reachable_single options history now store next log)
    as [Hnone | (h & Hone & Hheld)]; fold w in Hnone || fold w in Hone, Hheld.
  - rewrite Hnone. conjs.
    + simpl. lia.
    + intros h delay [].
    + intros g t_state t_saved. left. unfold period. rewrite Hnone. reflexivity.
  - rewrite Hone. conjs.
    + simpl. lia.
    + intros h' delay [Heq | []]. inversion Heq. subst. split; [exact Hheld | reflexivity].
    + intros g t_state t_saved. right. eapply period_single. exact Hone.
Qed.

(** X4. In every state the hook can reach, [stopRealTime] leaves no timer
    running and the ref null, and no delay that passes afterwards changes
    anything; in a live hook the active flag is off after it. *)
Theorem stop_halts_ticks `{Platform} (options : Options) (history : list event)
    (now : Z) (store : Storage) (next : positive) (log : list (level * string))
    (ticks : list (Generators * Z * Z)) :
  let w := after options history (initial options now store next log) in
  let w' := run stopRealTime w in
  timers w' = [] /\
  intervalRef w' = None /\
  (mountedRef w = true -> isRealTime (state w') = false) /\
  window options ticks w' = w'.
Proof.
  intros w w'.
  assert (Hnone : timers w' = []).
  { apply (stopRealTime_single options), reachable_single. }
  destruct (stopRealTime_spec w) as (_ & Hflag & Href & _).
  conjs; try assumption; [intros _; exact Hflag |]. apply window_idle. exact Hnone.
Qed.

(** X5. In every state the hook can reach, the cleanup of the mount effect
    leaves no timer running: none leaks.  It marks the hook dead, leaves the
    state and the storage alone, and no delay that passes afterwards changes
    anything. *)
Theorem unmount_releases_timer `{Platform} (options : Options) (history : list event)
    (now : Z) (store : Storage) (next : positive) (log : list (level * string))
    (ticks : list (Generators * Z * Z)) :
  let w := after options history (initial options now store next log) in
  let w' := run cleanup w in
  timers w' = [] /\
  mountedRef w' = false /\
  state w' = state w /\
  localStorage w' = localStorage w /\
  window options ticks w' = w'.
Proof.
  intros w w'.
  assert (Hnone : timers w' = []).
  { apply (cleanup_single options), reachable_single. }
  destruct (cleanup_spec w) as (_ & Hdead & _ & _ & Hstate & Hstore & _).
  conjs; try assumption. apply window_idle. exact Hnone.
Qed.

(** ** Mounting *)

(** What the mount effect leaves of the timers, whatever the storage holds
    and the generators do. *)
Lemma mountEffect_timers `{Platform} (options : Options) (g : Generators)
    (now t_state t_saved : Z) (store : Storage) (next : positive)
    (log : list (level * string)) :
  let w := run (mountEffect options g now t_state t_saved)
             (initial options now store next log) in
  isRealTime (state w) = autoStart options /\
  mountedRef w = true /\
  timers w = (if autoStart options then [(next, updateInterval options)] else []) /\
  intervalRef w = (if autoStart options then Some next else None) /\
  nextHandle w = (if autoStart options then Pos.succ next else next).
Proof.
  intros w. subst w. unfold mountEffect.
  set (w0 := initial options now store next log).
  set (load := if enablePersistence options then loadPersistedData now else mret false).
  assert (Hload : quiet load).
  { subst load. destruct (enablePersistence options);
      [apply loadPersistedData_quiet | apply quiet_ret]. }
  destruct (Hload w0) as ([dataLoaded Hloaded] & Hsame1).
  match goal with
  | |- context [run (mbind ?f load) w0] =>
      destruct (run_bind load f w0 dataLoaded Hloaded) as [-> _]
  end.
  set (w1 := run load w0) in *.
  assert (Hgenerate : quiet (when (negb dataLoaded)
                               (generateAllData options g t_state t_saved))).
  { apply quiet_when, generateAllData_quiet. }
  destruct (Hgenerate w1) as ([[] Hgenerated] & Hsame2).
  match goal with
  | |- context [run (mbind ?f ?m) w1] =>
      destruct (run_bind m f w1 tt Hgenerated) as [-> _]
  end.
  destruct (same_timers_trans _ _ _ Hsame1 Hsame2)
    as (Htimers & Href & Hnext & Hlive & Hflag).
  set (w2 := run (when (negb dataLoaded) (generateAllData options g t_state t_saved)) w1) in *.
  change (timers w0) with (@nil (positive * Z)) in Htimers.
  change (intervalRef w0) with (@None positive) in Href.
  change (nextHandle w0) with next in Hnext.
  change (mountedRef w0) with true in Hlive.
  change (isRealTime (state w0)) with (autoStart options) in Hflag.
  unfold run at 1 2 3 4 5, reads, mbind, JS_bind, when. rewrite Hflag.
  destruct (autoStart options); simpl.
  - destruct (startRealTime_spec options w2)
      as (_ & Hactive & Hheld & Hrunning & Hfresh & Hmounted & _).
    unfold run in Hactive, Hheld, Hrunning, Hfresh, Hmounted.
    rewrite Hactive, Hheld, Hrunning, Hfresh, Hmounted, Htimers, Href, Hnext, Hlive.
    conjs; reflexivity.
  - conjs; assumption.
Qed.

(** X6. React runs both effects when the hook mounts, and with [autoStart]
    each of them calls [startRealTime]: the second start cancels the timer
    of the first, so that exactly one timer runs afterwards, the one the ref
    holds.  Without [autoStart] none runs.  The second effect leaves the
    state as the first left it. *)
Theorem mounted_single_timer `{Platform} (options : Options) (g : Generators)
    (now t_state t_saved : Z) (store : Storage) (next : positive)
    (log : list (level * string)) :
  let w1 := run (mountEffect options g now t_state t_saved)
              (initial options now store next log) in
  let w := mounted options g now t_state t_saved store next log in
  isRealTime (state w) = autoStart options /\
  timers w1 = (if autoStart options then [(next, updateInterval options)] else []) /\
  timers w = (if autoStart options then [(Pos.succ next, updateInterval options)] else []) /\
  intervalRef w = (if autoStart options then Some (Pos.succ next) else None) /\
  (length (timers w) <= 1)%nat /\
  state w = state w1.
Proof.
  intros w1 w.
  destruct (mountEffect_timers options g now t_state t_saved store next log)
    as (Hflag & _ & Htimers & Href & Hnext).
  fold w1 in Hflag, Htimers, Href, Hnext.
  assert (Hw : w = run (realTimeEffect options) w1) by reflexivity.
  assert (Hstate : state w = state w1) by (rewrite Hw; apply realTimeEffect_state).
  unfold run in Hw. rewrite realTimeEffect_unfold, Hflag in Hw.
  destruct (autoStart options).
  - destruct (startRealTime_spec options w1) as (_ & Hactive & Hheld & Hrunning & _).
    unfold run in Hactive, Hheld, Hrunning. rewrite <- Hw in Hactive, Hheld, Hrunning.
    rewrite Hrunning, Hheld, Htimers, Href, Hnext, Hactive. simpl.
    rewrite Pos.eqb_refl. simpl. conjs; first [reflexivity | simpl; lia | exact Hstate].
  - destruct (stopRealTime_spec w1) as (_ & Hactive & Hheld & Hrunning & _).
    unfold run in Hactive, Hheld, Hrunning. rewrite <- Hw in Hactive, Hheld, Hrunning.
    rewrite Hrunning, Hheld, Htimers, Href, Hactive. simpl.
    conjs; first [reflexivity | simpl; lia | exact Hstate].
Qed.

(** X7. When the hook mounts with persistence off, or when the load finds
    nothing it can use (no slot, text that does not parse, a stale snapshot,
    a storage that denies access), and the generators return, the hook shows
    the generated data: the counter is 1, loading is cleared, there is no
    error, and with [autoStart] one timer runs with the delay of the
    options. *)
Theorem mount_without_snapshot `{Platform} (options : Options) (g : Generators)
    (sales traffic products kpis : jsval) (now t_state t_saved : Z)
    (store : Storage) (next : positive) (log : list (level * string)) :
  let w0 := initial options now store next log in
  enablePersistence options = false
  \/ result (loadPersistedData now) w0 = Normal false ->
  generates g sales traffic products kpis ->
  let w := run (mountEffect options g now t_state t_saved) w0 in
  salesData (state w) = sales /\
  trafficData (state w) = traffic /\
  productData (state w) = products /\
  kpiData (state w) = kpis /\
  lastUpdated (state w) = t_state /\
  updateCount (state w) = 1 /\
  isLoading (state w) = false /\
  error (state w) = None /\
  isRealTime (state w) = autoStart options /\
  timers w = (if autoStart options then [(next, updateInterval options)] else []) /\
  intervalRef w = (if autoStart options then Some next else None).
Proof.
  intros w0 Hnone (Hs & Ht & Hp & Hk) w. subst w.
  destruct g as [gs gt gp gk]. simpl in Hs, Ht, Hp, Hk. subst gs gt gp gk.
  unfold mountEffect.
  set (load := if enablePersistence options then loadPersistedData now else mret false).
  assert (Hload : result load w0 = Normal false /\ state (run load w0) = state w0).
  { subst load. destruct Hnone as [Hoff | Hfalse].
    - rewrite Hoff. split; reflexivity.
    - destruct (enablePersistence options); [| split; reflexivity].
      split; [exact Hfalse |].
      destruct (loadPersistedData_completes now w0) as (found & Hfound & Hstate).
      apply Hstate. congruence. }
  destruct Hload as (Hloaded & Hstate).
  destruct (loadPersistedData_quiet now w0) as (_ & Hsame).
  assert (Hquiet : same_timers w0 (run load w0)).
  { subst load. destruct (enablePersistence options);
      [exact Hsame | apply same_timers_refl]. }
  match goal with
  | |- context [run (mbind ?f load) w0] =>
      destruct (run_bind load f w0 false Hloaded) as [-> _]
  end.
  destruct Hquiet as (Htimers & Href & Hnext & Hlive & _).
  remember (run load w0) as w1 eqn:Hw1. clear Hw1 Hloaded Hsame load.
  subst w0. simpl in *.
  destruct w1 as [st ref live st1 running next1 log1]. simpl in *. subst.
  destruct st1. js_unfold. simpl.
  destruct (enablePersistence options), (autoStart options); simpl;
    js_cases; simpl; conjs; reflexivity.
Qed.

Lemma mount_without_snapshot_witness :
  result (loadPersistedData (H := Reference.platform) Examples.morning) Examples.created
  = Normal false /\
  updateCount (state (run (mountEffect (H := Reference.platform) default_options
                             Examples.working Examples.morning 7 8) Examples.created))
  = 1 /\
  timers (run (mountEffect (H := Reference.platform) default_options
                 Examples.working Examples.morning 7 8) Examples.created)
  = [(1%positive, 5000)].
Proof.
  assert (Hgen : generates Examples.working Examples.sales Examples.traffic
                   Examples.products Examples.kpis) by (unfold generates; conjs; reflexivity).
  destruct (mount_without_snapshot (H := Reference.platform) default_options
              Examples.working _ _ _ _ Examples.morning 7 8 Examples.store 1%positive []
              (or_intror eq_refl) Hgen)
    as (_ & _ & _ & _ & _ & Hcount & _ & _ & _ & Htimers & _).
  split; [reflexivity |]. split; [exact Hcount | exact Htimers].
Defined.

(** X8. When the hook mounts over a snapshot less than an hour old, it shows
    the stored sequences and timestamp and does not call the generators:
    whatever they would do, there is no error, the counter stays 0, nothing
    is written or logged, and [isLoading] stays true, since only a refresh
    clears it. *)
Theorem mount_adopts_snapshot `{Platform} (options : Options) (g : Generators)
    (now t_state t_saved t : Z) (store : Storage) (next : positive)
    (log : list (level * string)) (text : string) (fields : list (string * jsval)) :
  enablePersistence options = true ->
  denied store = false ->
  items store !! storage_key = Some text ->
  text <> "" ->
  JSON_parse text = Some (JObj fields) ->
  Date_new (field "lastUpdated" fields) = Some t ->
  now - t < staleness_window ->
  let w := run (mountEffect options g now t_state t_saved)
             (initial options now store next log) in
  salesData (state w) = js_or (field "sales" fields) (JArr []) /\
  trafficData (state w) = js_or (field "traffic" fields) (JArr []) /\
  productData (state w) = js_or (field "products" fields) (JArr []) /\
  kpiData (state w) = js_or (field "kpis" fields) (JArr []) /\
  lastUpdated (state w) = t /\
  updateCount (state w) = 0 /\
  isLoading (state w) = true /\
  error (state w) = None /\
  localStorage w = store /\
  console w = log /\
  timers w = (if autoStart options then [(next, updateInterval options)] else []).
Proof.
  intros Hpersist Hdenied Hslot Htext Hparse Hdate Hfresh w. subst w.
  destruct store as [slots locked quota]. simpl in *. subst locked.
  js_unfold. rewrite Hpersist. simpl. rewrite Hslot. simpl.
  destruct (String.eqb_spec text ""); [contradiction |]. simpl.
  rewrite Hparse. simpl. rewrite Hdate. simpl.
  unfold staleness_window in Hfresh.
  destruct (Z.ltb_spec (now - t) 3600000); [| lia]. simpl.
  destruct (autoStart options); simpl; conjs; reflexivity.
Qed.

Lemma mount_adopts_snapshot_witness :
  salesData (state (run (mountEffect (H := Reference.platform) default_options
                           Examples.broken (Examples.morning + 60000) 7 8)
                      Examples.reloaded))
  = Examples.sales /\
  isLoading (state (run (mountEffect (H := Reference.platform) default_options
                           Examples.broken (Examples.morning + 60000) 7 8)
                      Examples.reloaded))
  = true /\
  error (state (run (mountEffect (H := Reference.platform) default_options
                       Examples.broken (Examples.morning + 60000) 7 8)
                  Examples.reloaded))
  = None.
Proof.
  pose (saved := snapshot Examples.sales Examples.traffic Examples.products Examples.kpis
                   "2026-11-02T05:40:00.000Z").
  assert (Hne : Reference.stringify saved <> "") by (vm_compute; discriminate).
  destruct (mount_adopts_snapshot (H := Reference.platform) default_options
              Examples.broken (Examples.morning + 60000) 7 8 Examples.morning
              (localStorage Examples.refreshed) 1%positive []
              (Reference.stringify saved)
              [("sales", Examples.sales); ("traffic", Examples.traffic);
               ("products", Examples.products); ("kpis", Examples.kpis);
               ("lastUpdated", JStr "2026-11-02T05:40:00.000Z")]
              eq_refl eq_refl)
    as (Hsales & _ & _ & _ & _ & _ & Hloading & Herror & _).
  - vm_compute. reflexivity.
  - exact Hne.
  - vm_compute. reflexivity.
  - vm_compute. reflexivity.
  - vm_compute. reflexivity.
  - split; [exact Hsales |]. split; [exact Hloading | exact Herror].
Defined.

(** ** Loading *)

(** X9. A recent snapshot that lacks one of the four sequences, or holds a
    falsy value for it, is still adopted: that sequence becomes the empty
    array.  A snapshot with a timestamp and nothing else gives four empty
    sequences. *)
Theorem load_missing_sequence_empty `{Platform} (now t : Z) (w : World)
    (text : string) (fields : list (string * jsval)) :
  denied (localStorage w) = false ->
  items (localStorage w) !! storage_key = Some text ->
  text <> "" ->
  JSON_parse text = Some (JObj fields) ->
  Date_new (field "lastUpdated" fields) = Some t ->
  now - t < staleness_window ->
  mountedRef w = true ->
  let w' := run (loadPersistedData now) w in
  result (loadPersistedData now) w = Normal true /\
  (truthy (field "sales" fields) = false -> salesData (state w') = JArr []) /\
  (truthy (field "traffic" fields) = false -> trafficData (state w') = JArr []) /\
  (truthy (field "products" fields) = false -> productData (state w') = JArr []) /\
  (truthy (field "kpis" fields) = false -> kpiData (state w') = JArr []) /\
  (fields = [("lastUpdated", field "lastUpdated" fields)] ->
   salesData (state w') = JArr [] /\ trafficData (state w') = JArr [] /\
   productData (state w') = JArr [] /\ kpiData (state w') = JArr []).
Proof.
  intros Hdenied Hslot Htext Hparse Hdate Hfresh Hlive w'.
  destruct (loadPersistedData_adopts now t w text fields
              Hdenied Hslot Htext Hparse Hdate Hfresh Hlive)
    as (Hfound & Hs & Ht & Hp & Hk & _).
  fold w' in Hs, Ht, Hp, Hk.
  rewrite Hs, Ht, Hp, Hk. unfold js_or.
  conjs; try exact Hfound; try (intros ->; reflexivity).
  intros ->. simpl. conjs; reflexivity.
Qed.

Lemma load_missing_sequence_witness :
  result (loadPersistedData (H := Reference.platform) (Examples.morning + 60000))
    Scenarios.stamp_only = Normal true /\
  salesData (state (run (loadPersistedData (H := Reference.platform)
                           (Examples.morning + 60000)) Scenarios.stamp_only))
  = JArr [] /\
  kpiData (state (run (loadPersistedData (H := Reference.platform)
                         (Examples.morning + 60000)) Scenarios.stamp_only))
  = JArr [].
Proof.
  assert (Hne : Reference.stringify (JObj [("lastUpdated", JStr "2026-11-02T05:40:00.000Z")])
                <> "") by (vm_compute; discriminate).
  destruct (load_missing_sequence_empty (H := Reference.platform)
              (Examples.morning + 60000) Examples.morning Scenarios.stamp_only
              (Reference.stringify (JObj [("lastUpdated", JStr "2026-11-02T05:40:00.000Z")]))
              [("lastUpdated", JStr "2026-11-02T05:40:00.000Z")]
              eq_refl)
    as (Hfound & Hsales & _ & _ & Hkpis & _).
  - vm_compute. reflexivity.
  - exact Hne.
  - vm_compute. reflexivity.
  - vm_compute. reflexivity.
  - vm_compute. reflexivity.
  - reflexivity.
  - split; [exact Hfound |]. split; [exact (Hsales eq_refl) | exact (Hkpis eq_refl)].
Defined.

(** X10. [loadPersistedData] never throws and never touches the counter, the
    loading and error fields, the active flag, the storage, the timers or
    the refs.  When the storage denies access it answers false, leaves the
    state alone and logs one warning; in a hook that is no longer live it
    answers false and leaves the state alone. *)
Theorem load_frame `{Platform} (now : Z) (w : World) :
  let w' := run (loadPersistedData now) w in
  (exists found, result (loadPersistedData now) w = Normal found) /\
  updateCount (state w') = updateCount (state w) /\
  isLoading (state w') = isLoading (state w) /\
  error (state w') = error (state w) /\
  isRealTime (state w') = isRealTime (state w) /\
  localStorage w' = localStorage w /\
  timers w' = timers w /\
  intervalRef w' = intervalRef w /\
  mountedRef w' = mountedRef w /\
  (denied (localStorage w) = true ->
   result (loadPersistedData now) w = Normal false /\
   state w' = state w /\
   console w' = (console w ++ [(LogWarn, "Failed to load persisted data:")])%list) /\
  (mountedRef w = false ->
   result (loadPersistedData now) w = Normal false /\ state w' = state w).
Proof.
  intros w'. subst w'.
  destruct w as [st ref live store running next log]. destruct st, store, live; simpl.
  all: js_unfold.
  all: repeat (simpl; rewrite ?andb_false_r, ?andb_true_r; simpl;
               match goal with
               | |- context [match ?c with Normal _ => _ | Throw _ => _ end] => destruct c
               | |- context [match ?o with Some _ => _ | None => _ end] => destruct o
               | |- context [if ?b then _ else _] => destruct b
               | |- context [match ?d with JUndefined => _ | _ => _ end] => destruct d
               end).
  all: simpl; rewrite ?andb_false_r, ?andb_true_r; simpl; conjs;
    first [eexists; reflexivity | reflexivity | discriminate
          | intros; split; reflexivity | intros; conjs; reflexivity].
Qed.

(** X11. In a live hook, with persistence on and a storage that allows
    access, a load that follows [clearData] finds nothing: it answers false,
    the four sequences stay empty and the counter stays 0, and nothing is
    logged. *)
Theorem clear_then_load `{Platform} (options : Options) (now : Z) (w : World) :
  mountedRef w = true ->
  enablePersistence options = true ->
  denied (localStorage w) = false ->
  let w1 := run (clearData options) w in
  let w2 := run (loadPersistedData now) w1 in
  result (loadPersistedData now) w1 = Normal false /\
  state w2 = state w1 /\
  salesData (state w2) = JArr [] /\
  trafficData (state w2) = JArr [] /\
  productData (state w2) = JArr [] /\
  kpiData (state w2) = JArr [] /\
  updateCount (state w2) = 0 /\
  console w2 = console w.
Proof.
  intros Hlive Hpersist Hdenied w1 w2. subst w1 w2.
  open_world w. subst. js_unfold. rewrite Hpersist. simpl.
  rewrite lookup_delete_eq. simpl. conjs; reflexivity.
Qed.

Lemma clear_then_load_witness :
  mountedRef Examples.refreshed = true /\
  items (localStorage Examples.refreshed) !! storage_key <> None /\
  result (loadPersistedData (H := Reference.platform) (Examples.morning + 60000))
    (run (clearData default_options) Examples.refreshed)
  = Normal false.
Proof.
  destruct (clear_then_load (H := Reference.platform) default_options
              (Examples.morning + 60000) Examples.refreshed eq_refl eq_refl eq_refl)
    as (Hfound & _).
  split; [reflexivity |]. split; [vm_compute; discriminate | exact Hfound].
Defined.

(** ** Failure and recovery *)

(** A refresh of a live hook whose generators return. *)
Lemma refresh_adopts `{Platform} (options : Options) (g : Generators)
    (sales traffic products kpis : jsval) (t_state t_saved : Z) (w : World) :
  mountedRef w = true ->
  generates g sales traffic products kpis ->
  let w' := run (refreshData options g t_state t_saved) w in
  salesData (state w') = sales /\
  trafficData (state w') = traffic /\
  productData (state w') = products /\
  kpiData (state w') = kpis /\
  updateCount (state w') = updateCount (state w) + 1 /\
  isLoading (state w') = false /\
  error (state w') = None /\
  lastUpdated (state w') = t_state /\
  isRealTime (state w') = isRealTime (state w).
Proof.
  intros Hlive (Hs & Ht & Hp & Hk) w'. subst w'.
  destruct g as [gs gt gp gk]. simpl in Hs, Ht, Hp, Hk. subst gs gt gp gk.
  open_world w. subst. js_unfold. simpl.
  js_cases; simpl; conjs; reflexivity.
Qed.

(** A refresh of a live hook during which a generator raises. *)
Lemma refresh_failure_state `{Platform} (options : Options) (g : Generators)
    (t_state t_saved : Z) (w : World) :
  mountedRef w = true ->
  generation_fails g = true ->
  let w' := run (refreshData options g t_state t_saved) w in
  error (state w') = Some "Failed to generate dashboard data" /\
  isLoading (state w') = false /\
  console w' = (console w ++ [(LogError, "Error generating dashboard data:")])%list /\
  updateCount (state w') = updateCount (state w) /\
  mountedRef w' = true.
Proof.
  intros Hlive Hfails w'. subst w'.
  destruct g as [gs gt gp gk]. unfold generation_fails in Hfails. simpl in Hfails.
  open_world w. subst. js_unfold. simpl.
  destruct gs, gt, gp, gk; simpl in Hfails; try discriminate; simpl;
    conjs; reflexivity.
Qed.

(** X13. A refresh of a live hook during which a generator raises sets the
    error, clears loading and logs one error line; the next refresh whose
    generators return clears the error again, replaces the four sequences
    and counts as one update. *)
Theorem error_self_clears `{Platform} (options : Options)
    (failing g : Generators) (sales traffic products kpis : jsval)
    (t1 t1' t2 t2' : Z) (w : World) :
  mountedRef w = true ->
  generation_fails failing = true ->
  generates g sales traffic products kpis ->
  let w1 := run (refreshData options failing t1 t1') w in
  let w2 := run (refreshData options g t2 t2') w1 in
  error (state w1) = Some "Failed to generate dashboard data" /\
  isLoading (state w1) = false /\
  console w1 = (console w ++ [(LogError, "Error generating dashboard data:")])%list /\
  error (state w2) = None /\
  isLoading (state w2) = false /\
  salesData (state w2) = sales /\
  trafficData (state w2) = traffic /\
  productData (state w2) = products /\
  kpiData (state w2) = kpis /\
  updateCount (state w2) = updateCount (state w) + 1.
Proof.
  intros Hlive Hfails Hgen w1 w2.
  destruct (refresh_failure_state options failing t1 t1' w Hlive Hfails)
    as (Herror & Hloading & Hlog & Hcount & Hlive1).
  fold w1 in Herror, Hloading, Hlog, Hcount, Hlive1.
  destruct (refresh_adopts options g sales traffic products kpis t2 t2' w1 Hlive1 Hgen)
    as (Hs & Ht & Hp & Hk & Hcount2 & Hloading2 & Herror2 & _).
  fold w2 in Hs, Ht, Hp, Hk, Hcount2, Hloading2, Herror2.
  conjs; try assumption. rewrite Hcount2, Hcount. reflexivity.
Qed.

Lemma error_self_clears_witness :
  error (state (run (refreshData (H := Reference.platform) default_options
                       Examples.broken 7 8) Examples.created))
  = Some "Failed to generate dashboard data" /\
  error (state (run (refreshData (H := Reference.platform) default_options
                       Examples.working 9 10)
                  (run (refreshData (H := Reference.platform) default_options
                          Examples.broken 7 8) Examples.created)))
  = None.
Proof.
  assert (Hgen : generates Examples.working Examples.sales Examples.traffic
                   Examples.products Examples.kpis) by (unfold generates; conjs; reflexivity).
  destruct (error_self_clears (H := Reference.platform) default_options
              Examples.broken Examples.working _ _ _ _ 7 8 9 10 Examples.created
              eq_refl eq_refl Hgen)
    as (Hset & _ & _ & Hcleared & _).
  split; [exact Hset | exact Hcleared].
Defined.

(** ** Lines of the delimited text *)

Lemma occurrences_append (c : ascii) (a b : string) :
  occurrences c (a +:+ b) = (occurrences c a + occurrences c b)%nat.
Proof.
  induction a as [| x a IH]; [reflexivity |].
  rewrite ReferenceFacts.append_cons. simpl. rewrite IH. lia.
Qed.

Lemma occurrences_concat (c : ascii) (sep : string) (texts : list string) :
  occurrences c (String.concat sep texts)
  = (list_sum (map (occurrences c) texts) + (length texts - 1) * occurrences c sep)%nat.
Proof.
  induction texts as [| t texts IH]; [reflexivity |].
  destruct texts as [| t' texts].
  - simpl. lia.
  - change (String.concat sep (t :: t' :: texts))
      with (t +:+ sep +:+ String.concat sep (t' :: texts)).
    rewrite !occurrences_append, IH. simpl. lia.
Qed.

Lemma occurrences_double_each (s : string) :
  occurrences newline s = 0%nat -> occurrences newline (double_each dquote s) = 0%nat.
Proof.
  induction s as [| a s IH]; [reflexivity |].
  simpl. destruct (Ascii.eqb_spec a newline) as [-> | Hother]; [discriminate |].
  intros Hrest. simpl in Hrest.
  destruct (Ascii.eqb_spec a dquote) as [-> | Hplain]; simpl.
  - apply IH. exact Hrest.
  - destruct (Ascii.eqb_spec a newline); [contradiction |]. simpl. apply IH. exact Hrest.
Qed.

Lemma occurrences_pretty_N_go (x : N) (s : string) :
  occurrences newline (pretty_N_go x s) = occurrences newline s.
Proof.
  revert s. induction (N.lt_wf_0 x) as [x _ IH]. intros s.
  destruct (N.eq_dec x 0%N) as [-> | Hpos]; [reflexivity |].
  rewrite pretty_N_go_step by lia.
  rewrite IH by (apply N.div_lt; lia).
  assert (Hd : (x `mod` 10 < 10)%N) by (apply N.mod_lt; lia).
  pose proof (ReferenceFacts.pretty_N_char_cases _ Hd) as Hcases.
  simpl. repeat destruct Hcases as [-> | Hcases]; try rewrite Hcases; reflexivity.
Qed.

Lemma occurrences_pretty (n : Z) : occurrences newline (pretty n) = 0%nat.
Proof.
  destruct n as [| p | p]; [reflexivity | |].
  - change (pretty (Z.pos p)) with (pretty_N_go (N.pos p) ""). apply occurrences_pretty_N_go.
  - change (pretty (Z.neg p)) with ("-" +:+ pretty_N_go (N.pos p) "").
    rewrite occurrences_append, occurrences_pretty_N_go. reflexivity.
Qed.

Lemma field_one_line (name : string) (r : record) :
  one_line r ->
  match field name r with
  | JUndefined | JNum _ => True
  | JStr s => occurrences newline s = 0%nat
  | _ => False
  end.
Proof.
  induction 1 as [| [k v] r [_ Hv] _ IH]; simpl; [trivial |].
  destruct (String.eqb name k); [| exact IH].
  simpl in Hv. destruct v; try contradiction; exact Hv.
Qed.

Lemma csv_cell_one_line (row : record) (header : string) :
  one_line row -> occurrences newline (join_element (csv_cell row header)) = 0%nat.
Proof.
  intros Hrow. pose proof (field_one_line header row Hrow) as Hfield.
  unfold csv_cell. destruct (field header row) as [| | | n | s | |]; try contradiction.
  - reflexivity.
  - apply occurrences_pretty.
  - destruct (includes comma s || includes dquote s); simpl; [| exact Hfield].
    rewrite occurrences_append, occurrences_double_each by exact Hfield. reflexivity.
Qed.

Lemma csv_line_one_line (headers : list string) (row : record) :
  one_line row -> occurrences newline (join "," (map (csv_cell row) headers)) = 0%nat.
Proof.
  intros Hrow. unfold join. rewrite occurrences_concat.
  replace (occurrences newline ",") with 0%nat by reflexivity.
  rewrite Nat.mul_0_r, Nat.add_0_r.
  induction headers as [| h headers IH]; [reflexivity |].
  simpl. rewrite csv_cell_one_line by exact Hrow. exact IH.
Qed.

Lemma header_one_line (first : record) :
  one_line first -> occurrences newline (join "," (map JStr (Object_keys first))) = 0%nat.
Proof.
  intros Hfirst. unfold join. rewrite occurrences_concat.
  replace (occurrences newline ",") with 0%nat by reflexivity.
  rewrite Nat.mul_0_r, Nat.add_0_r. unfold Object_keys.
  induction Hfirst as [| [k v] r [Hk _] _ IH]; [reflexivity |].
  simpl in *. rewrite Hk. exact IH.
Qed.

Lemma csv_rows_one_line (headers : list string) (rows : list record) :
  Forall one_line rows ->
  list_sum
    (map (occurrences newline)
       (map join_element
          (map (fun row => JStr (join "," (map (csv_cell row) headers))) rows)))
  = 0%nat.
Proof.
  induction 1 as [| row rows Hrow _ IH]; [reflexivity |].
  cbn [map list_sum join_element to_string].
  rewrite csv_line_one_line by exact Hrow. exact IH.
Qed.

(** X14. For a non-empty array of records of numbers and texts in which no
    field name and no text holds a line break, the text [exportToCSV] writes
    has exactly as many line breaks as there are records: the header line
    and one line for each record. *)
Theorem csv_one_line_per_record (data : list record) (name : string) :
  data <> [] ->
  Forall one_line data ->
  exists file,
    exportToCSV data name = Some file /\
    occurrences newline (content file) = length data.
Proof.
  intros Hrows Hall.
  destruct data as [| first rest]; [contradiction |].
  eexists. split; [reflexivity |].
  simpl content. unfold csvContent.
  set (headers := Object_keys (nth 0 (first :: rest) [])).
  unfold join at 1. rewrite occurrences_concat.
  assert (Hzero : list_sum
            (map (occurrences newline)
               (map join_element
                  (JStr (join "," (map JStr headers))
                   :: map (fun row => JStr (join "," (map (csv_cell row) headers)))
                        (first :: rest)))) = 0%nat).
  { cbn [map list_sum join_element to_string].
    subst headers. cbn [nth].
    rewrite header_one_line by (inversion Hall; assumption).
    cbn [Nat.add]. exact (csv_rows_one_line (Object_keys first) (first :: rest) Hall). }
  rewrite Hzero. simpl. rewrite !length_map. lia.
Qed.

Lemma csv_one_line_witness :
  exists file,
    exportToCSV Examples.two_records "dashboard-data" = Some file /\
    occurrences newline (content file) = 2%nat.
Proof.
  assert (Hrows : Examples.two_records <> []) by discriminate.
  assert (Hall : Forall one_line Examples.two_records).
  { repeat constructor. }
  destruct (csv_one_line_per_record Examples.two_records "dashboard-data" Hrows Hall)
    as (file & Hfile & Hlines).
  exists file. split; [exact Hfile | exact Hlines].
Defined.

(** ** The other exports *)

Lemma as_records_rows (rows : list record) : as_records (JArr (map JObj rows)) = Some rows.
Proof.
  unfold as_records. induction rows as [| r rows IH]; [reflexivity |].
  simpl. simpl in IH. rewrite IH. reflexivity.
Qed.

(** What [exportToCSV] shows for an array of records. *)
Lemma exportToCSV_logged_rows (rows : list record) (name : string) :
  exportToCSV_logged (JArr (map JObj rows)) name
  = Some match rows with
         | [] => [Reported "No data provided for CSV export"]
         | _ :: _ => [Downloaded {| content := csvContent rows;
                                    filename := name +:+ ".csv";
                                    mimeType := "text/csv" |}]
         end.
Proof.
  unfold exportToCSV_logged. simpl truthy. simpl negb. cbv iota.
  rewrite as_records_rows. destruct rows; reflexivity.
Qed.

(** [clearData] leaves four arrays without a row. *)
Lemma clear_leaves_no_rows (options : Options) (w : World) :
  let w' := run (clearData options) w in
  salesData (state w') = JArr (map JObj []) /\
  trafficData (state w') = JArr (map JObj []) /\
  productData (state w') = JArr (map JObj []) /\
  kpiData (state w') = JArr (map JObj []) /\
  lastUpdated (state w') = lastUpdated (state w) /\
  isRealTime (state w') = isRealTime (state w).
Proof.
  open_world w. js_unfold. simpl.
  destruct (enablePersistence options); simpl; [case_if; simpl |]; conjs; reflexivity.
Qed.

Section ExportFacts.
Context `{Platform}.
Variable JSON_stringify_indented : jsval -> string.

(** The handler of the CSV button passes the four sequences on. *)
Lemma handleExportCSV_rows (s : HookState) (t_name t_date : Z)
    (sales traffic products kpis : list record) :
  salesData s = JArr (map JObj sales) ->
  trafficData s = JArr (map JObj traffic) ->
  productData s = JArr (map JObj products) ->
  kpiData s = JArr (map JObj kpis) ->
  handleExportCSV JSON_stringify_indented s t_name t_date
  = exportDashboardData JSON_stringify_indented
      [("salesData", JArr (map JObj sales)); ("trafficData", JArr (map JObj traffic));
       ("productData", JArr (map JObj products)); ("kpis", JArr (map JObj kpis))]
      "csv" t_name t_date.
Proof.
  intros Hs Ht Hp Hk.
  unfold handleExportCSV, exportDashboardData. simpl String.eqb. cbv iota.
  unfold dashboard_object, getDashboardData. simpl field.
  rewrite Hs, Ht, Hp, Hk. reflexivity.
Qed.

Lemma exportDashboardData_csv_events (d : record) (t_name t_date : Z)
    (sales traffic products kpis : list record) :
  field "salesData" d = JArr (map JObj sales) ->
  field "trafficData" d = JArr (map JObj traffic) ->
  field "productData" d = JArr (map JObj products) ->
  field "kpis" d = JArr (map JObj kpis) ->
  let name := "dashboard-export-" +:+ split_first "T" (Date_toISOString t_name) in
  exists s_events t_events p_events k_events,
    exportToCSV_logged (JArr (map JObj sales)) (name +:+ "-sales") = Some s_events /\
    exportToCSV_logged (JArr (map JObj traffic)) (name +:+ "-traffic") = Some t_events /\
    exportToCSV_logged (JArr (map JObj products)) (name +:+ "-products") = Some p_events /\
    exportToCSV_logged (JArr (map JObj kpis)) (name +:+ "-kpis") = Some k_events /\
    exportDashboardData JSON_stringify_indented d "csv" t_name t_date
    = Some (s_events ++ t_events ++ p_events ++ k_events)%list.
Proof.
  intros Hs Ht Hp Hk name.
  unfold exportDashboardData. fold name. simpl String.eqb. cbv iota.
  unfold export_dataset. rewrite Hs, Ht, Hp, Hk. simpl truthy. cbv iota.
  rewrite !exportToCSV_logged_rows. simpl.
  eexists _, _, _, _. conjs; reflexivity.
Qed.

(** X15. [exportDashboardData] with the format csv, on an object whose four
    datasets are arrays of records, triggers one download for each dataset
    that is not empty, in the order sales, traffic, products, kpis, named
    after the date and the dataset, and logs one error for each empty one:
    downloads and errors are four together. *)
Theorem exportDashboardData_csv_files (d : record) (t_name t_date : Z)
    (sales traffic products kpis : list record) :
  field "salesData" d = JArr (map JObj sales) ->
  field "trafficData" d = JArr (map JObj traffic) ->
  field "productData" d = JArr (map JObj products) ->
  field "kpis" d = JArr (map JObj kpis) ->
  let name := "dashboard-export-" +:+ split_first "T" (Date_toISOString t_name) in
  exists events,
    exportDashboardData JSON_stringify_indented d "csv" t_name t_date = Some events /\
    downloads events
    = omap (fun '(rows, suffix) => exportToCSV rows (name +:+ suffix))
        [(sales, "-sales"); (traffic, "-traffic"); (products, "-products"); (kpis, "-kpis")] /\
    reports events
    = map (fun _ => "No data provided for CSV export")
        (List.filter (fun rows => (length rows =? 0)%nat) [sales; traffic; products; kpis]) /\
    (length (downloads events) + length (reports events) = 4)%nat.
Proof.
  intros Hs Ht Hp Hk name.
  destruct (exportDashboardData_csv_events d t_name t_date sales traffic products kpis
              Hs Ht Hp Hk)
    as (s_events & t_events & p_events & k_events & Es & Et & Ep & Ek & ->).
  fold name in Es, Et, Ep, Ek.
  rewrite exportToCSV_logged_rows in Es, Et, Ep, Ek.
  injection Es as <-. injection Et as <-. injection Ep as <-. injection Ek as <-.
  eexists. split; [reflexivity |].
  destruct sales, traffic, products, kpis; simpl; conjs; reflexivity.
Qed.

(** X16. Any format other than the exact text csv gives JSON: one file with
    the extension json and the type application/json, from
    [exportDashboardData] whatever the object holds, and from
    [exportChartData] with the chart name, the export date, the number of
    points and the data. *)
Theorem export_format_dispatch (d : record) (chartData : list record)
    (chartName format : string) (t_name t_date : Z) :
  format <> "csv" ->
  let date := split_first "T" (Date_toISOString t_name) in
  (exists text,
     exportDashboardData JSON_stringify_indented d format t_name t_date
     = Some [Downloaded {| content := text;
                           filename := "dashboard-export-" +:+ date +:+ ".json";
                           mimeType := "application/json" |}]) /\
  exportChartData JSON_stringify_indented chartData chartName format t_name t_date
  = [Downloaded
       {| content :=
            JSON_stringify_indented
              (JObj [("chartType", JStr chartName);
                     ("exportDate", JStr (Date_toISOString t_date));
                     ("dataPoints", JNum (Z.of_nat (length chartData)));
                     ("data", JArr (map JObj chartData))]);
          filename := chartName +:+ "-" +:+ date +:+ ".json";
          mimeType := "application/json" |}].
Proof.
  intros Hformat date.
  unfold exportDashboardData, exportChartData. fold date.
  destruct (String.eqb_spec format "csv") as [Heq | _]; [contradiction |].
  split.
  - eexists. unfold exportToJSON, downloadFile.
    rewrite ReferenceFacts.append_assoc. reflexivity.
  - unfold exportToJSON, downloadFile, formatChartDataForExport.
    rewrite !ReferenceFacts.append_assoc. reflexivity.
Qed.

(** X18. The JSON button gives one file whose object starts with the export
    date and a summary, followed by the keys of [getDashboardData] in their
    order; when the four sequences are arrays, the summary counts are their
    lengths. *)
Theorem handleExportJSON_summary (s : HookState) (t_name t_date : Z)
    (sales traffic products kpis : list jsval) :
  salesData s = JArr sales ->
  trafficData s = JArr traffic ->
  productData s = JArr products ->
  kpiData s = JArr kpis ->
  exists exportData,
    handleExportJSON JSON_stringify_indented s t_name t_date
    = Some [Downloaded
              {| content := JSON_stringify_indented (JObj exportData);
                 filename := "dashboard-export-"
                             +:+ split_first "T" (Date_toISOString t_name) +:+ ".json";
                 mimeType := "application/json" |}] /\
    map fst exportData
    = ["exportDate"; "summary"; "salesData"; "trafficData"; "productData"; "kpis";
       "metadata"] /\
    field "exportDate" exportData = JStr (Date_toISOString t_date) /\
    field "summary" exportData
    = JObj [("totalKPIs", JNum (Z.of_nat (length kpis)));
            ("dataPoints",
             JObj [("sales", JNum (Z.of_nat (length sales)));
                   ("traffic", JNum (Z.of_nat (length traffic)));
                   ("products", JNum (Z.of_nat (length products)))])] /\
    field "salesData" exportData = JArr sales /\
    field "trafficData" exportData = JArr traffic /\
    field "productData" exportData = JArr products /\
    field "kpis" exportData = JArr kpis.
Proof.
  intros Hs Ht Hp Hk.
  unfold handleExportJSON, exportDashboardData. simpl String.eqb. cbv iota.
  unfold dashboard_object, getDashboardData, exportToJSON, downloadFile. simpl.
  rewrite Hs, Ht, Hp, Hk. simpl.
  eexists. split; [rewrite ReferenceFacts.append_assoc; reflexivity |].
  conjs; reflexivity.
Qed.

End ExportFacts.

Lemma exportDashboardData_csv_witness :
  exists events,
    exportDashboardData (H := Reference.platform) Reference.stringify
      [("salesData", JArr (map JObj Examples.two_records)); ("trafficData", JArr []);
       ("productData", JArr []); ("kpis", JArr [])]
      "csv" Examples.morning Examples.morning = Some events /\
    map filename (downloads events) = ["dashboard-export-2026-11-02-sales.csv"] /\
    length (reports events) = 3%nat.
Proof.
  destruct (exportDashboardData_csv_files (H := Reference.platform) Reference.stringify
              [("salesData", JArr (map JObj Examples.two_records)); ("trafficData", JArr []);
               ("productData", JArr []); ("kpis", JArr [])]
              Examples.morning Examples.morning Examples.two_records [] [] []
              eq_refl eq_refl eq_refl eq_refl)
    as (events & Hrun & Hfiles & Hreports & _).
  exists events. split; [exact Hrun |].
  rewrite Hfiles, Hreports. split; vm_compute; reflexivity.
Defined.

Lemma export_format_dispatch_witness :
  map filename
    (downloads
       (exportChartData (H := Reference.platform) Reference.stringify
          Examples.two_records "sales" "CSV" Examples.morning Examples.morning))
  = ["sales-2026-11-02.json"].
Proof.
  assert (Hformat : "CSV" <> "csv") by discriminate.
  destruct (export_format_dispatch (H := Reference.platform) Reference.stringify
              [] Examples.two_records "sales" "CSV" Examples.morning Examples.morning Hformat)
    as (_ & Hchart).
  rewrite Hchart. vm_compute. reflexivity.
Defined.

Lemma handleExportJSON_summary_witness :
  exists exportData,
    (fun events => map content (downloads events))
      <$> handleExportJSON (H := Reference.platform) Reference.stringify
            (state Examples.refreshed) Examples.morning Examples.morning
    = Some [Reference.stringify (JObj exportData)] /\
    field "summary" exportData
    = JObj [("totalKPIs", JNum 1);
            ("dataPoints",
             JObj [("sales", JNum 2); ("traffic", JNum 1); ("products", JNum 1)])].
Proof.
  destruct (handleExportJSON_summary (H := Reference.platform) Reference.stringify
              (state Examples.refreshed) Examples.morning Examples.morning
              _ _ _ _ eq_refl eq_refl eq_refl eq_refl)
    as (exportData & Hrun & _ & _ & Hsummary & _).
  exists exportData. rewrite Hrun. split; [reflexivity | exact Hsummary].
Defined.

(** ** The date in the file names *)

Lemma digit_not_T (n : Z) : Ascii.eqb (Reference.digit n) "T" = false.
Proof.
  destruct (ReferenceFacts.digit_spec n) as (Hdigit & _).
  destruct (Ascii.eqb_spec (Reference.digit n) "T") as [Heq | _]; [| reflexivity].
  rewrite Heq in Hdigit. discriminate.
Qed.

Lemma split_first_digit (n : Z) (s : string) :
  split_first "T" (String (Reference.digit n) s)
  = String (Reference.digit n) (split_first "T" s).
Proof. cbn [split_first]. rewrite digit_not_T. reflexivity. Qed.

Lemma split_first_date (y m d : Z) (rest : string) :
  split_first "T"
    (Reference.pad4 y +:+ "-" +:+ Reference.pad2 m +:+ "-" +:+ Reference.pad2 d
     +:+ "T" +:+ rest)
  = Reference.pad4 y +:+ "-" +:+ Reference.pad2 m +:+ "-" +:+ Reference.pad2 d.
Proof.
  unfold Reference.pad4, Reference.pad3, Reference.pad2.
  repeat first [rewrite ReferenceFacts.append_cons | rewrite ReferenceFacts.append_nil
               | rewrite split_first_digit
               | progress change (split_first "T" (String "-" ?s))
                   with (String "-"%char (split_first "T" s))
               | progress change (split_first "T" (String "T" ?s)) with EmptyString ].
  reflexivity.
Qed.

(** X19. With ISO-8601 timestamps, as the reference platform writes them, the
    file of a chart export is named after the chart and the calendar date of
    the export in UTC, year, month and day, with the extension of the
    format. *)
Theorem export_file_dated_in_utc (JSON_stringify_indented : jsval -> string)
    (chartData : list record) (chartName format : string)
    (t_name t_date y m day : Z) :
  0 <= t_name < 253402300800000 ->
  Reference.civil_from_days (t_name / 86400000) = (y, m, day) ->
  chartData <> [] ->
  let date := Reference.pad4 y +:+ "-" +:+ Reference.pad2 m +:+ "-" +:+ Reference.pad2 day in
  map filename
    (downloads (exportChartData (H := Reference.platform) JSON_stringify_indented
                  chartData chartName format t_name t_date))
  = [chartName +:+ "-" +:+ date +:+ (if String.eqb format "csv" then ".csv" else ".json")].
Proof.
  intros _ Hcivil Hrows date.
  unfold exportChartData. simpl Date_toISOString. unfold Reference.toISOString.
  rewrite Hcivil. cbv beta iota zeta.
  rewrite split_first_date. fold date.
  destruct (String.eqb format "csv").
  - unfold exportToCSV. destruct chartData as [| r rows]; [contradiction |].
    simpl. rewrite !ReferenceFacts.append_assoc. reflexivity.
  - simpl. rewrite !ReferenceFacts.append_assoc. reflexivity.
Qed.

Lemma export_file_dated_witness :
  map filename
    (downloads (exportChartData (H := Reference.platform) Reference.stringify
                  Examples.two_records "traffic" "csv" Examples.morning Examples.morning))
  = ["traffic-2026-11-02.csv"].
Proof.
  assert (Hrows : Examples.two_records <> []) by discriminate.
  assert (Hrange : 0 <= Examples.morning < 253402300800000) by (vm_compute; split; congruence).
  rewrite (export_file_dated_in_utc Reference.stringify Examples.two_records
             "traffic" "csv" Examples.morning Examples.morning 2026 11 2
             Hrange eq_refl Hrows).
  reflexivity.
Defined.

(** ** The data generators *)

Section GeneratorFacts.
Context `{Randomness}.
Variable random : nat -> draw.
Import DataGenerator.

Lemma map_drawing_length {A B} (f : A -> Gen B) (xs : list A) (k : nat) :
  length (fst (map_drawing f xs k)) = length xs.
Proof.
  revert k. induction xs as [| x xs IH]; intros k; [reflexivity |].
  cbn [map_drawing]. unfold mbind, Gen_bind, mret, Gen_ret.
  destruct (f x k) as [y k1]. specialize (IH k1).
  destruct (map_drawing f xs k1) as [ys k2]. simpl in *. congruence.
Qed.

Lemma map_drawing_each {A B} (f : A -> Gen B) (P : A -> B -> Prop) (xs : list A)
    (k : nat) :
  (forall x k, P x (fst (f x k))) ->
  Forall2 P xs (fst (map_drawing f xs k)).
Proof.
  intros Hf. revert k. induction xs as [| x xs IH]; intros k; [constructor |].
  cbn [map_drawing]. unfold mbind, Gen_bind, mret, Gen_ret.
  pose proof (Hf x k) as Hx.
  destruct (f x k) as [y k1]. specialize (IH k1).
  destruct (map_drawing f xs k1) as [ys k2]. simpl in *. constructor; assumption.
Qed.

Lemma element_monthNames (i : Z) :
  0 <= i < 12 -> exists name, element monthNames i = JStr name /\ In name monthNames.
Proof.
  intros Hi. unfold element. destruct (Z.ltb_spec i 0); [lia |].
  assert (Hcases : i = 0 \/ i = 1 \/ i = 2 \/ i = 3 \/ i = 4 \/ i = 5 \/ i = 6
                   \/ i = 7 \/ i = 8 \/ i = 9 \/ i = 10 \/ i = 11) by lia.
  repeat destruct Hcases as [-> | Hcases]; try subst i;
    (eexists; split; [reflexivity | simpl; tauto]).
Qed.

Lemma generateSalesData_rows (months currentMonth : Z) (k : nat) :
  exists rows,
    fst (generateSalesData random months currentMonth k) = JArr (map JObj rows) /\
    length rows = Z.to_nat months /\
    Forall2 (fun i row =>
               map fst row = ["month"; "revenue"; "orders"; "customers"; "conversion"] /\
               field "month" row
               = element monthNames (Z.rem (currentMonth - months + i + 1 + 12) 12) /\
               (exists n, field "revenue" row = JNum n /\ 30000 <= n < 80000) /\
               (exists n, field "orders" row = JNum n /\ 200 <= n < 700) /\
               (exists n, field "customers" row = JNum n /\ 150 <= n < 450) /\
               (exists s, field "conversion" row = JStr s))
      (map Z.of_nat (seq 0 (Z.to_nat months))) rows.
Proof.
  unfold generateSalesData, Array_from.
  set (f := fun i : Z => _).
  pose proof (map_drawing_length f (map Z.of_nat (seq 0 (Z.to_nat months))) k) as Hlen.
  pose proof (map_drawing_each f
                (fun i row =>
                   map fst row = ["month"; "revenue"; "orders"; "customers"; "conversion"] /\
                   field "month" row
                   = element monthNames (Z.rem (currentMonth - months + i + 1 + 12) 12) /\
                   (exists n, field "revenue" row = JNum n /\ 30000 <= n < 80000) /\
                   (exists n, field "orders" row = JNum n /\ 200 <= n < 700) /\
                   (exists n, field "customers" row = JNum n /\ 150 <= n < 450) /\
                   (exists s, field "conversion" row = JStr s))
                (map Z.of_nat (seq 0 (Z.to_nat months))) k) as Heach.
  unfold mbind, Gen_bind, mret, Gen_ret.
  destruct (map_drawing f (map Z.of_nat (seq 0 (Z.to_nat months))) k) as [rows k'].
  simpl in *. exists rows. split; [reflexivity |].
  split; [rewrite Hlen, length_map, length_seq; reflexivity |].
  apply Heach. intros i k0. subst f. simpl.
  split; [reflexivity |]. split; [reflexivity |].
  pose proof (floor_scaled_range (random k0) 50000 eq_refl).
  pose proof (floor_scaled_range (random (S k0)) 500 eq_refl).
  pose proof (floor_scaled_range (random (S (S k0))) 300 eq_refl).
  split; [eexists; split; [reflexivity | lia] |].
  split; [eexists; split; [reflexivity | lia] |].
  split; [eexists; split; [reflexivity | lia] |].
  eexists; reflexivity.
Qed.

Lemma rem_month (d : Z) :
  (0 <= d -> Z.rem d 12 = d mod 12) /\
  (d < 0 -> d mod 12 <> 0 -> Z.rem d 12 < 0).
Proof.
  split.
  - intros Hd. apply Z.rem_mod_nonneg; lia.
  - intros Hd Hr. pose proof (Z.rem_nonpos d 12 ltac:(lia) ltac:(lia)) as Hb.
    assert (Z.rem d 12 <> 0); [| lia].
    intros Hz. apply Hr. apply (Z.rem_mod_eq_0 d 12); [lia | exact Hz].
Qed.

(** X20. [generateSalesData(months)] returns one row for each month asked
    for (none when the number is negative), and the last row is the current
    month.  A row that lies [ago] months back, with [ago] at most the number
    of the current month plus twelve, has the name of the calendar month
    [ago] months before the current one; so up to thirteen months always get
    their names.  Further back the remainder that indexes the names is
    negative and the month is [undefined], except where it is zero. *)
Theorem generateSalesData_months (months currentMonth : Z) (k : nat) :
  0 <= currentMonth <= 11 ->
  exists rows,
    fst (generateSalesData random months currentMonth k) = JArr (map JObj rows) /\
    length rows = Z.to_nat months /\
    (forall i row, rows !! i = Some row ->
       let ago := months - 1 - Z.of_nat i in
       (ago <= currentMonth + 12 ->
        field "month" row = element monthNames ((currentMonth - ago) mod 12) /\
        exists name, field "month" row = JStr name /\ In name monthNames) /\
       (currentMonth + 12 < ago -> (currentMonth - ago) mod 12 <> 0 ->
        field "month" row = JUndefined)) /\
    (months <= 13 ->
     Forall (fun row => exists name, field "month" row = JStr name /\ In name monthNames)
       rows) /\
    (forall row, last rows = Some row -> field "month" row = element monthNames currentMonth).
Proof.
  intros Hc.
  destruct (generateSalesData_rows months currentMonth k) as (rows & Hrows & Hlen & Heach).
  exists rows. split; [exact Hrows |]. split; [exact Hlen |].
  assert (Hat : forall i row, rows !! i = Some row ->
            field "month" row
            = element monthNames
                (Z.rem (currentMonth - (months - 1 - Z.of_nat i) + 12) 12)).
  { intros i row Hrow.
    destruct (Forall2_lookup_r _ _ _ _ _ Heach Hrow) as (x & Hx & _ & Hmonth & _).
    rewrite list_lookup_fmap in Hx.
    destruct (seq 0 (Z.to_nat months) !! i) as [j |] eqn:Hj; [| discriminate].
    apply lookup_seq in Hj as [-> _]. simpl in Hx. injection Hx as <-.
    rewrite Hmonth. do 2 f_equal. lia. }
  assert (Hnear : forall i row, rows !! i = Some row ->
            months - 1 - Z.of_nat i <= currentMonth + 12 ->
            field "month" row
            = element monthNames ((currentMonth - (months - 1 - Z.of_nat i)) mod 12) /\
            exists name, field "month" row = JStr name /\ In name monthNames).
  { intros i row Hrow Hago. rewrite (Hat i row Hrow).
    destruct (rem_month (currentMonth - (months - 1 - Z.of_nat i) + 12)) as (Hrem & _).
    rewrite Hrem by lia.
    replace ((currentMonth - (months - 1 - Z.of_nat i) + 12) mod 12)
      with ((currentMonth - (months - 1 - Z.of_nat i)) mod 12)
      by (rewrite <- (Z.mod_add _ 1 12) by lia; f_equal; lia).
    split; [reflexivity |].
    apply element_monthNames. apply Z.mod_pos_bound. lia. }
  conjs.
  - intros i row Hrow ago. split; [apply Hnear; exact Hrow |].
    intros Hfar Hrest. rewrite (Hat i row Hrow).
    destruct (rem_month (currentMonth - ago + 12)) as (_ & Hneg).
    assert (Hlt : Z.rem (currentMonth - ago + 12) 12 < 0).
    { apply Hneg; [lia |].
      replace ((currentMonth - ago + 12) mod 12) with ((currentMonth - ago) mod 12)
        by (rewrite <- (Z.mod_add (currentMonth - ago) 1 12) by lia; f_equal; lia).
      exact Hrest. }
    unfold element. fold ago. destruct (Z.ltb_spec (Z.rem (currentMonth - ago + 12) 12) 0);
      [reflexivity | lia].
  - intros Hfew. apply Forall_lookup_2. intros i row Hrow.
    apply (Hnear i row Hrow). lia.
  - intros row Hlast. rewrite last_lookup in Hlast.
    destruct (Hnear _ row Hlast) as (Hmonth & _).
    + apply lookup_lt_Some in Hlast. lia.
    + rewrite Hmonth. f_equal.
      apply lookup_lt_Some in Hlast.
      replace (months - 1 - Z.of_nat (Init.Nat.pred (length rows))) with 0 by lia.
      rewrite Z.sub_0_r. apply Z.mod_small. lia.
Qed.

(** X21. [generateTrafficData] returns twenty-four rows labelled 00:00 to
    23:00 in order, whatever is drawn; the visitors lie between 100 and
    1099 and the page views between 500 and 3499.  It draws 72 times. *)
Theorem generateTrafficData_hours (k : nat) :
  exists rows,
    generateTrafficData random k = (JArr (map JObj rows), (k + 72)%nat) /\
    map (field "time") rows
    = [JStr "00:00"; JStr "01:00"; JStr "02:00"; JStr "03:00"; JStr "04:00"; JStr "05:00";
       JStr "06:00"; JStr "07:00"; JStr "08:00"; JStr "09:00"; JStr "10:00"; JStr "11:00";
       JStr "12:00"; JStr "13:00"; JStr "14:00"; JStr "15:00"; JStr "16:00"; JStr "17:00";
       JStr "18:00"; JStr "19:00"; JStr "20:00"; JStr "21:00"; JStr "22:00"; JStr "23:00"] /\
    Forall (fun row =>
              map fst row = ["time"; "visitors"; "pageViews"; "bounceRate"] /\
              (exists n, field "visitors" row = JNum n /\ 100 <= n < 1100) /\
              (exists n, field "pageViews" row = JNum n /\ 500 <= n < 3500) /\
              (exists s, field "bounceRate" row = JStr s)) rows.
Proof.
  eexists. split; [| split].
  - unfold generateTrafficData, Array_from. vm_compute Z.to_nat.
    cbn [seq map map_drawing].
    unfold mbind, Gen_bind, mret, Gen_ret, Math_random. cbn [fst snd].
    replace (k + 72)%nat with (Nat.iter 72 S k) by (simpl; lia). cbn [Nat.iter].
    reflexivity.
  - vm_compute. reflexivity.
  - repeat constructor; try (eexists; split; [reflexivity |]);
      try (eexists; reflexivity);
      match goal with
      | |- _ <= floor_scaled ?r ?n + _ < _ =>
          pose proof (floor_scaled_range r n eq_refl); lia
      end.
Qed.

(** X22. [generateKPIData] returns the four indicators in their order.  The
    trend of each is up exactly when its change starts with a plus sign: the
    first three always trend up, and the conversion rate trends up exactly
    when the draw that decides it is above one half.  It draws 9 times. *)
Theorem generateKPIData_trends (k : nat) :
  exists rows,
    generateKPIData random k = (JArr (map JObj rows), (k + 9)%nat) /\
    map (field "title") rows
    = [JStr "Total Revenue"; JStr "Total Orders"; JStr "Customers"; JStr "Conversion Rate"] /\
    map (field "trend") rows
    = [JStr "up"; JStr "up"; JStr "up";
       JStr (if above_half (random (k + 7)%nat) then "up" else "down")] /\
    Forall (fun row =>
              map fst row
              = ["title"; "icon"; "color"; "bgColor"; "value"; "change"; "trend"] /\
              exists change,
                field "change" row = JStr change /\
                field "trend" row = JStr (if startsWith "+" change then "up" else "down"))
      rows.
Proof.
  replace (k + 7)%nat with (Nat.iter 7 S k) by (simpl; lia).
  replace (k + 9)%nat with (Nat.iter 9 S k) by (simpl; lia).
  cbn [Nat.iter].
  unfold generateKPIData. cbn [kpis imap map_drawing kpi_figures].
  unfold mbind, Gen_bind, mret, Gen_ret, Math_random. cbn [fst snd].
  eexists. split; [reflexivity |].
  split; [reflexivity |].
  split; [cbn; destruct (above_half (random (S (S (S (S (S (S (S k)))))))));
          reflexivity |].
  repeat constructor; eexists; split; reflexivity.
Qed.

End GeneratorFacts.

Lemma generateSalesData_witness :
  exists rows long,
    fst Scenarios.winter = JArr (map JObj rows) /\
    map (field "month") rows = [JStr "Nov"; JStr "Dec"; JStr "Jan"] /\
    fst Scenarios.too_long = JArr (map JObj long) /\
    field "month" <$> head long = Some JUndefined.
Proof.
  destruct (generateSalesData_months (H := ExactDraws.randomness) ExactDraws.stream 3 0 0)
    as (rows & Hrows & _); [lia |].
  destruct (generateSalesData_months (H := ExactDraws.randomness) ExactDraws.stream 14 0 0)
    as (long & Hlong & _); [lia |].
  exists rows, long.
  split; [exact Hrows |].
  split.
  - assert (Hmap : JArr (map JObj rows) = fst Scenarios.winter) by (symmetry; exact Hrows).
    vm_compute in Hmap. destruct rows as [| r1 [| r2 [| r3 [| r4 rows]]]]; try discriminate Hmap.
    injection Hmap as -> -> ->. reflexivity.
  - split; [exact Hlong |].
    assert (Hmap : JArr (map JObj long) = fst Scenarios.too_long) by (symmetry; exact Hlong).
    vm_compute in Hmap. destruct long as [| r1 long]; [discriminate Hmap |].
    injection Hmap as -> _. reflexivity.
Defined.

(** ** The hook with the generators of the repository *)

Section Repository.
Context `{Platform} `{Randomness}.
Variable random : nat -> draw.
Variable JSON_stringify_indented : jsval -> string.

(** What one refresh gets from the four generators. *)
Lemma refresh_generators_rows (currentMonth : Z) (k : nat) :
  exists sales traffic products kpis : list record,
    generates (DataGenerator.refresh_generators random currentMonth k)
      (JArr (map JObj sales)) (JArr (map JObj traffic))
      (JArr (map JObj products)) (JArr (map JObj kpis)) /\
    length sales = 6%nat /\ length traffic = 24%nat /\
    length products = 5%nat /\ length kpis = 4%nat.
Proof.
  unfold DataGenerator.refresh_generators, generates.
  unfold DataGenerator.generateSalesData, DataGenerator.generateTrafficData,
    DataGenerator.generateProductData, DataGenerator.generateKPIData,
    DataGenerator.Array_from.
  vm_compute Z.to_nat.
  cbn [seq map DataGenerator.map_drawing DataGenerator.categories DataGenerator.kpis imap
       DataGenerator.kpi_figures].
  unfold mbind, DataGenerator.Gen_bind, mret, DataGenerator.Gen_ret,
    DataGenerator.Math_random.
  cbn [fst snd generateSalesData generateTrafficData generateProductData generateKPIData].
  eexists _, _, _, _. conjs; reflexivity.
Qed.

(** X23. With the generators of the repository a refresh of a live hook
    cannot fail: whatever is drawn and whatever the month, no error is set,
    loading is cleared, the counter goes up by one, and the hook shows 6
    rows of sales, 24 of traffic, 5 product categories and 4 indicators,
    each an array of records. *)
Theorem refresh_with_repository_generators (options : Options) (currentMonth : Z) (k : nat)
    (t_state t_saved : Z) (w : World) :
  mountedRef w = true ->
  let w' := run (refreshData options
                   (DataGenerator.refresh_generators random currentMonth k)
                   t_state t_saved) w in
  error (state w') = None /\
  isLoading (state w') = false /\
  updateCount (state w') = updateCount (state w) + 1 /\
  exists sales traffic products kpis : list record,
    salesData (state w') = JArr (map JObj sales) /\
    trafficData (state w') = JArr (map JObj traffic) /\
    productData (state w') = JArr (map JObj products) /\
    kpiData (state w') = JArr (map JObj kpis) /\
    length sales = 6%nat /\ length traffic = 24%nat /\
    length products = 5%nat /\ length kpis = 4%nat.
Proof.
  intros Hlive w'.
  destruct (refresh_generators_rows currentMonth k)
    as (sales & traffic & products & kpis & Hgen & Hlen).
  destruct (refresh_adopts options _ _ _ _ _ t_state t_saved w Hlive Hgen)
    as (Hs & Ht & Hp & Hk & Hcount & Hloading & Herror & _).
  fold w' in Hs, Ht, Hp, Hk, Hcount, Hloading, Herror.
  conjs; try assumption.
  exists sales, traffic, products, kpis. conjs; try assumption; apply Hlen.
Qed.

(** X24. After a refresh of a live hook with the generators of the
    repository, the CSV button downloads exactly four files, for sales,
    traffic, products and kpis in this order, named after the date, and logs
    no error. *)
Theorem export_after_refresh (options : Options) (currentMonth : Z) (k : nat)
    (t_state t_saved t_name t_date : Z) (w : World) :
  mountedRef w = true ->
  let w' := run (refreshData options
                   (DataGenerator.refresh_generators random currentMonth k)
                   t_state t_saved) w in
  let name := "dashboard-export-" +:+ split_first "T" (Date_toISOString t_name) in
  exists events,
    handleExportCSV JSON_stringify_indented (state w') t_name t_date = Some events /\
    map filename (downloads events)
    = [name +:+ "-sales.csv"; name +:+ "-traffic.csv";
       name +:+ "-products.csv"; name +:+ "-kpis.csv"] /\
    Forall (fun file => mimeType file = "text/csv") (downloads events) /\
    reports events = [].
Proof.
  intros Hlive w' name.
  destruct (refresh_generators_rows currentMonth k)
    as (sales & traffic & products & kpis & Hgen & Hl1 & Hl2 & Hl3 & Hl4).
  destruct (refresh_adopts options _ _ _ _ _ t_state t_saved w Hlive Hgen)
    as (Hs & Ht & Hp & Hk & _).
  fold w' in Hs, Ht, Hp, Hk.
  rewrite (handleExportCSV_rows JSON_stringify_indented (state w') t_name t_date
             sales traffic products kpis Hs Ht Hp Hk).
  destruct (exportDashboardData_csv_events JSON_stringify_indented
              [("salesData", JArr (map JObj sales)); ("trafficData", JArr (map JObj traffic));
               ("productData", JArr (map JObj products)); ("kpis", JArr (map JObj kpis))]
              t_name t_date sales traffic products kpis eq_refl eq_refl eq_refl eq_refl)
    as (s_events & t_events & p_events & k_events & Es & Et & Ep & Ek & ->).
  fold name in Es, Et, Ep, Ek.
  rewrite exportToCSV_logged_rows in Es, Et, Ep, Ek.
  injection Es as <-. injection Et as <-. injection Ep as <-. injection Ek as <-.
  eexists. split; [reflexivity |].
  destruct sales; [discriminate |]. destruct traffic; [discriminate |].
  destruct products; [discriminate |]. destruct kpis; [discriminate |].
  simpl. rewrite !ReferenceFacts.append_assoc.
  split; [reflexivity |]. split; [repeat constructor | reflexivity].
Qed.

(** X25. After a refresh of a live hook with the generators of the
    repository, [getDataStats] counts 6, 24, 5 and 4 points, 39 in all, and
    gives the time of the refresh; after [clearData] it counts none and
    still gives that time.  The frequency is the delay of the options and
    the activity the active flag, which neither changes. *)
Theorem getDataStats_counts (options : Options) (currentMonth : Z) (k : nat)
    (t_state t_saved : Z) (w : World) :
  mountedRef w = true ->
  let refreshed :=
    run (refreshData options (DataGenerator.refresh_generators random currentMonth k)
           t_state t_saved) w in
  let cleared := run (clearData options) refreshed in
  getDataStats options (state refreshed)
  = Some {| salesDataPoints := 6; trafficDataPoints := 24; productCategories := 5;
            kpiCount := 4; totalDataPoints := 39;
            lastUpdateTime := Date_toISOString t_state;
            updateFrequency := updateInterval options;
            isActive := isRealTime (state w) |} /\
  getDataStats options (state cleared)
  = Some {| salesDataPoints := 0; trafficDataPoints := 0; productCategories := 0;
            kpiCount := 0; totalDataPoints := 0;
            lastUpdateTime := Date_toISOString t_state;
            updateFrequency := updateInterval options;
            isActive := isRealTime (state w) |}.
Proof.
  intros Hlive refreshed cleared.
  destruct (refresh_generators_rows currentMonth k)
    as (sales & traffic & products & kpis & Hgen & Hl1 & Hl2 & Hl3 & Hl4).
  destruct (refresh_adopts options _ _ _ _ _ t_state t_saved w Hlive Hgen)
    as (Hs & Ht & Hp & Hk & _ & _ & _ & Hstamp & Hflag).
  fold refreshed in Hs, Ht, Hp, Hk, Hstamp, Hflag.
  destruct (clear_leaves_no_rows options refreshed) as (Cs & Ct & Cp & Ck & Cstamp & Cflag).
  fold cleared in Cs, Ct, Cp, Ck, Cstamp, Cflag.
  unfold getDataStats.
  rewrite Hs, Ht, Hp, Hk, Hstamp, Hflag, Cs, Ct, Cp, Ck, Cstamp, Cflag, Hstamp, Hflag.
  simpl. rewrite !length_map. unfold record in *. rewrite Hl1, Hl2, Hl3, Hl4. split; reflexivity.
Qed.

End Repository.

Lemma refresh_with_repository_witness :
  error (state (run (refreshData (H := Reference.platform) default_options
                       (DataGenerator.refresh_generators (H := ExactDraws.randomness)
                          ExactDraws.stream 10 0)
                       Examples.morning Examples.morning) Examples.created))
  = None /\
  updateCount (state (run (refreshData (H := Reference.platform) default_options
                             (DataGenerator.refresh_generators (H := ExactDraws.randomness)
                                ExactDraws.stream 10 0)
                             Examples.morning Examples.morning) Examples.created))
  = 1.
Proof.
  destruct (refresh_with_repository_generators (H := Reference.platform)
              (H0 := ExactDraws.randomness) ExactDraws.stream default_options 10 0
              Examples.morning Examples.morning Examples.created eq_refl)
    as (Herror & _ & Hcount & _).
  split; [exact Herror | exact Hcount].
Defined.

Lemma export_after_refresh_witness :
  exists events,
    handleExportCSV (H := Reference.platform) Reference.stringify
      (state (run (refreshData (H := Reference.platform) default_options
                     (DataGenerator.refresh_generators (H := ExactDraws.randomness)
                        ExactDraws.stream 10 0)
                     Examples.morning Examples.morning) Examples.created))
      Examples.morning Examples.morning
    = Some events /\
    map filename (downloads events)
    = ["dashboard-export-2026-11-02-sales.csv"; "dashboard-export-2026-11-02-traffic.csv";
       "dashboard-export-2026-11-02-products.csv"; "dashboard-export-2026-11-02-kpis.csv"].
Proof.
  destruct (export_after_refresh (H := Reference.platform) (H0 := ExactDraws.randomness)
              ExactDraws.stream Reference.stringify default_options 10 0
              Examples.morning Examples.morning Examples.morning Examples.morning
              Examples.created eq_refl)
    as (events & Hrun & Hfiles & _).
  exists events. split; [exact Hrun |]. rewrite Hfiles. vm_compute. reflexivity.
Defined.

Lemma getDataStats_witness :
  totalDataPoints
    <$> getDataStats (H := Reference.platform) default_options
          (state (run (refreshData (H := Reference.platform) default_options
                         (DataGenerator.refresh_generators (H := ExactDraws.randomness)
                            ExactDraws.stream 10 0)
                         Examples.morning Examples.morning) Examples.created))
  = Some 39.
Proof.
  destruct (getDataStats_counts (H := Reference.platform) (H0 := ExactDraws.randomness)
              ExactDraws.stream default_options 10 0 Examples.morning Examples.morning
              Examples.created eq_refl) as (Hstats & _).
  rewrite Hstats. reflexivity.
Defined.

(** ** The active flag and the timer *)

Lemma timer_step_flagged (options : Options) (w w' : World) :
  timer_step options w w' -> single options w -> flagged w -> flagged w'.
Proof.
  intros [Hsame | w1 Hsame -> | -> | ->] Hsingle Hflagged; unfold flagged.
  - destruct Hsame as (Htimers & _ & _ & _ & Hflag). rewrite Htimers, Hflag. exact Hflagged.
  - intros _. apply (startRealTime_spec options w1).
  - rewrite (stopRealTime_single options w Hsingle). contradiction.
  - rewrite (cleanup_single options w Hsingle). contradiction.
Qed.

Lemma after_flagged `{Platform} (options : Options) (history : list event) (w : World) :
  single options w -> flagged w -> flagged (after options history w).
Proof.
  revert w. induction history as [| e history IH]; intros w Hsingle Hflagged;
    [exact Hflagged |].
  apply IH.
  - exact (timer_step_single options _ _ (handle_step options e w) Hsingle).
  - exact (timer_step_flagged options _ _ (handle_step options e w) Hsingle Hflagged).
Qed.

(** X26. Once the hook is mounted (both effects have run), in every state it
    reaches while it is live the active flag tells whether a timer runs: the
    flag is on exactly when one timer runs, with the delay of the options
    and held by the ref, and off exactly when none runs. *)
Theorem live_indicator_truthful `{Platform} (options : Options) (g : Generators)
    (now t_state t_saved : Z) (store : Storage) (next : positive)
    (log : list (level * string)) (history : list event) :
  let w := after options history
             (mounted options g now t_state t_saved store next log) in
  mountedRef w = true ->
  (isRealTime (state w) = true <->
   exists h, timers w = [(h, updateInterval options)] /\ intervalRef w = Some h) /\
  (isRealTime (state w) = false <-> timers w = []).
Proof.
  intros w Hlive.
  set (w0 := initial options now store next log).
  set (first := [Mount g now t_state t_saved; RealTimeEffect]).
  assert (Hw : w = after options (first ++ history) w0).
  { unfold after. rewrite fold_left_app. reflexivity. }
  assert (Hsingle : single options w).
  { rewrite Hw. apply reachable_single. }
  assert (Hflagged : flagged w).
  { rewrite Hw. apply after_flagged; [left; reflexivity | intros Hsome; contradiction]. }
  assert (Hsynced : synced w).
  { apply after_synced, mounted_synced. }
  assert (Hon : isRealTime (state w) = true ->
                exists h, timers w = [(h, updateInterval options)] /\ intervalRef w = Some h).
  { intros Hflag. destruct (Hsynced Hlive Hflag) as (h & Href & Hrunning).
    destruct Hsingle as [Hnone | Hone]; [| exact Hone].
    unfold running in Hrunning. rewrite Hnone in Hrunning. destruct Hrunning. }
  assert (Hoff : timers w <> [] -> isRealTime (state w) = true) by exact Hflagged.
  split; split.
  - exact Hon.
  - intros (h & Hone & _). apply Hoff. rewrite Hone. discriminate.
  - intros Hflag. destruct (timers w) as [| t ts] eqn:Htimers; [reflexivity |].
    rewrite Hoff in Hflag by discriminate. discriminate.
  - intros Hnone. destruct (isRealTime (state w)) eqn:Hflag; [| reflexivity].
    destruct (Hon eq_refl) as (h & Hone & _). rewrite Hone in Hnone. discriminate.
Qed.

Lemma live_indicator_witness :
  mountedRef (after (H := Reference.platform) default_options [Toggle; Refresh Examples.working 7 8]
                (mounted (H := Reference.platform) default_options Examples.working
                   Examples.morning 7 8 Examples.store 1%positive []))
  = true /\
  timers (after (H := Reference.platform) default_options [Toggle; Refresh Examples.working 7 8]
            (mounted (H := Reference.platform) default_options Examples.working
               Examples.morning 7 8 Examples.store 1%positive []))
  = [].
Proof.
  destruct (live_indicator_truthful (H := Reference.platform) default_options
              Examples.working Examples.morning 7 8 Examples.store 1%positive []
              [Toggle; Refresh Examples.working 7 8] eq_refl)
    as (_ & Hoff & _).
  split; [reflexivity | exact (Hoff eq_refl)].
Defined.

(** ** A reload after a refresh *)

(** What a refresh of a live hook leaves in a storage that takes the
    write. *)
Lemma refresh_persists `{Platform} (options : Options) (g : Generators)
    (sales traffic products kpis : jsval) (t_state t_saved : Z) (w : World) :
  mountedRef w = true ->
  enablePersistence options = true ->
  generates g sales traffic products kpis ->
  denied (localStorage w) = false ->
  over_quota (localStorage w) storage_key
    (JSON_stringify (snapshot sales traffic products kpis (Date_toISOString t_saved)))
  = false ->
  let w' := run (refreshData options g t_state t_saved) w in
  denied (localStorage w') = false /\
  items (localStorage w') !! storage_key
  = Some (JSON_stringify (snapshot sales traffic products kpis (Date_toISOString t_saved))).
Proof.
  intros Hlive Hpersist (Hs & Ht & Hp & Hk) Hdenied Hquota w'. subst w'.
  destruct g as [gs gt gp gk]. simpl in Hs, Ht, Hp, Hk. subst gs gt gp gk.
  open_world w. subst. js_unfold. rewrite Hpersist. simpl.
  rewrite Hquota. simpl. split; [reflexivity | apply lookup_insert_eq].
Qed.

(** The mount effect after a load that found a snapshot: the sequences and
    the timestamp are the ones the load adopted. *)
Lemma mountEffect_loaded `{Platform} (options : Options) (g : Generators)
    (now t_state t_saved : Z) (w : World) :
  enablePersistence options = true ->
  result (loadPersistedData now) w = Normal true ->
  let w1 := run (loadPersistedData now) w in
  let w2 := run (mountEffect options g now t_state t_saved) w in
  salesData (state w2) = salesData (state w1) /\
  trafficData (state w2) = trafficData (state w1) /\
  productData (state w2) = productData (state w1) /\
  kpiData (state w2) = kpiData (state w1) /\
  lastUpdated (state w2) = lastUpdated (state w1) /\
  updateCount (state w2) = updateCount (state w1) /\
  error (state w2) = error (state w1).
Proof.
  intros Hpersist Hfound w1 w2.
  assert (Hrun : w2 = if autoStart options && isRealTime (state w1)
                      then run (startRealTime options) w1 else w1).
  { subst w2. unfold mountEffect. rewrite Hpersist.
    match goal with
    | |- run (mbind ?f (loadPersistedData now)) w = _ =>
        destruct (run_bind (loadPersistedData now) f w true Hfound) as [-> _]
    end.
    fold w1. unfold run, mbind, JS_bind, mret, JS_ret, reads, when. simpl.
    destruct (autoStart options && isRealTime (state w1)); reflexivity. }
  rewrite Hrun. destruct (autoStart options && isRealTime (state w1)).
  - destruct (startRealTime_spec options w1)
      as (_ & _ & _ & _ & _ & _ & _ & _ & Hs & Ht & Hp & Hk & Hu & Hc & _ & He).
    conjs; assumption.
  - conjs; reflexivity.
Qed.

(** The load leaves the counter and the error alone. *)
Lemma load_frame_fields `{Platform} (now : Z) (w : World) :
  updateCount (state (run (loadPersistedData now) w)) = updateCount (state w) /\
  error (state (run (loadPersistedData now) w)) = error (state w).
Proof.
  destruct w as [st ref live store running next log]. destruct st, store; simpl.
  js_unfold.
  repeat (simpl;
          match goal with
          | |- context [match ?c with Normal _ => _ | Throw _ => _ end] => destruct c
          | |- context [match ?o with Some _ => _ | None => _ end] => destruct o
          | |- context [if ?b then _ else _] => destruct b
          | |- context [match ?d with JUndefined => _ | _ => _ end] => destruct d
          end).
  all: simpl; split; reflexivity.
Qed.

Section Reload.
Context `{Randomness}.
Variable random : nat -> draw.

(** With six months, whatever the current month, every value the four
    generators return can be written as JSON. *)
Lemma refresh_generators_plain (currentMonth : Z) (k : nat) :
  0 <= currentMonth <= 11 ->
  exists sales traffic products kpis : jsval,
    generates (DataGenerator.refresh_generators random currentMonth k)
      sales traffic products kpis /\
    is_array sales = true /\ is_array traffic = true /\
    is_array products = true /\ is_array kpis = true /\
    Reference.plain sales = true /\ Reference.plain traffic = true /\
    Reference.plain products = true /\ Reference.plain kpis = true.
Proof.
  intros Hc.
  assert (Hcases : currentMonth = 0 \/ currentMonth = 1 \/ currentMonth = 2
                   \/ currentMonth = 3 \/ currentMonth = 4 \/ currentMonth = 5
                   \/ currentMonth = 6 \/ currentMonth = 7 \/ currentMonth = 8
                   \/ currentMonth = 9 \/ currentMonth = 10 \/ currentMonth = 11) by lia.
  clear Hc.
  repeat destruct Hcases as [-> | Hcases]; try subst currentMonth;
    (eexists _, _, _, _; split; [unfold generates; conjs; reflexivity |];
     conjs; reflexivity).
Qed.

(** X27. On the reference platform, after a refresh of a live hook with the
    generators of the repository into a storage that takes the write, a hook
    that mounts over that storage within the hour shows the very sequences
    the first hook showed, read back from their JSON text, without calling
    its generators.  Its timestamp is the time the snapshot was saved; its
    counter is 0 and it has no error. *)
Theorem reload_restores_generated (options : Options) (g : Generators)
    (currentMonth : Z) (k : nat) (t_state t_saved now t_state' t_saved' : Z)
    (w : World) (next : positive) (log : list (level * string)) :
  0 <= currentMonth <= 11 ->
  enablePersistence options = true ->
  mountedRef w = true ->
  denied (localStorage w) = false ->
  (forall key text, over_quota (localStorage w) key text = false) ->
  0 <= t_saved < 253402300800000 ->
  now - t_saved < staleness_window ->
  let w1 := run (refreshData (H := Reference.platform) options
                   (DataGenerator.refresh_generators random currentMonth k)
                   t_state t_saved) w in
  let w2 := run (mountEffect (H := Reference.platform) options g now t_state' t_saved')
              (initial options now (localStorage w1) next log) in
  salesData (state w2) = salesData (state w1) /\
  trafficData (state w2) = trafficData (state w1) /\
  productData (state w2) = productData (state w1) /\
  kpiData (state w2) = kpiData (state w1) /\
  lastUpdated (state w2) = t_saved /\
  updateCount (state w2) = 0 /\
  error (state w2) = None.
Proof.
  intros Hc Hpersist Hlive Hdenied Hquota Hrange Hfresh w1 w2.
  destruct (refresh_generators_plain currentMonth k Hc)
    as (sales & traffic & products & kpis & Hgen & As & At & Ap & Ak & Ps & Pt & Pp & Pk).
  destruct (reference_well_formed sales traffic products kpis t_saved
              As At Ap Ak Ps Pt Pp Pk Hrange)
    as (_ & _ & _ & _ & Hjson & Hdate).
  set (saved := snapshot sales traffic products kpis
                  (Date_toISOString (Platform := Reference.platform) t_saved)) in *.
  destruct (refresh_adopts (H := Reference.platform) options _ _ _ _ _ t_state t_saved w
              Hlive Hgen) as (Hs & Ht & Hp & Hk & _).
  fold w1 in Hs, Ht, Hp, Hk.
  destruct (refresh_persists (H := Reference.platform) options _ _ _ _ _ t_state t_saved w
              Hlive Hpersist Hgen Hdenied (Hquota _ _)) as (Hopen & Hslot).
  fold w1 saved in Hopen, Hslot.
  set (w0 := initial options now (localStorage w1) next log) in *.
  assert (Htext : JSON_stringify (Platform := Reference.platform) saved <> "").
  { intros Hempty. rewrite Hempty in Hjson. discriminate Hjson. }
  destruct (loadPersistedData_adopts (H := Reference.platform) now t_saved w0
              (JSON_stringify saved) _ Hopen Hslot Htext Hjson Hdate Hfresh eq_refl)
    as (Hfound & Ls & Lt & Lp & Lk & Lstamp).
  destruct (mountEffect_loaded (H := Reference.platform) options g now t_state' t_saved' w0
              Hpersist Hfound) as (Ms & Mt & Mp & Mk & Mstamp & Mcount & Merror).
  fold w2 in Ms, Mt, Mp, Mk, Mstamp, Mcount, Merror.
  assert (Hquiet : updateCount (state (run (loadPersistedData (H := Reference.platform) now) w0))
                   = 0 /\
                   error (state (run (loadPersistedData (H := Reference.platform) now) w0))
                   = None).
  { destruct (load_frame_fields (H := Reference.platform) now w0) as (Hcount & Herror).
    split; assumption. }
  destruct Hquiet as (Hcount & Herror).
  rewrite Ms, Mt, Mp, Mk, Mstamp, Mcount, Merror, Ls, Lt, Lp, Lk, Lstamp, Hs, Ht, Hp, Hk.
  simpl field.
  destruct sales; try discriminate As. destruct traffic; try discriminate At.
  destruct products; try discriminate Ap. destruct kpis; try discriminate Ak.
  conjs; try reflexivity; assumption.
Qed.

End Reload.

Lemma reload_restores_witness :
  salesData
    (state (run (mountEffect (H := Reference.platform) default_options Examples.broken
                   (Examples.morning + 60000) 7 8)
              (initial default_options (Examples.morning + 60000)
                 (localStorage
                    (run (refreshData (H := Reference.platform) default_options
                            (DataGenerator.refresh_generators (H := ExactDraws.randomness)
                               ExactDraws.stream 10 0)
                            Examples.morning Examples.morning) Examples.created))
                 1%positive [])))
  = salesData
      (state (run (refreshData (H := Reference.platform) default_options
                     (DataGenerator.refresh_generators (H := ExactDraws.randomness)
                        ExactDraws.stream 10 0)
                     Examples.morning Examples.morning) Examples.created)).
Proof.
  assert (Hmonth : 0 <= 10 <= 11) by lia.
  assert (Hrange : 0 <= Examples.morning < 253402300800000)
    by (vm_compute; split; congruence).
  assert (Hfresh : Examples.morning + 60000 - Examples.morning < staleness_window)
    by (vm_compute; reflexivity).
  destruct (reload_restores_generated (H := ExactDraws.randomness) ExactDraws.stream
              default_options Examples.broken 10 0 Examples.morning Examples.morning
              (Examples.morning + 60000) 7 8 Examples.created 1%positive []
              Hmonth eq_refl eq_refl eq_refl (fun _ _ => eq_refl) Hrange Hfresh)
    as (Hsales & _).
  exact Hsales.
Defined.

(** ** Reading a cell back *)

Lemma read_quoted_doubled (s : string) :
  read_quoted (double_each dquote s +:+ String dquote EmptyString) = s.
Proof.
  induction s as [| a s IH]; [reflexivity |].
  cbn [double_each]. destruct (Ascii.eqb_spec a dquote) as [-> | Hother].
  - rewrite !ReferenceFacts.append_cons. cbn [read_quoted].
    rewrite Ascii.eqb_refl, IH. reflexivity.
  - rewrite ReferenceFacts.append_cons. cbn [read_quoted].
    destruct (Ascii.eqb_spec a dquote); [contradiction |]. rewrite IH. reflexivity.
Qed.

(** X28. The cell [exportToCSV] writes for a text can be read back: a reader
    that takes a cell starting with a quote character as quoted, two quote
    characters inside standing for one, gets the text again, whatever commas
    and quote characters it holds.  A text with a comma or a quote character
    is written between quote characters, which makes their number even; any
    other is written as it stands. *)
Theorem csv_cell_round_trip (row : record) (header s : string) :
  field header row = JStr s ->
  read_cell (join_element (csv_cell row header)) = s /\
  (includes comma s || includes dquote s = true ->
   exists inside,
     join_element (csv_cell row header) = String dquote inside /\
     occurrences dquote inside = (2 * occurrences dquote s + 1)%nat) /\
  (includes comma s || includes dquote s = false ->
   join_element (csv_cell row header) = s).
Proof.
  intros Hfield. unfold csv_cell. rewrite Hfield.
  destruct (includes comma s || includes dquote s) eqn:Hspecial; cbn [join_element to_string].
  - split; [| split; [| discriminate]].
    + rewrite ReferenceFacts.append_cons. cbn [read_cell].
      rewrite Ascii.eqb_refl. apply read_quoted_doubled.
    + intros _. rewrite ReferenceFacts.append_cons. eexists. split; [reflexivity |].
      rewrite occurrences_append. simpl occurrences at 2.
      clear. induction s as [| a s IH]; [reflexivity |].
      cbn [double_each]. destruct (Ascii.eqb_spec a dquote) as [-> | Hother].
      * cbn [occurrences]. rewrite Ascii.eqb_refl. lia.
      * cbn [occurrences]. destruct (Ascii.eqb_spec a dquote); [contradiction |]. lia.
  - split; [| split; [discriminate | reflexivity]].
    apply orb_false_iff in Hspecial as (_ & Hquote).
    destruct s as [| a s]; [reflexivity |].
    cbn [read_cell]. cbn [includes] in Hquote.
    apply orb_false_iff in Hquote as (-> & _). reflexivity.
Qed.

Lemma csv_cell_round_trip_witness :
  join_element
    (csv_cell [("b", JStr ("say " +:+ String dquote ("hi" +:+ String dquote ", twice")))] "b")
  = String dquote
      ("say " +:+ String dquote (String dquote ("hi" +:+ String dquote
         (String dquote (", twice" +:+ String dquote ""))))) /\
  read_cell
    (join_element
       (csv_cell [("b", JStr ("say " +:+ String dquote ("hi" +:+ String dquote ", twice")))]
          "b"))
  = "say " +:+ String dquote ("hi" +:+ String dquote ", twice").
Proof.
  destruct (csv_cell_round_trip
              [("b", JStr ("say " +:+ String dquote ("hi" +:+ String dquote ", twice")))]
              "b" ("say " +:+ String dquote ("hi" +:+ String dquote ", twice")) eq_refl)
    as (Hback & _).
  split; [reflexivity | exact Hback].
Defined.
